(** * Hive tool adapters (Twitter/X and Google Docs): a shallow embedding

    The development follows
      - [aden_tools/tools/twitter_tool/twitter_tool.py]
      - [aden_tools/tools/google_docs_tool/google_docs_tool.py]
      - [aden_tools/credentials/twitter.py], [aden_tools/credentials/integrations.py]

    Python values are an inductive type; a method that may raise returns a
    [res]; code that talks to the network runs in a state-and-exception monad
    whose state holds the client object and the list of HTTP requests issued so
    far.  The remote API, the process environment and the pieces of the Python
    runtime that the code calls but does not define ([json.loads], [repr] of
    compound values, [base64.b64encode]) are gathered in a [Host] record. *)

From Stdlib Require Import ZArith List String Ascii Bool Lia DecimalString.
From Stdlib Require Import PrimFloat SpecFloat FloatOps.
Import ListNotations.

#[local] Set Warnings "-register-all".

Local Open Scope string_scope.
Local Open Scope Z_scope.

(* ===================================================================== *)
(** ** Python values, exceptions and the operators the code uses *)
(* ===================================================================== *)

Module Py.

(** The values that flow through the tools: what [json.loads] and
    [response.json()] produce, what the tools build and return.  A [dict] is an
    association list in insertion order, looked up by first match. *)
Inductive value : Type :=
| VNone
| VBool (b : bool)
| VInt (z : Z)
| VFloat (f : float)
| VStr (s : string)
| VList (l : list value)
| VDict (d : list (string * value)).

(** The exception classes that occur.  [TimeoutException] is the [httpx] class
    (a subclass of [httpx.RequestError]); [RequestError] stands for every other
    [httpx.RequestError]; [OtherError] for any exception class not named here. *)
Inductive exn : Type :=
| TypeError (msg : string)
| AttributeError (msg : string)
| KeyError (msg : string)
| IndexError (msg : string)
| OverflowError (msg : string)
| JSONDecodeError (msg : string)
| TimeoutException (msg : string)
| RequestError (msg : string)
| OtherError (cls msg : string).

Inductive res (A : Type) : Type :=
| Ok (a : A)
| Raise (e : exn).
Arguments Ok {A} a.
Arguments Raise {A} e.

Definition rbind {A B} (r : res A) (k : A -> res B) : res B :=
  match r with
  | Ok a => k a
  | Raise e => Raise e
  end.

(** [try: body / except Exception: handler] on a pure computation. *)
Definition try_except {A} (body : res A) (handler : A) : A :=
  match body with
  | Ok a => a
  | Raise _ => handler
  end.

(** [bool(v)]. *)
Definition truthy (v : value) : bool :=
  match v with
  | VNone => false
  | VBool b => b
  | VInt z => negb (z =? 0)
  | VFloat f => negb (PrimFloat.eqb f 0%float)
  | VStr s => negb (String.eqb s "")
  | VList l => match l with [] => false | _ => true end
  | VDict d => match d with [] => false | _ => true end
  end.

(** [type(v).__name__]. *)
Definition type_name (v : value) : string :=
  match v with
  | VNone => "NoneType"
  | VBool _ => "bool"
  | VInt _ => "int"
  | VFloat _ => "float"
  | VStr _ => "str"
  | VList _ => "list"
  | VDict _ => "dict"
  end.

Definition isinstance_str (v : value) : bool :=
  match v with VStr _ => true | _ => false end.

Definition isinstance_dict (v : value) : bool :=
  match v with VDict _ => true | _ => false end.

Definition isinstance_list (v : value) : bool :=
  match v with VList _ => true | _ => false end.

Definition is_none (v : value) : bool :=
  match v with VNone => true | _ => false end.

(** [str(z)] for an [int]. *)
Definition str_of_int (z : Z) : string :=
  NilZero.string_of_int (Z.to_int z).

(** [str(v)], as an f-string field formats it.  [repr_compound] is the
    runtime's text for floats, lists and dicts. *)
Definition str (repr_compound : value -> string) (v : value) : string :=
  match v with
  | VNone => "None"
  | VBool true => "True"
  | VBool false => "False"
  | VInt z => str_of_int z
  | VStr s => s
  | _ => repr_compound v
  end.

(** Dictionaries. *)
Fixpoint lookup (k : string) (d : list (string * value)) : option value :=
  match d with
  | [] => None
  | (k', v) :: d' => if String.eqb k k' then Some v else lookup k d'
  end.

Definition has_key (k : string) (d : list (string * value)) : bool :=
  match lookup k d with Some _ => true | None => false end.

(** [d[k] = v]: replace in place, or append a new key. *)
Fixpoint dict_set (k : string) (v : value) (d : list (string * value))
  : list (string * value) :=
  match d with
  | [] => [(k, v)]
  | (k', v') :: d' =>
      if String.eqb k k' then (k, v) :: d' else (k', v') :: dict_set k v d'
  end.

(** [needle in hay] for strings. *)
Fixpoint str_contains (needle hay : string) : bool :=
  String.prefix needle hay
  || match hay with
     | EmptyString => false
     | String _ hay' => str_contains needle hay'
     end.

(** [v.get(k, default)]: only a [dict] has the method. *)
Definition get (v : value) (k : string) (default : value) : res value :=
  match v with
  | VDict d => Ok (match lookup k d with Some x => x | None => default end)
  | _ => Raise (AttributeError
                  ("'" ++ type_name v ++ "' object has no attribute 'get'"))
  end.

(** [v[k]] with a string key. *)
Definition getitem (v : value) (k : string) : res value :=
  match v with
  | VDict d => match lookup k d with
               | Some x => Ok x
               | None => Raise (KeyError k)
               end
  | VList _ => Raise (TypeError "list indices must be integers or slices, not str")
  | VStr _ => Raise (TypeError "string indices must be integers, not 'str'")
  | _ => Raise (TypeError ("'" ++ type_name v ++ "' object is not subscriptable"))
  end.

Definition explode (s : string) : list value :=
  map (fun c => VStr (String c EmptyString)) (list_ascii_of_string s).

(** [seq[i]] on a Python sequence with an integer index ([-1] is the last). *)
Definition seq_index {A} (l : list A) (i : Z) : option A :=
  let n := Z.of_nat (List.length l) in
  let j := if i <? 0 then i + n else i in
  if (0 <=? j) && (j <? n) then nth_error l (Z.to_nat j) else None.

(** [v[i]] with an integer index.  The keys of the dicts at hand are strings,
    so an integer key is never found.  A string is indexed per character of
    its representation. *)
Definition getitem_int (v : value) (i : Z) : res value :=
  match v with
  | VList l => match seq_index l i with
               | Some x => Ok x
               | None => Raise (IndexError "list index out of range")
               end
  | VStr s => match seq_index (explode s) i with
              | Some x => Ok x
              | None => Raise (IndexError "string index out of range")
              end
  | VDict _ => Raise (KeyError (str_of_int i))
  | _ => Raise (TypeError ("'" ++ type_name v ++ "' object is not subscriptable"))
  end.

Definition is_the_str (k : string) (v : value) : bool :=
  match v with VStr s => String.eqb k s | _ => false end.

(** [k in v] for a string [k]: key of a dict, element of a list, substring of
    a string; anything else is not iterable. *)
Definition contains (k : string) (v : value) : res bool :=
  match v with
  | VDict d => Ok (has_key k d)
  | VList l => Ok (existsb (is_the_str k) l)
  | VStr s => Ok (str_contains k s)
  | _ => Raise (TypeError
                  ("argument of type '" ++ type_name v ++ "' is not iterable"))
  end.

(** [for x in v]: the items visited. *)
Definition iter (v : value) : res (list value) :=
  match v with
  | VList l => Ok l
  | VDict d => Ok (map (fun kv => VStr (fst kv)) d)
  | VStr s => Ok (explode s)
  | _ => Raise (TypeError ("'" ++ type_name v ++ "' object is not iterable"))
  end.

(** [float(z)], rounding to nearest even; too large an [int] overflows. *)
Definition float_of_int (z : Z) : res float :=
  let f := SF2Prim (binary_normalize prec emax z 0 false) in
  if PrimFloat.is_infinity f
  then Raise (OverflowError "int too large to convert to float")
  else Ok f.

Definition int_of_bool (b : bool) : Z := if b then 1 else 0.

(** The numeric operand of [+] and [-]: an [int] (a [bool] counts as one) or
    a [float]. *)
Inductive num : Type :=
| NInt (z : Z)
| NFloat (f : float).

Definition as_num (v : value) : option num :=
  match v with
  | VBool b => Some (NInt (int_of_bool b))
  | VInt z => Some (NInt z)
  | VFloat f => Some (NFloat f)
  | _ => None
  end.

Definition arith (op_name : string) (zop : Z -> Z -> Z)
           (fop : float -> float -> float) (a b : value) : res value :=
  match as_num a, as_num b with
  | Some (NInt x), Some (NInt y) => Ok (VInt (zop x y))
  | Some (NInt x), Some (NFloat g) =>
      rbind (float_of_int x) (fun f => Ok (VFloat (fop f g)))
  | Some (NFloat f), Some (NInt y) =>
      rbind (float_of_int y) (fun g => Ok (VFloat (fop f g)))
  | Some (NFloat f), Some (NFloat g) => Ok (VFloat (fop f g))
  | _, _ => Raise (TypeError
                     ("unsupported operand type(s) for " ++ op_name ++ ": '"
                      ++ type_name a ++ "' and '" ++ type_name b ++ "'"))
  end.

(** [a - b] and [a + b] where the left or right operand is a number. *)
Definition sub : value -> value -> res value := arith "-" Z.sub PrimFloat.sub.
Definition add : value -> value -> res value := arith "+" Z.add PrimFloat.add.

(** [s.lower()] on the ASCII letters. *)
Definition lower_ascii (c : ascii) : ascii :=
  let n := nat_of_ascii c in
  if (65 <=? n)%nat && (n <=? 90)%nat then ascii_of_nat (n + 32) else c.

Fixpoint lower (s : string) : string :=
  match s with
  | EmptyString => EmptyString
  | String c s' => String (lower_ascii c) (lower s')
  end.

(** [x or y] where both are strings: the tools turn [""] into [None]. *)
Definition str_or_none (s : string) : option string :=
  if String.eqb s "" then None else Some s.

End Py.

(* ===================================================================== *)
(** ** The HTTP boundary and the monad of the adapters *)
(* ===================================================================== *)

Module Http.
Import Py.

Inductive verb : Type := GET | POST | DELETE.

(** One call of [httpx.get], [httpx.post] or [httpx.delete] with the keyword
    arguments the adapters pass.  [req_timeout] is in seconds. *)
Record Request : Type := {
  req_method : verb;
  req_url : string;
  req_headers : list (string * string);
  req_params : list (string * value);
  req_json : option value;
  req_timeout : Z
}.

(** What the adapters read of an [httpx.Response]: [json_body] is the outcome
    of [response.json()], which raises when the body is not a JSON document
    (an empty body is not one). *)
Record Response : Type := {
  status_code : Z;
  resp_headers : list (string * string);
  text : string;
  content : string;
  json_body : res value
}.

(** [response.headers.get(name, default)]; header names compare without case.
    Each header is listed once, with the value [httpx] reports for it. *)
Fixpoint headers_get (hs : list (string * string)) (name default : string)
  : string :=
  match hs with
  | [] => default
  | (n, v) :: hs' =>
      if String.eqb (lower n) (lower name) then v else headers_get hs' name default
  end.

(** An HTTP exchange either delivers a response or raises in [httpx]. *)
Inductive outcome : Type :=
| Responds (r : Response)
| Fails (e : exn).

(** Everything outside the repository that the tools depend on. *)
Record Host : Type := {
  (** the remote side: its answer to a request, given the requests issued
      before it *)
  server : list Request -> Request -> outcome;
  (** [os.getenv] *)
  getenv : string -> option string;
  (** [json.loads] on a string *)
  json_loads : string -> res value;
  (** [repr] of floats, lists and dicts *)
  repr_compound : value -> string;
  (** [base64.b64encode(b).decode("utf-8")] *)
  b64encode : string -> string
}.

(** The state a method runs in: the object it is called on and the requests
    issued so far, oldest first.  An exception leaves the state as it was when
    it was raised. *)
Record world (O : Type) : Type := {
  self : O;
  sent : list Request
}.
Arguments self {O} w.
Arguments sent {O} w.

Definition M (O A : Type) : Type := world O -> res A * world O.

Definition ret {O A} (a : A) : M O A := fun w => (Ok a, w).

Definition raise {O A} (e : exn) : M O A := fun w => (Raise e, w).

Definition bind {O A B} (m : M O A) (k : A -> M O B) : M O B :=
  fun w =>
    match m w with
    | (Ok a, w') => k a w'
    | (Raise e, w') => (Raise e, w')
    end.

Definition lift {O A} (r : res A) : M O A := fun w => (r, w).

Definition get_self {O} : M O O := fun w => (Ok (self w), w).

Definition set_self {O} (o : O) : M O unit :=
  fun w => (Ok tt, {| self := o; sent := sent w |}).

(** Issue one request: it is recorded, and the host decides how it ends. *)
Definition httpx_request {O} (h : Host) (req : Request) : M O Response :=
  fun w =>
    let w' := {| self := self w; sent := sent w ++ [req] |} in
    match server h (sent w) req with
    | Responds r => (Ok r, w')
    | Fails e => (Raise e, w')
    end.

Definition httpx_get {O} (h : Host) (url : string)
           (headers : list (string * string)) (params : list (string * value))
           (timeout : Z) : M O Response :=
  httpx_request h {| req_method := GET; req_url := url; req_headers := headers;
                     req_params := params; req_json := None;
                     req_timeout := timeout |}.

Definition httpx_post {O} (h : Host) (url : string)
           (headers : list (string * string)) (params : list (string * value))
           (json : value) (timeout : Z) : M O Response :=
  httpx_request h {| req_method := POST; req_url := url; req_headers := headers;
                     req_params := params; req_json := Some json;
                     req_timeout := timeout |}.

Definition httpx_delete {O} (h : Host) (url : string)
           (headers : list (string * string)) (timeout : Z) : M O Response :=
  httpx_request h {| req_method := DELETE; req_url := url;
                     req_headers := headers; req_params := []; req_json := None;
                     req_timeout := timeout |}.

(** The two handlers every registered tool ends with:
    [except httpx.TimeoutException: return {"error": "Request timed out"}]
    [except httpx.RequestError as e: return {"error": f"Network error: {e}"}] *)
Definition except_httpx {O} (body : M O value) : M O value :=
  fun w =>
    match body w with
    | (Raise (TimeoutException _), w') =>
        (Ok (VDict [("error", VStr "Request timed out")]), w')
    | (Raise (RequestError msg), w') =>
        (Ok (VDict [("error", VStr ("Network error: " ++ msg))]), w')
    | other => other
    end.

(** A registered tool is called with no object of its own; once it has built
    a client, the method calls run on that client. *)
Definition on_client {O A} (client : O) (m : M O A) : M unit A :=
  fun w =>
    let (r, w') := m {| self := client; sent := sent w |} in
    (r, {| self := tt; sent := sent w' |}).

(** A call from a state in which nothing has been sent yet. *)
Definition fresh {O} (o : O) : world O := {| self := o; sent := [] |}.

Definition host : world unit := fresh tt.

End Http.

Declare Scope adapter_scope.
Delimit Scope adapter_scope with adapter.
Notation "x <- m ;; k" := (Http.bind m (fun x => k))
  (at level 61, m at next level, right associativity) : adapter_scope.
Notation "m ;;; k" := (Http.bind m (fun _ => k))
  (at level 61, right associativity) : adapter_scope.

(* ===================================================================== *)
(** ** credentials/twitter.py and credentials/integrations.py *)
(* ===================================================================== *)

Module Credentials.

(** The fields of a [CredentialSpec] that the two files set, apart from the
    two free-text ones ([description], [api_key_instructions]). *)
Record CredentialSpec : Type := {
  env_var : string;
  tools : list string;
  required : bool;
  startup_required : bool;
  help_url : string;
  aden_supported : bool;
  aden_provider_name : string;
  direct_api_key_supported : bool;
  health_check_endpoint : string;
  health_check_method : string;
  credential_id : string;
  credential_key : string
}.

(** [TWITTER_CREDENTIALS["twitter"]] *)
Definition twitter : CredentialSpec := {|
  env_var := "TWITTER_BEARER_TOKEN";
  tools := ["twitter_post_tweet"; "twitter_delete_tweet"; "twitter_get_tweet";
            "twitter_search_tweets"; "twitter_like_tweet"; "twitter_unlike_tweet";
            "twitter_retweet"; "twitter_undo_retweet"; "twitter_get_user";
            "twitter_follow_user"; "twitter_unfollow_user";
            "twitter_get_followers"; "twitter_get_following";
            "twitter_get_user_tweets"; "twitter_get_mentions"];
  required := true;
  startup_required := false;
  help_url := "https://developer.twitter.com/en/portal/dashboard";
  aden_supported := true;
  aden_provider_name := "twitter";
  direct_api_key_supported := false;
  health_check_endpoint := "https://api.twitter.com/2/users/me";
  health_check_method := "GET";
  credential_id := "twitter";
  credential_key := "access_token"
|}.

(** [INTEGRATION_CREDENTIALS["google_docs"]] *)
Definition google_docs : CredentialSpec := {|
  env_var := "GOOGLE_DOCS_ACCESS_TOKEN";
  tools := ["google_docs_create_document"; "google_docs_get_document";
            "google_docs_insert_text"; "google_docs_replace_all_text";
            "google_docs_insert_image"; "google_docs_format_text";
            "google_docs_batch_update"; "google_docs_create_list";
            "google_docs_add_comment"; "google_docs_export_content"];
  required := true;
  startup_required := false;
  help_url := "https://console.cloud.google.com/apis/credentials";
  aden_supported := true;
  aden_provider_name := "google";
  direct_api_key_supported := true;
  health_check_endpoint := "https://docs.googleapis.com/v1/documents/1";
  health_check_method := "GET";
  credential_id := "google_docs";
  credential_key := "access_token"
|}.

End Credentials.

(* ===================================================================== *)
(** ** twitter_tool.py *)
(* ===================================================================== *)

Module Twitter.
Import Py Http.
Local Open Scope adapter_scope.

Definition TWITTER_API_BASE : string := "https://api.twitter.com/2".

(** [class _TwitterClient]: [__init__] stores the token and leaves [_me_id]
    at [None]. *)
Record Client : Type := {
  _token : value;
  _me_id : value
}.

Definition _TwitterClient (bearer_token : value) : Client :=
  {| _token := bearer_token; _me_id := VNone |}.

Section Client.
Variable h : Host.

Definition fstr (v : value) : string := str (repr_compound h) v.

Definition _headers (self : Client) : list (string * string) :=
  [("Authorization", "Bearer " ++ fstr (_token self));
   ("Content-Type", "application/json")].

(** The message of a response that is neither 200, 201 nor 204: the first
    entry of [errors] if there is one, else [detail], else the body text;
    the body text as well when anything in between raises. *)
Definition error_message (response : Response) : value :=
  try_except
    (rbind (json_body response) (fun err =>
     rbind (get err "errors" (VList [])) (fun errors =>
     if truthy errors
     then rbind (getitem_int errors 0) (fun e0 => get e0 "message" VNone)
     else get err "detail" (VStr (text response)))))
    (VStr (text response)).

Definition _handle_response (response : Response) : res value :=
  if status_code response =? 429 then
    let reset := headers_get (resp_headers response) "x-rate-limit-reset" "unknown" in
    Ok (VDict [("error", VStr ("Rate limited. Resets at timestamp: " ++ reset))])
  else if status_code response =? 401 then
    Ok (VDict [("error", VStr "Invalid or expired Twitter token")])
  else if status_code response =? 403 then
    Ok (VDict [("error",
                VStr "Forbidden - check token permissions (need read+write scope)")])
  else if negb ((status_code response =? 200) || (status_code response =? 201)
                || (status_code response =? 204)) then
    let msg := error_message response in
    Ok (VDict [("error",
                VStr ("Twitter API error (" ++ str_of_int (status_code response)
                      ++ "): " ++ fstr msg))])
  else if status_code response =? 204 then
    Ok (VDict [("success", VBool true)])
  else json_body response.

Definition set_me_id (v : value) : M Client unit :=
  self <- get_self ;;
  set_self {| _token := _token self; _me_id := v |}.

Definition _get_me_id : M Client value :=
  self <- get_self ;;
  if negb (is_none (_me_id self)) then ret (_me_id self) else
  response <- httpx_get h (TWITTER_API_BASE ++ "/users/me") (_headers self) [] 30 ;;
  result <- lift (_handle_response response) ;;
  is_err <- lift (contains "error" result) ;;
  if is_err : bool then ret result else
  data <- lift (getitem result "data") ;;
  id <- lift (getitem data "id") ;;
  set_me_id id ;;;
  self <- get_self ;;
  ret (_me_id self).

(** *** Tweets *)

Definition post_tweet (text : string) (reply_to : option string)
  : M Client value :=
  let body := [("text", VStr text)] in
  let body := match reply_to with
              | Some r => if negb (String.eqb r "")
                          then dict_set "reply"
                                 (VDict [("in_reply_to_tweet_id", VStr r)]) body
                          else body
              | None => body
              end in
  self <- get_self ;;
  response <- httpx_post h (TWITTER_API_BASE ++ "/tweets") (_headers self) []
                (VDict body) 30 ;;
  lift (_handle_response response).

Definition delete_tweet (tweet_id : string) : M Client value :=
  self <- get_self ;;
  response <- httpx_delete h (TWITTER_API_BASE ++ "/tweets/" ++ tweet_id)
                (_headers self) 30 ;;
  lift (_handle_response response).

Definition get_tweet (tweet_id tweet_fields : string) : M Client value :=
  self <- get_self ;;
  response <- httpx_get h (TWITTER_API_BASE ++ "/tweets/" ++ tweet_id)
                (_headers self) [("tweet.fields", VStr tweet_fields)] 30 ;;
  lift (_handle_response response).

Definition search_tweets (query : string) (max_results : Z)
           (tweet_fields : string) : M Client value :=
  self <- get_self ;;
  response <- httpx_get h (TWITTER_API_BASE ++ "/tweets/search/recent")
                (_headers self)
                [("query", VStr query);
                 ("max_results", VInt (Z.max 10 (Z.min max_results 100)));
                 ("tweet.fields", VStr tweet_fields)] 30 ;;
  lift (_handle_response response).

(** *** Engagement *)

Definition like_tweet (tweet_id : string) : M Client value :=
  me_id <- _get_me_id ;;
  if isinstance_dict me_id then ret me_id else
  self <- get_self ;;
  response <- httpx_post h (TWITTER_API_BASE ++ "/users/" ++ fstr me_id ++ "/likes")
                (_headers self) [] (VDict [("tweet_id", VStr tweet_id)]) 30 ;;
  lift (_handle_response response).

Definition unlike_tweet (tweet_id : string) : M Client value :=
  me_id <- _get_me_id ;;
  if isinstance_dict me_id then ret me_id else
  self <- get_self ;;
  response <- httpx_delete h
                (TWITTER_API_BASE ++ "/users/" ++ fstr me_id ++ "/likes/" ++ tweet_id)
                (_headers self) 30 ;;
  lift (_handle_response response).

Definition retweet (tweet_id : string) : M Client value :=
  me_id <- _get_me_id ;;
  if isinstance_dict me_id then ret me_id else
  self <- get_self ;;
  response <- httpx_post h
                (TWITTER_API_BASE ++ "/users/" ++ fstr me_id ++ "/retweets")
                (_headers self) [] (VDict [("tweet_id", VStr tweet_id)]) 30 ;;
  lift (_handle_response response).

Definition undo_retweet (tweet_id : string) : M Client value :=
  me_id <- _get_me_id ;;
  if isinstance_dict me_id then ret me_id else
  self <- get_self ;;
  response <- httpx_delete h
                (TWITTER_API_BASE ++ "/users/" ++ fstr me_id ++ "/retweets/"
                 ++ tweet_id)
                (_headers self) 30 ;;
  lift (_handle_response response).

(** *** Users and following *)

Definition get_user (username : string) : M Client value :=
  self <- get_self ;;
  response <- httpx_get h (TWITTER_API_BASE ++ "/users/by/username/" ++ username)
                (_headers self)
                [("user.fields",
                  VStr "created_at,description,public_metrics,verified")] 30 ;;
  lift (_handle_response response).

Definition follow_user (target_user_id : string) : M Client value :=
  me_id <- _get_me_id ;;
  if isinstance_dict me_id then ret me_id else
  self <- get_self ;;
  response <- httpx_post h
                (TWITTER_API_BASE ++ "/users/" ++ fstr me_id ++ "/following")
                (_headers self) []
                (VDict [("target_user_id", VStr target_user_id)]) 30 ;;
  lift (_handle_response response).

Definition unfollow_user (target_user_id : string) : M Client value :=
  me_id <- _get_me_id ;;
  if isinstance_dict me_id then ret me_id else
  self <- get_self ;;
  response <- httpx_delete h
                (TWITTER_API_BASE ++ "/users/" ++ fstr me_id ++ "/following/"
                 ++ target_user_id)
                (_headers self) 30 ;;
  lift (_handle_response response).

(** [if pagination_token: params["pagination_token"] = pagination_token] *)
Definition with_pagination (pagination_token : option string)
           (params : list (string * value)) : list (string * value) :=
  match pagination_token with
  | Some t => if negb (String.eqb t "")
              then dict_set "pagination_token" (VStr t) params
              else params
  | None => params
  end.

Definition get_followers (user_id : string) (max_results : Z)
           (pagination_token : option string) : M Client value :=
  let params := with_pagination pagination_token
                  [("max_results", VInt (Z.min max_results 1000));
                   ("user.fields", VStr "created_at,description,public_metrics")] in
  self <- get_self ;;
  response <- httpx_get h (TWITTER_API_BASE ++ "/users/" ++ user_id ++ "/followers")
                (_headers self) params 30 ;;
  lift (_handle_response response).

Definition get_following (user_id : string) (max_results : Z)
           (pagination_token : option string) : M Client value :=
  let params := with_pagination pagination_token
                  [("max_results", VInt (Z.min max_results 1000));
                   ("user.fields", VStr "created_at,description,public_metrics")] in
  self <- get_self ;;
  response <- httpx_get h (TWITTER_API_BASE ++ "/users/" ++ user_id ++ "/following")
                (_headers self) params 30 ;;
  lift (_handle_response response).

(** *** Timeline *)

Definition get_user_tweets (user_id : string) (max_results : Z)
           (pagination_token : option string) (tweet_fields : string)
  : M Client value :=
  let params := with_pagination pagination_token
                  [("max_results", VInt (Z.max 5 (Z.min max_results 100)));
                   ("tweet.fields", VStr tweet_fields)] in
  self <- get_self ;;
  response <- httpx_get h (TWITTER_API_BASE ++ "/users/" ++ user_id ++ "/tweets")
                (_headers self) params 30 ;;
  lift (_handle_response response).

Definition get_mentions (user_id : string) (max_results : Z)
           (pagination_token : option string) (tweet_fields : string)
  : M Client value :=
  let params := with_pagination pagination_token
                  [("max_results", VInt (Z.max 5 (Z.min max_results 100)));
                   ("tweet.fields", VStr tweet_fields)] in
  self <- get_self ;;
  response <- httpx_get h (TWITTER_API_BASE ++ "/users/" ++ user_id ++ "/mentions")
                (_headers self) params 30 ;;
  lift (_handle_response response).

End Client.

(** *** [register_tools(mcp, credentials)] *)

Section register_tools.
Variable h : Host.
(** [credentials]: [None], or an adapter given by its [get]. *)
Variable credentials : option (string -> value).

Definition _get_token : res value :=
  match credentials with
  | Some credentials_get =>
      let token := credentials_get "twitter" in
      if negb (is_none token) && negb (isinstance_str token)
      then Raise (TypeError
                    ("Expected string from credentials.get('twitter'), got "
                     ++ type_name token))
      else Ok token
  | None =>
      Ok (match getenv h "TWITTER_BEARER_TOKEN" with
          | Some s => VStr s
          | None => VNone
          end)
  end.

Definition not_configured : value :=
  VDict [("error", VStr "Twitter credentials not configured");
         ("help", VStr ("Set TWITTER_BEARER_TOKEN environment variable "
                        ++ "or connect Twitter via hive.adenhq.com"))].

(** The result is an error dict ([inl]) or a client ([inr]);
    [isinstance(client, dict)] tells them apart. *)
Definition _get_client : res (value + Client) :=
  rbind _get_token (fun token =>
  if negb (truthy token) then Ok (inl not_configured)
  else Ok (inr (_TwitterClient token))).

(** The frame shared by the fifteen tools: get a client or return the error
    dict, then run the body under the two [except] clauses. *)
Definition tool (body : M Client value) : M unit value :=
  client <- lift _get_client ;;
  match client with
  | inl err => ret err
  | inr client => on_client client (except_httpx body)
  end.

Definition twitter_post_tweet (text reply_to : string) : M unit value :=
  tool (result <- post_tweet h text (str_or_none reply_to) ;;
        is_err <- lift (contains "error" result) ;;
        if is_err : bool then ret result else
        data <- lift (get result "data" (VDict [])) ;;
        tweet_id <- lift (get data "id" VNone) ;;
        txt <- lift (get data "text" VNone) ;;
        ret (VDict [("success", VBool true); ("tweet_id", tweet_id);
                    ("text", txt)])).

Definition twitter_delete_tweet (tweet_id : string) : M unit value :=
  tool (result <- delete_tweet h tweet_id ;;
        is_err <- lift (contains "error" result) ;;
        if is_err : bool then ret result else
        data <- lift (get result "data" (VDict [])) ;;
        deleted <- lift (get data "deleted" (VBool false)) ;;
        ret (VDict [("success", VBool true); ("deleted", deleted)])).

(** [if "error" in result: return result] followed by [return result]. *)
Definition pass_through (call : M Client value) : M Client value :=
  result <- call ;;
  is_err <- lift (contains "error" result) ;;
  if is_err : bool then ret result else ret result.

Definition twitter_get_tweet (tweet_id tweet_fields : string) : M unit value :=
  tool (pass_through (get_tweet h tweet_id tweet_fields)).

Definition twitter_search_tweets (query : string) (max_results : Z)
           (tweet_fields : string) : M unit value :=
  tool (pass_through (search_tweets h query max_results tweet_fields)).

(** [flag = result.get("data", {}).get(key, default)];
    [return {"success": True, key: flag}]. *)
Definition report_flag (key : string) (default : bool) (call : M Client value)
  : M Client value :=
  result <- call ;;
  is_err <- lift (contains "error" result) ;;
  if is_err : bool then ret result else
  data <- lift (get result "data" (VDict [])) ;;
  flag <- lift (get data key (VBool default)) ;;
  ret (VDict [("success", VBool true); (key, flag)]).

Definition twitter_like_tweet (tweet_id : string) : M unit value :=
  tool (report_flag "liked" false (like_tweet h tweet_id)).

Definition twitter_unlike_tweet (tweet_id : string) : M unit value :=
  tool (report_flag "liked" false (unlike_tweet h tweet_id)).

Definition twitter_retweet (tweet_id : string) : M unit value :=
  tool (report_flag "retweeted" false (retweet h tweet_id)).

Definition twitter_undo_retweet (tweet_id : string) : M unit value :=
  tool (report_flag "retweeted" false (undo_retweet h tweet_id)).

Definition twitter_get_user (username : string) : M unit value :=
  tool (pass_through (get_user h username)).

Definition twitter_follow_user (target_user_id : string) : M unit value :=
  tool (report_flag "following" false (follow_user h target_user_id)).

Definition twitter_unfollow_user (target_user_id : string) : M unit value :=
  tool (report_flag "following" true (unfollow_user h target_user_id)).

Definition twitter_get_followers (user_id : string) (max_results : Z)
           (pagination_token : string) : M unit value :=
  tool (pass_through
          (get_followers h user_id max_results (str_or_none pagination_token))).

Definition twitter_get_following (user_id : string) (max_results : Z)
           (pagination_token : string) : M unit value :=
  tool (pass_through
          (get_following h user_id max_results (str_or_none pagination_token))).

Definition twitter_get_user_tweets (user_id : string) (max_results : Z)
           (pagination_token tweet_fields : string) : M unit value :=
  tool (pass_through
          (get_user_tweets h user_id max_results (str_or_none pagination_token)
             tweet_fields)).

Definition twitter_get_mentions (user_id : string) (max_results : Z)
           (pagination_token tweet_fields : string) : M unit value :=
  tool (pass_through
          (get_mentions h user_id max_results (str_or_none pagination_token)
             tweet_fields)).

(** A call of one of the registered tools, by name and arguments. *)
Inductive call : Type :=
| Post_tweet (text reply_to : string)
| Delete_tweet (tweet_id : string)
| Get_tweet (tweet_id tweet_fields : string)
| Search_tweets (query : string) (max_results : Z) (tweet_fields : string)
| Like_tweet (tweet_id : string)
| Unlike_tweet (tweet_id : string)
| Retweet (tweet_id : string)
| Undo_retweet (tweet_id : string)
| Get_user (username : string)
| Follow_user (target_user_id : string)
| Unfollow_user (target_user_id : string)
| Get_followers (user_id : string) (max_results : Z) (pagination_token : string)
| Get_following (user_id : string) (max_results : Z) (pagination_token : string)
| Get_user_tweets (user_id : string) (max_results : Z)
                  (pagination_token tweet_fields : string)
| Get_mentions (user_id : string) (max_results : Z)
               (pagination_token tweet_fields : string).

Definition invoke (c : call) : M unit value :=
  match c with
  | Post_tweet text reply_to => twitter_post_tweet text reply_to
  | Delete_tweet tweet_id => twitter_delete_tweet tweet_id
  | Get_tweet tweet_id tweet_fields => twitter_get_tweet tweet_id tweet_fields
  | Search_tweets query max_results tweet_fields =>
      twitter_search_tweets query max_results tweet_fields
  | Like_tweet tweet_id => twitter_like_tweet tweet_id
  | Unlike_tweet tweet_id => twitter_unlike_tweet tweet_id
  | Retweet tweet_id => twitter_retweet tweet_id
  | Undo_retweet tweet_id => twitter_undo_retweet tweet_id
  | Get_user username => twitter_get_user username
  | Follow_user target_user_id => twitter_follow_user target_user_id
  | Unfollow_user target_user_id => twitter_unfollow_user target_user_id
  | Get_followers user_id max_results pagination_token =>
      twitter_get_followers user_id max_results pagination_token
  | Get_following user_id max_results pagination_token =>
      twitter_get_following user_id max_results pagination_token
  | Get_user_tweets user_id max_results pagination_token tweet_fields =>
      twitter_get_user_tweets user_id max_results pagination_token tweet_fields
  | Get_mentions user_id max_results pagination_token tweet_fields =>
      twitter_get_mentions user_id max_results pagination_token tweet_fields
  end.

End register_tools.

End Twitter.

(* ===================================================================== *)
(** ** google_docs_tool.py *)
(* ===================================================================== *)

Module GoogleDocs.
Import Py Http.
Local Open Scope adapter_scope.

Definition GOOGLE_DOCS_API_BASE : string := "https://docs.googleapis.com/v1".
Definition GOOGLE_DRIVE_API_BASE : string := "https://www.googleapis.com/drive/v3".

(** [class _GoogleDocsClient] *)
Record Client : Type := {
  _token : value
}.

Definition _GoogleDocsClient (access_token : value) : Client :=
  {| _token := access_token |}.

Section Client.
Variable h : Host.

Definition fstr (v : value) : string := str (repr_compound h) v.

Definition _headers (self : Client) : list (string * string) :=
  [("Authorization", "Bearer " ++ fstr (_token self));
   ("Content-Type", "application/json");
   ("Accept", "application/json")].

(** The detail of a status of 400 or more outside the table:
    [error.message] of the body, else the body text. *)
Definition error_detail (response : Response) : value :=
  try_except
    (rbind (json_body response) (fun error_data =>
     rbind (get error_data "error" (VDict [])) (fun e =>
     get e "message" (VStr (text response)))))
    (VStr (text response)).

Definition _handle_response (response : Response) : res value :=
  if status_code response =? 401 then
    Ok (VDict [("error", VStr "Invalid or expired Google access token")])
  else if status_code response =? 403 then
    Ok (VDict [("error",
                VStr ("Insufficient permissions. Check your Google API scopes. "
                      ++ "Required scopes: https://www.googleapis.com/auth/documents"))])
  else if status_code response =? 404 then
    Ok (VDict [("error", VStr "Document not found")])
  else if status_code response =? 429 then
    Ok (VDict [("error", VStr "Google API rate limit exceeded. Try again later.")])
  else if 400 <=? status_code response then
    let detail := error_detail response in
    Ok (VDict [("error",
                VStr ("Google Docs API error (HTTP "
                      ++ str_of_int (status_code response) ++ "): " ++ fstr detail))])
  else json_body response.

Definition create_document (title : string) : M Client value :=
  self <- get_self ;;
  response <- httpx_post h (GOOGLE_DOCS_API_BASE ++ "/documents") (_headers self) []
                (VDict [("title", VStr title)]) 30 ;;
  lift (_handle_response response).

Definition get_document (document_id : string) : M Client value :=
  self <- get_self ;;
  response <- httpx_get h (GOOGLE_DOCS_API_BASE ++ "/documents/" ++ document_id)
                (_headers self) [] 30 ;;
  lift (_handle_response response).

Definition batch_update (document_id : string) (requests : list value)
  : M Client value :=
  self <- get_self ;;
  response <- httpx_post h
                (GOOGLE_DOCS_API_BASE ++ "/documents/" ++ document_id ++ ":batchUpdate")
                (_headers self) [] (VDict [("requests", VList requests)]) 60 ;;
  lift (_handle_response response).

(** The index at which [insert_text] appends, read off a fetched document. *)
Definition end_of_document (doc : value) : res value :=
  rbind (get doc "body" (VDict [])) (fun body =>
  rbind (get body "content" (VList [])) (fun content =>
  if truthy content then
    rbind (getitem_int content (-1)) (fun last_element =>
    rbind (get last_element "endIndex" (VInt 1)) (fun end_index =>
    sub end_index (VInt 1)))
  else Ok (VInt 1))).

Definition insert_text (document_id text : string) (index : option Z)
           (segment_id : option string) : M Client value :=
  let location := [] in
  let location := match segment_id with
                  | Some s => if negb (String.eqb s "")
                              then dict_set "segmentId" (VStr s) location
                              else location
                  | None => location
                  end in
  let finish (location : list (string * value)) :=
    let request := VDict [("insertText",
                           VDict [("location", VDict location);
                                  ("text", VStr text)])] in
    batch_update document_id [request] in
  match index with
  | Some i => finish (dict_set "index" (VInt i) location)
  | None =>
      doc <- get_document document_id ;;
      is_err <- lift (contains "error" doc) ;;
      if is_err : bool then ret doc else
      i <- lift (end_of_document doc) ;;
      finish (dict_set "index" i location)
  end.

Definition replace_all_text (document_id find_text replace_text : string)
           (match_case : bool) : M Client value :=
  let request :=
    VDict [("replaceAllText",
            VDict [("containsText",
                    VDict [("text", VStr find_text);
                           ("matchCase", VBool match_case)]);
                   ("replaceText", VStr replace_text)])] in
  batch_update document_id [request].

Definition magnitude_pt (f : float) : value :=
  VDict [("magnitude", VFloat f); ("unit", VStr "PT")].

Definition insert_image (document_id image_uri : string) (index : Z)
           (width_pt height_pt : option float) : M Client value :=
  let inline := [("location", VDict [("index", VInt index)]);
                 ("uri", VStr image_uri)] in
  let inline :=
    match width_pt, height_pt with
    | None, None => inline
    | _, _ =>
        let object_size := [] in
        let object_size := match width_pt with
                           | Some w => dict_set "width" (magnitude_pt w) object_size
                           | None => object_size
                           end in
        let object_size := match height_pt with
                           | Some x => dict_set "height" (magnitude_pt x) object_size
                           | None => object_size
                           end in
        dict_set "objectSize" (VDict object_size) inline
    end in
  batch_update document_id [VDict [("insertInlineImage", VDict inline)]].

(** One of the five optional styles of [format_text]: when given, it is set
    in [text_style] and its name appended to [fields]. *)
Definition style_option {A} (name : string) (o : option A) (enc : A -> value)
           (acc : list (string * value) * list string)
  : list (string * value) * list string :=
  match o with
  | Some a => (dict_set name (enc a) (fst acc), (snd acc ++ [name])%list)
  | None => acc
  end.

(** [",".join(fields)] *)
Fixpoint join_commas (fields : list string) : string :=
  match fields with
  | [] => ""
  | [f] => f
  | f :: rest => f ++ "," ++ join_commas rest
  end.

Definition format_text (document_id : string) (start_index end_index : Z)
           (bold italic underline : option bool) (font_size_pt : option float)
           (foreground_color : option value) : M Client value :=
  let acc := ([], []) in
  let acc := style_option "bold" bold VBool acc in
  let acc := style_option "italic" italic VBool acc in
  let acc := style_option "underline" underline VBool acc in
  let acc := style_option "fontSize" font_size_pt magnitude_pt acc in
  let acc := style_option "foregroundColor" foreground_color
               (fun c => VDict [("color", VDict [("rgbColor", c)])]) acc in
  let (text_style, fields) := acc in
  match fields with
  | [] => ret (VDict [("error", VStr "No formatting options specified")])
  | _ =>
      let request :=
        VDict [("updateTextStyle",
                VDict [("range", VDict [("startIndex", VInt start_index);
                                        ("endIndex", VInt end_index)]);
                       ("textStyle", VDict text_style);
                       ("fields", VStr (join_commas fields))])] in
      batch_update document_id [request]
  end.

Definition create_list (document_id : string) (start_index end_index : Z)
           (bullet_preset : string) : M Client value :=
  let request :=
    VDict [("createParagraphBullets",
            VDict [("range", VDict [("startIndex", VInt start_index);
                                    ("endIndex", VInt end_index)]);
                   ("bulletPreset", VStr bullet_preset)])] in
  batch_update document_id [request].

Definition add_comment (document_id content : string)
           (quoted_text : option string) : M Client value :=
  let body := [("content", VStr content)] in
  let body := match quoted_text with
              | Some q => if negb (String.eqb q "")
                          then dict_set "quotedFileContent"
                                 (VDict [("value", VStr q)]) body
                          else body
              | None => body
              end in
  self <- get_self ;;
  response <- httpx_post h
                (GOOGLE_DRIVE_API_BASE ++ "/files/" ++ document_id ++ "/comments")
                (_headers self) [("fields", VStr "*")] (VDict body) 30 ;;
  lift (_handle_response response).

Definition export_document (document_id mime_type : string) : M Client value :=
  self <- get_self ;;
  response <- httpx_get h
                (GOOGLE_DRIVE_API_BASE ++ "/files/" ++ document_id ++ "/export")
                (_headers self) [("mimeType", VStr mime_type)] 60 ;;
  if status_code response =? 200 then
    ret (VDict [("document_id", VStr document_id);
                ("mime_type", VStr mime_type);
                ("content_base64", VStr (b64encode h (content response)));
                ("size_bytes",
                 VInt (Z.of_nat (String.length (content response))))])
  else lift (_handle_response response).

End Client.

(** *** [register_tools(mcp, credentials)] *)

Section register_tools.
Variable h : Host.
Variable credentials : option (string -> value).

(** [os.getenv(name)]: a [str], or [None] when the variable is unset. *)
Definition os_getenv (name : string) : value :=
  match getenv h name with
  | Some s => VStr s
  | None => VNone
  end.

Definition _get_token : res value :=
  match credentials with
  | Some credentials_get =>
      let token := credentials_get "google_docs" in
      if negb (is_none token) && negb (isinstance_str token)
      then Raise (TypeError
                    ("Expected string from credentials.get('google_docs'), "
                     ++ "got " ++ type_name token))
      else Ok token
  | None =>
      let token := os_getenv "GOOGLE_DOCS_ACCESS_TOKEN" in
      if truthy token then Ok token else
      match getenv h "GOOGLE_SERVICE_ACCOUNT_JSON" with
      | Some service_account =>
          if truthy (VStr service_account) then
            match rbind (json_loads h service_account) (fun sa_data =>
                  get sa_data "access_token" VNone) with
            | Raise (JSONDecodeError _) => Ok VNone
            | other => other
            end
          else Ok VNone
      | None => Ok VNone
      end
  end.

Definition not_configured : value :=
  VDict [("error", VStr "Google Docs credentials not configured");
         ("help", VStr ("Set GOOGLE_DOCS_ACCESS_TOKEN environment variable "
                        ++ "or configure via credential store. "
                        ++ "Get credentials at: https://console.cloud.google.com/apis/credentials"))].

Definition _get_client : res (value + Client) :=
  rbind _get_token (fun token =>
  if negb (truthy token) then Ok (inl not_configured)
  else Ok (inr (_GoogleDocsClient token))).

(** [except json.JSONDecodeError as e: return {"error": f"Invalid JSON: {e}"}] *)
Definition except_json {O} (body : M O value) : M O value :=
  fun w =>
    match body w with
    | (Raise (JSONDecodeError msg), w') =>
        (Ok (VDict [("error", VStr ("Invalid JSON: " ++ msg))]), w')
    | other => other
    end.

(** The frame shared by the ten tools; [body] is the whole [try] statement. *)
Definition tool (body : M Client value) : M unit value :=
  client <- lift _get_client ;;
  match client with
  | inl err => ret err
  | inr client => on_client client body
  end.

Definition google_docs_create_document (title : string) : M unit value :=
  tool (except_httpx
          (result <- create_document h title ;;
           is_err <- lift (contains "error" result) ;;
           if negb is_err then
             document_id <- lift (get result "documentId" VNone) ;;
             title' <- lift (get result "title" VNone) ;;
             document_id' <- lift (get result "documentId" VNone) ;;
             ret (VDict [("document_id", document_id);
                         ("title", title');
                         ("document_url",
                          VStr ("https://docs.google.com/document/d/"
                                ++ fstr h document_id' ++ "/edit"))])
           else ret result)).

Definition google_docs_get_document (document_id : string) : M unit value :=
  tool (except_httpx (get_document h document_id)).

Definition google_docs_insert_text (document_id text : string)
           (index : option Z) : M unit value :=
  tool (except_httpx (insert_text h document_id text index None)).

(** The loop over [replies], adding up [occurrencesChanged]. *)
Fixpoint count_occurrences (replies : list value) (occurrences : value)
  : res value :=
  match replies with
  | [] => Ok occurrences
  | reply :: rest =>
      rbind (get reply "replaceAllText" (VDict [])) (fun replace_reply =>
      rbind (get replace_reply "occurrencesChanged" (VInt 0)) (fun n =>
      rbind (add occurrences n) (fun occurrences =>
      count_occurrences rest occurrences)))
  end.

Definition google_docs_replace_all_text
           (document_id find_text replace_text : string) (match_case : bool)
  : M unit value :=
  tool (except_httpx
          (result <- replace_all_text h document_id find_text replace_text
                       match_case ;;
           is_err <- lift (contains "error" result) ;;
           if negb is_err then
             replies <- lift (get result "replies" (VList [])) ;;
             items <- lift (iter replies) ;;
             occurrences <- lift (count_occurrences items (VInt 0)) ;;
             ret (VDict [("document_id", VStr document_id);
                         ("find_text", VStr find_text);
                         ("replace_text", VStr replace_text);
                         ("occurrences_replaced", occurrences)])
           else ret result)).

Definition google_docs_insert_image (document_id image_uri : string)
           (index : Z) (width_pt height_pt : option float) : M unit value :=
  tool (except_httpx
          (insert_image h document_id image_uri index width_pt height_pt)).

(** [c or 0.0] for an optional colour component. *)
Definition or_zero (c : option float) : float :=
  match c with
  | Some f => if PrimFloat.eqb f 0%float then 0%float else f
  | None => 0%float
  end.

Definition google_docs_format_text (document_id : string)
           (start_index end_index : Z) (bold italic underline : option bool)
           (font_size_pt : option float)
           (foreground_color_red foreground_color_green
              foreground_color_blue : option float) : M unit value :=
  tool (let foreground_color :=
          match foreground_color_red, foreground_color_green,
                foreground_color_blue with
          | None, None, None => None
          | _, _, _ =>
              Some (VDict [("red", VFloat (or_zero foreground_color_red));
                           ("green", VFloat (or_zero foreground_color_green));
                           ("blue", VFloat (or_zero foreground_color_blue))])
          end in
        except_httpx
          (format_text h document_id start_index end_index bold italic
             underline font_size_pt foreground_color)).

Definition google_docs_batch_update (document_id requests_json : string)
  : M unit value :=
  tool (except_json (except_httpx
          (requests <- lift (json_loads h requests_json) ;;
           match requests with
           | VList requests => batch_update h document_id requests
           | _ => ret (VDict [("error",
                               VStr "requests_json must be a JSON array of request objects")])
           end))).

Definition bullet_presets (list_type : string) : string :=
  if String.eqb list_type "bullet" then "BULLET_DISC_CIRCLE_SQUARE"
  else if String.eqb list_type "numbered" then "NUMBERED_DECIMAL_ALPHA_ROMAN"
  else "BULLET_DISC_CIRCLE_SQUARE".

Definition google_docs_create_list (document_id : string)
           (start_index end_index : Z) (list_type : string) : M unit value :=
  tool (let preset := bullet_presets (lower list_type) in
        except_httpx (create_list h document_id start_index end_index preset)).

Definition google_docs_add_comment (document_id content : string)
           (quoted_text : option string) : M unit value :=
  tool (except_httpx (add_comment h document_id content quoted_text)).

Definition mime_types (format : string) : string :=
  if String.eqb format "pdf" then "application/pdf"
  else if String.eqb format "docx"
  then "application/vnd.openxmlformats-officedocument.wordprocessingml.document"
  else if String.eqb format "txt" then "text/plain"
  else if String.eqb format "html" then "text/html"
  else if String.eqb format "odt" then "application/vnd.oasis.opendocument.text"
  else if String.eqb format "rtf" then "application/rtf"
  else if String.eqb format "epub" then "application/epub+zip"
  else "application/pdf".

Definition google_docs_export_content (document_id format : string)
  : M unit value :=
  tool (let mime_type := mime_types (lower format) in
        except_httpx (export_document h document_id mime_type)).

(** A call of one of the registered tools, by name and arguments. *)
Inductive call : Type :=
| Create_document (title : string)
| Get_document (document_id : string)
| Insert_text (document_id text : string) (index : option Z)
| Replace_all_text (document_id find_text replace_text : string)
                   (match_case : bool)
| Insert_image (document_id image_uri : string) (index : Z)
               (width_pt height_pt : option float)
| Format_text (document_id : string) (start_index end_index : Z)
              (bold italic underline : option bool) (font_size_pt : option float)
              (foreground_color_red foreground_color_green
                 foreground_color_blue : option float)
| Batch_update (document_id requests_json : string)
| Create_list (document_id : string) (start_index end_index : Z)
              (list_type : string)
| Add_comment (document_id content : string) (quoted_text : option string)
| Export_content (document_id format : string).

Definition invoke (c : call) : M unit value :=
  match c with
  | Create_document title => google_docs_create_document title
  | Get_document document_id => google_docs_get_document document_id
  | Insert_text document_id text index =>
      google_docs_insert_text document_id text index
  | Replace_all_text document_id find_text replace_text match_case =>
      google_docs_replace_all_text document_id find_text replace_text match_case
  | Insert_image document_id image_uri index width_pt height_pt =>
      google_docs_insert_image document_id image_uri index width_pt height_pt
  | Format_text document_id start_index end_index bold italic underline
                font_size_pt red green blue =>
      google_docs_format_text document_id start_index end_index bold italic
        underline font_size_pt red green blue
  | Batch_update document_id requests_json =>
      google_docs_batch_update document_id requests_json
  | Create_list document_id start_index end_index list_type =>
      google_docs_create_list document_id start_index end_index list_type
  | Add_comment document_id content quoted_text =>
      google_docs_add_comment document_id content quoted_text
  | Export_content document_id format =>
      google_docs_export_content document_id format
  end.

End register_tools.

End GoogleDocs.

(* ===================================================================== *)
(** ** Vocabulary of the properties *)
(* ===================================================================== *)

Module Properties.
Import Py Http.

(** The requests a computation adds to those already sent. *)
Definition issued {O A} (m : M O A) (w : world O) : list Request :=
  skipn (List.length (sent w)) (sent (snd (m w))).

(** The value a computation ends with (or the exception). *)
Definition outcome_of {O A} (m : M O A) (w : world O) : res A := fst (m w).

(** The [max_results] query parameter of a request. *)
Definition max_results_sent (req : Request) : option value :=
  lookup "max_results" (req_params req).

(** Uniform results. *)
Definition error_result (msg : string) : value := VDict [("error", VStr msg)].

Definition success_marker : value := VDict [("success", VBool true)].

Definition is_mapping (v : value) : Prop := exists d, v = VDict d.

Definition has_error_key (v : value) : bool :=
  match v with
  | VDict d => has_key "error" d
  | _ => false
  end.

(** What the status table's messages are checked for. *)
Definition says_invalid_or_expired (msg : string) : bool :=
  str_contains "expired" msg || str_contains "invalid" msg.

Definition mentions_rate_limiting (msg : string) : bool :=
  str_contains "rate limit" (lower msg).

Definition says_not_found (msg : string) : bool :=
  str_contains "not found" (lower msg).

(** The two table entries that are stated for every adapter, as properties
    of an adapter's response handler. *)
Definition translates_404_to_not_found (handle : Response -> res value) : Prop :=
  forall r, status_code r = 404 ->
            exists msg, handle r = Ok (error_result msg)
                        /\ says_not_found msg = true.

Definition maps_204_to_success_marker (handle : Response -> res value) : Prop :=
  forall r, status_code r = 204 -> handle r = Ok success_marker.

(** The two integrations and what the credential files declare for them. *)
Inductive integration : Type := twitter | google_docs.

Definition name_of (i : integration) : string :=
  match i with
  | twitter => "twitter"
  | google_docs => "google_docs"
  end.

Definition spec_of (i : integration) : Credentials.CredentialSpec :=
  match i with
  | twitter => Credentials.twitter
  | google_docs => Credentials.google_docs
  end.

(** The token resolution of each integration's [register_tools]. *)
Definition get_token (h : Host) (credentials : option (string -> value))
           (i : integration) : res value :=
  match i with
  | twitter => Twitter._get_token h credentials
  | google_docs => GoogleDocs._get_token h credentials
  end.

(** Resolution as the specification words it: the store's value when a store
    is there, otherwise the declared environment variable, otherwise absent. *)
Definition resolve_as_specified (h : Host)
           (credentials : option (string -> value)) (i : integration)
  : res value :=
  match credentials with
  | Some credentials_get => Ok (credentials_get (name_of i))
  | None =>
      match getenv h (Credentials.env_var (spec_of i)) with
      | Some s => Ok (VStr s)
      | None => Ok VNone
      end
  end.

(** A store answers with a string or with nothing. *)
Definition store_yields_str_or_none (credentials : option (string -> value))
           (name : string) : Prop :=
  match credentials with
  | Some credentials_get =>
      is_none (credentials_get name) || isinstance_str (credentials_get name) = true
  | None => True
  end.

(** *** Inserting at the end of a document *)

(** The two requests of the compound operation. *)
Definition fetch_request (h : Host) (client : GoogleDocs.Client)
           (document_id : string) : Request :=
  {| req_method := GET;
     req_url := GoogleDocs.GOOGLE_DOCS_API_BASE ++ "/documents/" ++ document_id;
     req_headers := GoogleDocs._headers h client;
     req_params := [];
     req_json := None;
     req_timeout := 30 |}.

Definition update_request (h : Host) (client : GoogleDocs.Client)
           (document_id : string) (requests : list value) : Request :=
  {| req_method := POST;
     req_url := GoogleDocs.GOOGLE_DOCS_API_BASE ++ "/documents/" ++ document_id
                ++ ":batchUpdate";
     req_headers := GoogleDocs._headers h client;
     req_params := [];
     req_json := Some (VDict [("requests", VList requests)]);
     req_timeout := 60 |}.

(** The [insertText] request for text at index [i], in the segment if one is
    named. *)
Definition insert_text_at (segment_id : option string) (i : Z) (text : string)
  : value :=
  let location :=
    match segment_id with
    | Some s => if String.eqb s "" then [("index", VInt i)]
                else [("segmentId", VStr s); ("index", VInt i)]
    | None => [("index", VInt i)]
    end in
  VDict [("insertText", VDict [("location", VDict location); ("text", VStr text)])].

(** The insertion index as the specification words it: the last content
    element's [endIndex] minus 1, or 1 when the document body has no content. *)
Definition insertion_index_as_specified (doc : value) : option Z :=
  match doc with
  | VDict d =>
      match lookup "body" d with
      | None => Some 1
      | Some (VDict body) =>
          match lookup "content" body with
          | None => Some 1
          | Some (VList []) => Some 1
          | Some (VList (first :: more)) =>
              match last (first :: more) VNone with
              | VDict last_element =>
                  match lookup "endIndex" last_element with
                  | Some (VInt end_index) => Some (end_index - 1)
                  | _ => None
                  end
              | _ => None
              end
          | Some _ => None
          end
      | Some _ => None
      end
  | _ => None
  end.

(** *** The caller's identity *)

(** The six operations that need the caller's own id. *)
Inductive engagement : Type :=
| Like (tweet_id : string)
| Unlike (tweet_id : string)
| Retweet (tweet_id : string)
| Undo_retweet (tweet_id : string)
| Follow (target_user_id : string)
| Unfollow (target_user_id : string).

Definition engage (h : Host) (op : engagement) : M Twitter.Client value :=
  match op with
  | Like tweet_id => Twitter.like_tweet h tweet_id
  | Unlike tweet_id => Twitter.unlike_tweet h tweet_id
  | Retweet tweet_id => Twitter.retweet h tweet_id
  | Undo_retweet tweet_id => Twitter.undo_retweet h tweet_id
  | Follow target_user_id => Twitter.follow_user h target_user_id
  | Unfollow target_user_id => Twitter.unfollow_user h target_user_id
  end.

(** The request that resolves the identity. *)
Definition me_request (h : Host) (client : Twitter.Client) : Request :=
  {| req_method := GET;
     req_url := Twitter.TWITTER_API_BASE ++ "/users/me";
     req_headers := Twitter._headers h client;
     req_params := [];
     req_json := None;
     req_timeout := 30 |}.

Definition is_me_request (req : Request) : bool :=
  match req_method req with
  | GET => String.eqb (req_url req) (Twitter.TWITTER_API_BASE ++ "/users/me")
  | _ => false
  end.

Definition is_mutating (req : Request) : bool :=
  match req_method req with
  | GET => false
  | POST | DELETE => true
  end.

Definition count_me (l : list Request) : nat :=
  List.length (filter is_me_request l).

(** Calls made one after the other on the same client object; the caller
    goes on whatever a call returns or raises. *)
Fixpoint run_calls (h : Host) (ops : list engagement) (w : world Twitter.Client)
  : list (res value) * world Twitter.Client :=
  match ops with
  | [] => ([], w)
  | op :: rest =>
      let (r, w1) := engage h op w in
      let (rs, w2) := run_calls h rest w1 in
      (r :: rs, w2)
  end.

(** A call that returned, and not an error result. *)
Definition successful (r : res value) : bool :=
  match r with
  | Ok v => negb (has_error_key v)
  | Raise _ => false
  end.

(** The remote side answers [GET /users/me], when it answers with JSON, with
    an object whose [data.id] is not null. *)
Definition serves_identities (h : Host) : Prop :=
  forall hist req r v,
    server h hist req = Responds r ->
    is_me_request req = true ->
    json_body r = Ok v ->
    exists d, v = VDict d
              /\ forall data, lookup "data" d = Some data ->
                              getitem data "id" <> Ok VNone.

(** *** Adapter calls *)

(** A call of a method of the Twitter client, by name and arguments; the six
    operations that need the caller's id are the [engagement]s. *)
Inductive twitter_call : Type :=
| Call_post_tweet (text : string) (reply_to : option string)
| Call_delete_tweet (tweet_id : string)
| Call_get_tweet (tweet_id tweet_fields : string)
| Call_search_tweets (query : string) (max_results : Z) (tweet_fields : string)
| Call_get_user (username : string)
| Call_get_followers (user_id : string) (max_results : Z)
                     (pagination_token : option string)
| Call_get_following (user_id : string) (max_results : Z)
                     (pagination_token : option string)
| Call_get_user_tweets (user_id : string) (max_results : Z)
                       (pagination_token : option string) (tweet_fields : string)
| Call_get_mentions (user_id : string) (max_results : Z)
                    (pagination_token : option string) (tweet_fields : string)
| Call_engage (op : engagement).

Definition twitter_adapter_call (h : Host) (c : twitter_call)
  : M Twitter.Client value :=
  match c with
  | Call_post_tweet text reply_to => Twitter.post_tweet h text reply_to
  | Call_delete_tweet tweet_id => Twitter.delete_tweet h tweet_id
  | Call_get_tweet tweet_id tweet_fields => Twitter.get_tweet h tweet_id tweet_fields
  | Call_search_tweets query max_results tweet_fields =>
      Twitter.search_tweets h query max_results tweet_fields
  | Call_get_user username => Twitter.get_user h username
  | Call_get_followers user_id max_results pagination_token =>
      Twitter.get_followers h user_id max_results pagination_token
  | Call_get_following user_id max_results pagination_token =>
      Twitter.get_following h user_id max_results pagination_token
  | Call_get_user_tweets user_id max_results pagination_token tweet_fields =>
      Twitter.get_user_tweets h user_id max_results pagination_token tweet_fields
  | Call_get_mentions user_id max_results pagination_token tweet_fields =>
      Twitter.get_mentions h user_id max_results pagination_token tweet_fields
  | Call_engage op => engage h op
  end.

(** A call of a method of the Google Docs client. *)
Inductive docs_call : Type :=
| Call_create_document (title : string)
| Call_get_document (document_id : string)
| Call_batch_update (document_id : string) (requests : list value)
| Call_insert_text (document_id text : string) (index : option Z)
                   (segment_id : option string)
| Call_replace_all_text (document_id find_text replace_text : string)
                        (match_case : bool)
| Call_insert_image (document_id image_uri : string) (index : Z)
                    (width_pt height_pt : option float)
| Call_format_text (document_id : string) (start_index end_index : Z)
                   (bold italic underline : option bool)
                   (font_size_pt : option float) (foreground_color : option value)
| Call_create_list (document_id : string) (start_index end_index : Z)
                   (bullet_preset : string)
| Call_add_comment (document_id content : string) (quoted_text : option string)
| Call_export_document (document_id mime_type : string).

Definition docs_adapter_call (h : Host) (c : docs_call)
  : M GoogleDocs.Client value :=
  match c with
  | Call_create_document title => GoogleDocs.create_document h title
  | Call_get_document document_id => GoogleDocs.get_document h document_id
  | Call_batch_update document_id requests =>
      GoogleDocs.batch_update h document_id requests
  | Call_insert_text document_id text index segment_id =>
      GoogleDocs.insert_text h document_id text index segment_id
  | Call_replace_all_text document_id find_text replace_text match_case =>
      GoogleDocs.replace_all_text h document_id find_text replace_text match_case
  | Call_insert_image document_id image_uri index width_pt height_pt =>
      GoogleDocs.insert_image h document_id image_uri index width_pt height_pt
  | Call_format_text document_id start_index end_index bold italic underline
                     font_size_pt foreground_color =>
      GoogleDocs.format_text h document_id start_index end_index bold italic
        underline font_size_pt foreground_color
  | Call_create_list document_id start_index end_index bullet_preset =>
      GoogleDocs.create_list h document_id start_index end_index bullet_preset
  | Call_add_comment document_id content quoted_text =>
      GoogleDocs.add_comment h document_id content quoted_text
  | Call_export_document document_id mime_type =>
      GoogleDocs.export_document h document_id mime_type
  end.

(** The remote side answers every request with the status [st]. *)
Definition always_answers (h : Host) (st : Z) : Prop :=
  forall hist req, exists r, server h hist req = Responds r /\ status_code r = st.

(** A call ends with an error result whose message passes [good]. *)
Definition error_where {O} (good : string -> bool) (m : M O value)
           (w : world O) : Prop :=
  exists msg w', m w = (Ok (error_result msg), w') /\ good msg = true.

(** A handler turns every response of status [st] into such an error result. *)
Definition translates (handle : Response -> res value) (st : Z)
           (good : string -> bool) : Prop :=
  forall r, status_code r = st ->
            exists msg, handle r = Ok (error_result msg) /\ good msg = true.

(** *** Surroundings the tools can rely on *)

(** The two exception classes every tool catches. *)
Definition transport_error (e : exn) : bool :=
  match e with
  | TimeoutException _ | RequestError _ => true
  | _ => false
  end.

Definition is_json_decode_error (e : exn) : bool :=
  match e with
  | JSONDecodeError _ => true
  | _ => false
  end.

(** A call returns a mapping. *)
Definition returns_mapping {O} (m : M O value) (w : world O) : Prop :=
  exists d w', m w = (Ok (VDict d), w').

(** A call raises nothing but what the tools catch, and what it returns is an
    object that has an [error] member or has the shape [P]. *)
Definition behaves {O} (m : M O value) (w : world O)
           (P : list (string * value) -> bool) : Prop :=
  (exists e w', m w = (Raise e, w') /\ transport_error e = true)
  \/ (exists d w', m w = (Ok (VDict d), w') /\ has_key "error" d || P d = true).

Definition any_object (d : list (string * value)) : bool := true.

(** Twitter: [data] is an object when it is there; [data.id] is a string. *)
Definition data_absent_or_object (d : list (string * value)) : bool :=
  match lookup "data" d with
  | None | Some (VDict _) => true
  | Some _ => false
  end.

Definition carries_str_id (d : list (string * value)) : bool :=
  match lookup "data" d with
  | Some (VDict data) =>
      match lookup "id" data with
      | Some (VStr _) => true
      | _ => false
      end
  | _ => false
  end.

(** The tools that read [data] out of the result. *)
Definition reads_data (c : Twitter.call) : bool :=
  match c with
  | Twitter.Post_tweet _ _ | Twitter.Delete_tweet _
  | Twitter.Like_tweet _ | Twitter.Unlike_tweet _
  | Twitter.Retweet _ | Twitter.Undo_retweet _
  | Twitter.Follow_user _ | Twitter.Unfollow_user _ => true
  | _ => false
  end.

(** The shape a tool needs of the body of a 200 or 201 answer to [req]. *)
Definition twitter_shape (c : Twitter.call) (req : Request)
           (d : list (string * value)) : bool :=
  if is_me_request req then carries_str_id d
  else if reads_data c then data_absent_or_object d
  else true.

Definition twitter_body_fits (c : Twitter.call) (req : Request) (v : value)
  : bool :=
  match v with
  | VDict d => has_key "error" d || twitter_shape c req d
  | _ => false
  end.

(** The remote side of a Twitter tool call: an exchange fails only with a
    timeout or request error; a 200 or 201 answer has a JSON object of the
    needed shape as its body; [/users/me] is not answered with 204. *)
Definition twitter_host_fits (h : Host) (c : Twitter.call) : Prop :=
  forall hist req,
    match server h hist req with
    | Fails e => transport_error e = true
    | Responds r =>
        (status_code r = 200 \/ status_code r = 201 ->
         exists v, json_body r = Ok v /\ twitter_body_fits c req v = true)
        /\ (status_code r = 204 -> is_me_request req = false)
    end.

(** Google Docs: the document fetched by [insert_text], and the replies
    counted by [google_docs_replace_all_text]. *)
Definition element_fits (e : value) : bool :=
  match e with
  | VDict element =>
      match lookup "endIndex" element with
      | None | Some (VInt _) | Some (VBool _) => true
      | Some _ => false
      end
  | _ => false
  end.

Definition document_fits (d : list (string * value)) : bool :=
  match lookup "body" d with
  | None => true
  | Some (VDict body) =>
      match lookup "content" body with
      | None => true
      | Some (VList []) => true
      | Some (VList (first :: more)) => element_fits (last (first :: more) VNone)
      | Some _ => false
      end
  | Some _ => false
  end.

Definition reply_fits (reply : value) : bool :=
  match reply with
  | VDict r =>
      match lookup "replaceAllText" r with
      | None => true
      | Some (VDict replaced) =>
          match lookup "occurrencesChanged" replaced with
          | None | Some (VInt _) | Some (VBool _) => true
          | Some _ => false
          end
      | Some _ => false
      end
  | _ => false
  end.

Definition replies_fit (d : list (string * value)) : bool :=
  match lookup "replies" d with
  | None => true
  | Some (VList replies) => forallb reply_fits replies
  | Some _ => false
  end.

Definition google_shape (c : GoogleDocs.call) (req : Request)
           (d : list (string * value)) : bool :=
  match c with
  | GoogleDocs.Insert_text _ _ None =>
      match req_method req with
      | GET => document_fits d
      | _ => true
      end
  | GoogleDocs.Replace_all_text _ _ _ _ => replies_fit d
  | _ => true
  end.

Definition google_body_fits (c : GoogleDocs.call) (req : Request) (v : value)
  : bool :=
  match v with
  | VDict d => has_key "error" d || google_shape c req d
  | _ => false
  end.

Definition is_export (c : GoogleDocs.call) : bool :=
  match c with
  | GoogleDocs.Export_content _ _ => true
  | _ => false
  end.

(** The remote side of a Google Docs tool call: an exchange fails only with a
    timeout or request error; an answer below 400 has a JSON object of the
    needed shape as its body, but for the 200 answer to an export, whose body
    is the exported file. *)
Definition google_host_fits (h : Host) (c : GoogleDocs.call) : Prop :=
  forall hist req,
    match server h hist req with
    | Fails e => transport_error e = true
    | Responds r =>
        status_code r < 400 ->
        (is_export c = true /\ status_code r = 200)
        \/ exists v, json_body r = Ok v /\ google_body_fits c req v = true
    end.

(** [json.loads] raises nothing but [JSONDecodeError], and the service-account
    text, when it decodes, is an object. *)
Definition decoder_fits (h : Host) : Prop :=
  (forall s, match json_loads h s with
             | Ok _ => True
             | Raise e => is_json_decode_error e = true
             end)
  /\ (forall sa v, getenv h "GOOGLE_SERVICE_ACCOUNT_JSON" = Some sa ->
                   json_loads h sa = Ok v -> isinstance_dict v = true).

(** *** Hosts used for concrete runs *)

(** The double quote, for writing JSON text. *)
Definition dq : string := String (ascii_of_nat 34) EmptyString.

(** The text [{"access_token": "tok"}]. *)
Definition service_account_blob : string :=
  "{" ++ dq ++ "access_token" ++ dq ++ ": " ++ dq ++ "tok" ++ dq ++ "}".

Definition no_env : string -> option string := fun _ => None.

(** A decoder that knows the one document above and rejects every other text
    with a [JSONDecodeError].  The concrete runs below decode three texts: the
    document above, the empty text and [{oops]; [json.loads] decodes the first
    to the same object and rejects the other two (in its own words). *)
Definition loads_blob (s : string) : res value :=
  if String.eqb s service_account_blob
  then Ok (VDict [("access_token", VStr "tok")])
  else Raise (JSONDecodeError "Expecting value: line 1 column 1 (char 0)").

Definition answer (st : Z) (body_text : string) (body : res value) : Response :=
  {| status_code := st; resp_headers := []; text := body_text;
     content := body_text; json_body := body |}.

Definition not_json : res value :=
  Raise (JSONDecodeError "Expecting value: line 1 column 1 (char 0)").

(** A host whose server answers every request alike. *)
Definition host_answering (r : Response) (env : string -> option string) : Host :=
  {| server := fun _ _ => Responds r;
     getenv := env;
     json_loads := loads_blob;
     repr_compound := fun _ => "<repr>";
     b64encode := fun s => s |}.

(** A host with only the service-account variable set. *)
Definition service_account_env (name : string) : option string :=
  if String.eqb name "GOOGLE_SERVICE_ACCOUNT_JSON"
  then Some service_account_blob else None.

(** A host with [TWITTER_BEARER_TOKEN] set to the empty string. *)
Definition empty_token_env (name : string) : option string :=
  if String.eqb name "TWITTER_BEARER_TOKEN" then Some "" else None.

Definition tokens_env (name : string) : option string :=
  if String.eqb name "TWITTER_BEARER_TOKEN" then Some "env-token"
  else if String.eqb name "GOOGLE_DOCS_ACCESS_TOKEN" then Some "env-token"
  else None.

(** A host whose service-account variable holds text that is not JSON. *)
Definition malformed_service_account_env (name : string) : option string :=
  if String.eqb name "GOOGLE_SERVICE_ACCOUNT_JSON" then Some "{oops" else None.

(** A credential store that answers every name with [v]. *)
Definition store_with (v : value) : option (string -> value) :=
  Some (fun _ => v).

Definition host_serving (srv : list Request -> Request -> outcome)
           (env : string -> option string) : Host :=
  {| server := srv;
     getenv := env;
     json_loads := loads_blob;
     repr_compound := fun _ => "<repr>";
     b64encode := fun s => s |}.

(** A document whose last element ends at index 12. *)
Definition a_document : value :=
  VDict [("documentId", VStr "d");
         ("body",
          VDict [("content",
                  VList [VDict [("endIndex", VInt 1)];
                         VDict [("startIndex", VInt 1); ("endIndex", VInt 12)]])])].

(** A Google Docs server: fetches give [a_document], updates an empty reply
    list. *)
Definition docs_server (hist : list Request) (req : Request) : outcome :=
  match req_method req with
  | GET => Responds (answer 200 "" (Ok a_document))
  | _ => Responds (answer 200 "" (Ok (VDict [("documentId", VStr "d");
                                             ("replies", VList [VDict []])])))
  end.

(** A Twitter server: [/users/me] gives the id 42, every other request a
    [data] object. *)
Definition twitter_server (hist : list Request) (req : Request) : outcome :=
  if is_me_request req
  then Responds (answer 200 "" (Ok (VDict [("data", VDict [("id", VStr "42")])])))
  else Responds (answer 200 ""
                   (Ok (VDict [("data", VDict [("id", VStr "1"); ("liked", VBool true);
                                               ("following", VBool true)])]))).

(** Tool calls used for concrete runs. *)
Definition a_like : Twitter.call := Twitter.Like_tweet "9".

Definition a_post : Twitter.call := Twitter.Post_tweet "hello" "".

Definition a_lookup : Twitter.call := Twitter.Get_tweet "1" "created_at".

Definition an_append : GoogleDocs.call := GoogleDocs.Insert_text "d" "hi" None.

(** A server that cannot be reached. *)
Definition timing_out (hist : list Request) (req : Request) : outcome :=
  Fails (TimeoutException "timed out").

Definition a_client : world Twitter.Client :=
  fresh (Twitter._TwitterClient (VStr "token")).

(** A client that has already learnt its id. *)
Definition a_known_client : world Twitter.Client :=
  fresh {| Twitter._token := VStr "token"; Twitter._me_id := VStr "42" |}.

Definition three_calls : list engagement :=
  [Like "9"; Retweet "9"; Follow "7"].

Definition a_docs_client : world GoogleDocs.Client :=
  fresh (GoogleDocs._GoogleDocsClient (VStr "token")).

(** *** Vocabulary of the further properties *)

(** The generic error results of the two handlers, for a status and the
    message found in the body. *)
Definition twitter_generic_error (h : Host) (st : Z) (msg : value) : value :=
  error_result ("Twitter API error (" ++ str_of_int st ++ "): "
                ++ Twitter.fstr h msg).

Definition google_generic_error (h : Host) (st : Z) (detail : value) : value :=
  error_result ("Google Docs API error (HTTP " ++ str_of_int st ++ "): "
                ++ GoogleDocs.fstr h detail).

(** A status the Twitter handler has no case for. *)
Definition outside_twitter_table (st : Z) : Prop :=
  st <> 429 /\ st <> 401 /\ st <> 403 /\ st <> 200 /\ st <> 201 /\ st <> 204.

(** A status of 400 or more the Google Docs handler has no case for. *)
Definition outside_google_table (st : Z) : Prop :=
  400 <= st /\ st <> 401 /\ st <> 403 /\ st <> 404 /\ st <> 429.

Definition or_else (o : option value) (default : value) : value :=
  match o with
  | Some v => v
  | None => default
  end.

(** A 500 answer with the given decoded body. *)
Definition a_failure (body : value) : Response := answer 500 "raw" (Ok body).

(** A call begins with a request: if the first exchange fails, the call
    raises what the exchange raised, with that one request sent. *)
Definition starts_with_request {O} (h : Host) (m : M O value) (w : world O)
  : Prop :=
  exists req,
    forall e, server h (sent w) req = Fails e ->
              m w = (Raise e, {| self := self w; sent := sent w ++ [req] |}).

(** What a tool returns when an exchange raises [e]: the two mapped errors,
    or the exception itself. *)
Definition transport_outcome (e : exn) : res value :=
  match e with
  | TimeoutException _ => Ok (error_result "Request timed out")
  | RequestError msg => Ok (error_result ("Network error: " ++ msg))
  | _ => Raise e
  end.

(** The Google Docs tool calls that reach the network: all but
    [google_docs_format_text] without any option and [google_docs_batch_update]
    with text that is not a JSON array. *)
Definition reaches_network (h : Host) (c : GoogleDocs.call) : bool :=
  match c with
  | GoogleDocs.Format_text _ _ _ None None None None None None None => false
  | GoogleDocs.Batch_update _ requests_json =>
      match json_loads h requests_json with
      | Ok (VList _) => true
      | _ => false
      end
  | _ => true
  end.

(** A server on which every exchange times out, or fails to connect. *)
Definition refusing (hist : list Request) (req : Request) : outcome :=
  Fails (RequestError "connection refused").

(** The tools that need the caller's own id. *)
Definition needs_identity (c : Twitter.call) : bool :=
  match c with
  | Twitter.Like_tweet _ | Twitter.Unlike_tweet _
  | Twitter.Retweet _ | Twitter.Undo_retweet _
  | Twitter.Follow_user _ | Twitter.Unfollow_user _ => true
  | _ => false
  end.

(** The request of each engagement operation, for a caller whose id is
    [me_id]. *)
Definition engagement_request (h : Host) (client : Twitter.Client)
           (me_id : string) (op : engagement) : Request :=
  let users_me := Twitter.TWITTER_API_BASE ++ "/users/" ++ me_id in
  let post url body :=
    {| req_method := POST; req_url := url;
       req_headers := Twitter._headers h client; req_params := [];
       req_json := Some body; req_timeout := 30 |} in
  let delete url :=
    {| req_method := DELETE; req_url := url;
       req_headers := Twitter._headers h client; req_params := [];
       req_json := None; req_timeout := 30 |} in
  match op with
  | Like tweet_id =>
      post (users_me ++ "/likes") (VDict [("tweet_id", VStr tweet_id)])
  | Unlike tweet_id => delete (users_me ++ "/likes/" ++ tweet_id)
  | Retweet tweet_id =>
      post (users_me ++ "/retweets") (VDict [("tweet_id", VStr tweet_id)])
  | Undo_retweet tweet_id => delete (users_me ++ "/retweets/" ++ tweet_id)
  | Follow target_user_id =>
      post (users_me ++ "/following")
           (VDict [("target_user_id", VStr target_user_id)])
  | Unfollow target_user_id =>
      delete (users_me ++ "/following/" ++ target_user_id)
  end.

(** The answer of [twitter_server] to [/users/me]. *)
Definition identity_42 : Response :=
  answer 200 "" (Ok (VDict [("data", VDict [("id", VStr "42")])])).

(** The tools that report one flag of the answer, with the key they report
    and the value they give when the answer does not have it. *)
Definition reported_flag (c : Twitter.call) : option (string * bool) :=
  match c with
  | Twitter.Delete_tweet _ => Some ("deleted", false)
  | Twitter.Like_tweet _ | Twitter.Unlike_tweet _ => Some ("liked", false)
  | Twitter.Retweet _ | Twitter.Undo_retweet _ => Some ("retweeted", false)
  | Twitter.Follow_user _ => Some ("following", false)
  | Twitter.Unfollow_user _ => Some ("following", true)
  | _ => None
  end.

(** The tools that hand back what the client method returned. *)
Definition passes_through (c : Twitter.call) : bool :=
  match c with
  | Twitter.Get_tweet _ _ | Twitter.Search_tweets _ _ _ | Twitter.Get_user _
  | Twitter.Get_followers _ _ _ | Twitter.Get_following _ _ _
  | Twitter.Get_user_tweets _ _ _ _ | Twitter.Get_mentions _ _ _ _ => true
  | _ => false
  end.

(** A server that gives the id 42 and answers everything else with an empty
    204. *)
Definition no_content : Response := answer 204 "" not_json.

Definition quiet_server (hist : list Request) (req : Request) : outcome :=
  if is_me_request req then Responds identity_42 else Responds no_content.

(** The request of [post_tweet]. *)
Definition post_tweet_request (h : Host) (client : Twitter.Client)
           (text reply_to : string) : Request :=
  {| req_method := POST;
     req_url := Twitter.TWITTER_API_BASE ++ "/tweets";
     req_headers := Twitter._headers h client;
     req_params := [];
     req_json :=
       Some (VDict (if String.eqb reply_to ""
                    then [("text", VStr text)]
                    else [("text", VStr text);
                          ("reply",
                           VDict [("in_reply_to_tweet_id", VStr reply_to)])]));
     req_timeout := 30 |}.

(** The page token given to one of the four paging tools. *)
Definition page_token_given (c : Twitter.call) : option string :=
  match c with
  | Twitter.Get_followers _ _ p | Twitter.Get_following _ _ p
  | Twitter.Get_user_tweets _ _ p _ | Twitter.Get_mentions _ _ p _ => Some p
  | _ => None
  end.

(** An answer with a list of users and a token for the next page. *)
Definition a_page : Response :=
  answer 200 ""
    (Ok (VDict [("data", VList [VDict [("id", VStr "1")]]);
                ("meta", VDict [("next_token", VStr "n1")])])).

(** The answer to a posted tweet. *)
Definition a_posted : Response :=
  answer 201 ""
    (Ok (VDict [("data", VDict [("id", VStr "1"); ("text", VStr "hello")])])).

(** A document whose last content element has no [endIndex]. *)
Definition an_open_document : value :=
  VDict [("documentId", VStr "d");
         ("body", VDict [("content", VList [VDict [("startIndex", VInt 1)]])])].

(** A document whose content ends with something that is not an object. *)
Definition a_broken_document : value :=
  VDict [("documentId", VStr "d");
         ("body", VDict [("content", VList [VStr "paragraph"])])].

(** *** Google Docs requests *)

(** The entry of one optional style, when it is given. *)
Definition style_entry {A} (name : string) (o : option A) (enc : A -> value)
  : list (string * value) :=
  match o with
  | Some a => [(name, enc a)]
  | None => []
  end.

(** The [textStyle] of the options given, in the order the code sets them. *)
Definition text_style_given (bold italic underline : option bool)
           (font_size_pt : option float) (foreground_color : option value)
  : list (string * value) :=
  (style_entry "bold" bold VBool
   ++ style_entry "italic" italic VBool
   ++ style_entry "underline" underline VBool
   ++ style_entry "fontSize" font_size_pt GoogleDocs.magnitude_pt
   ++ style_entry "foregroundColor" foreground_color
        (fun c => VDict [("color", VDict [("rgbColor", c)])]))%list.

(** The colour the tool assembles: present as soon as one component is given,
    with 0.0 for the components that are not. *)
Definition rgb_given (red green blue : option float) : option value :=
  match red, green, blue with
  | None, None, None => None
  | _, _, _ =>
      Some (VDict [("red", VFloat (GoogleDocs.or_zero red));
                   ("green", VFloat (GoogleDocs.or_zero green));
                   ("blue", VFloat (GoogleDocs.or_zero blue))])
  end.

(** An [updateTextStyle] request whose field mask names the keys of its
    style. *)
Definition style_request (start_index end_index : Z)
           (text_style : list (string * value)) : value :=
  VDict [("updateTextStyle",
          VDict [("range", VDict [("startIndex", VInt start_index);
                                  ("endIndex", VInt end_index)]);
                 ("textStyle", VDict text_style);
                 ("fields",
                  VStr (GoogleDocs.join_commas (map fst text_style)))])].

Definition bullets_request (start_index end_index : Z) (preset : string)
  : value :=
  VDict [("createParagraphBullets",
          VDict [("range", VDict [("startIndex", VInt start_index);
                                  ("endIndex", VInt end_index)]);
                 ("bulletPreset", VStr preset)])].

(** The request of [export_document]. *)
Definition export_request (h : Host) (client : GoogleDocs.Client)
           (document_id mime_type : string) : Request :=
  {| req_method := GET;
     req_url := GoogleDocs.GOOGLE_DRIVE_API_BASE ++ "/files/" ++ document_id
                ++ "/export";
     req_headers := GoogleDocs._headers h client;
     req_params := [("mimeType", VStr mime_type)];
     req_json := None;
     req_timeout := 60 |}.

(** The export formats the tool knows. *)
Definition known_format (format : string) : bool :=
  existsb (String.eqb format)
          ["pdf"; "docx"; "txt"; "html"; "odt"; "rtf"; "epub"].

(** An exported file: bytes that are not JSON. *)
Definition a_file : Response := answer 200 "%PDF-1.7" not_json.

(** The [replaceAllText] request. *)
Definition replace_request (find_text replace_text : string)
           (match_case : bool) : value :=
  VDict [("replaceAllText",
          VDict [("containsText",
                  VDict [("text", VStr find_text);
                         ("matchCase", VBool match_case)]);
                 ("replaceText", VStr replace_text)])].

(** The number of occurrences one reply reports: 0 when it has no
    [replaceAllText] or no count. *)
Definition occurrences_changed (reply : value) : option Z :=
  match reply with
  | VDict r =>
      match lookup "replaceAllText" r with
      | None => Some 0
      | Some (VDict replaced) =>
          match lookup "occurrencesChanged" replaced with
          | None => Some 0
          | Some (VInt n) => Some n
          | Some _ => None
          end
      | Some _ => None
      end
  | _ => None
  end.

Fixpoint total_changed (replies : list value) : option Z :=
  match replies with
  | [] => Some 0
  | reply :: rest =>
      match occurrences_changed reply, total_changed rest with
      | Some n, Some total => Some (n + total)
      | _, _ => None
      end
  end.

(** The request of [create_document]. *)
Definition create_request (h : Host) (client : GoogleDocs.Client)
           (title : string) : Request :=
  {| req_method := POST;
     req_url := GoogleDocs.GOOGLE_DOCS_API_BASE ++ "/documents";
     req_headers := GoogleDocs._headers h client;
     req_params := [];
     req_json := Some (VDict [("title", VStr title)]);
     req_timeout := 30 |}.

(** The answer to a [replaceAllText] that changed two occurrences. *)
Definition two_replaced : Response :=
  answer 200 ""
    (Ok (VDict [("documentId", VStr "d");
                ("replies",
                 VList [VDict [("replaceAllText",
                                VDict [("occurrencesChanged", VInt 2)])]])])).

(** The answer to a created document, and one without an id. *)
Definition a_created : Response :=
  answer 200 "" (Ok (VDict [("documentId", VStr "d1"); ("title", VStr "T")])).

Definition an_unnamed : Response := answer 200 "" (Ok (VDict [])).

(** A host whose decoder knows the text of the empty array, with that text in
    the service-account variable. *)
Definition array_env (name : string) : option string :=
  if String.eqb name "GOOGLE_SERVICE_ACCOUNT_JSON" then Some "[]" else None.

Definition loads_array (s : string) : res value :=
  if String.eqb s "[]" then Ok (VList [])
  else if String.eqb s "7" then Ok (VInt 7)
  else Raise (JSONDecodeError "Expecting value: line 1 column 1 (char 0)").

Definition host_decoding_arrays (r : Response) : Host :=
  {| server := fun _ _ => Responds r;
     getenv := array_env;
     json_loads := loads_array;
     repr_compound := fun _ => "<repr>";
     b64encode := fun s => s |}.

(** *** The names under which the tools are registered *)

Definition twitter_tool_name (c : Twitter.call) : string :=
  match c with
  | Twitter.Post_tweet _ _ => "twitter_post_tweet"
  | Twitter.Delete_tweet _ => "twitter_delete_tweet"
  | Twitter.Get_tweet _ _ => "twitter_get_tweet"
  | Twitter.Search_tweets _ _ _ => "twitter_search_tweets"
  | Twitter.Like_tweet _ => "twitter_like_tweet"
  | Twitter.Unlike_tweet _ => "twitter_unlike_tweet"
  | Twitter.Retweet _ => "twitter_retweet"
  | Twitter.Undo_retweet _ => "twitter_undo_retweet"
  | Twitter.Get_user _ => "twitter_get_user"
  | Twitter.Follow_user _ => "twitter_follow_user"
  | Twitter.Unfollow_user _ => "twitter_unfollow_user"
  | Twitter.Get_followers _ _ _ => "twitter_get_followers"
  | Twitter.Get_following _ _ _ => "twitter_get_following"
  | Twitter.Get_user_tweets _ _ _ _ => "twitter_get_user_tweets"
  | Twitter.Get_mentions _ _ _ _ => "twitter_get_mentions"
  end.

Definition docs_tool_name (c : GoogleDocs.call) : string :=
  match c with
  | GoogleDocs.Create_document _ => "google_docs_create_document"
  | GoogleDocs.Get_document _ => "google_docs_get_document"
  | GoogleDocs.Insert_text _ _ _ => "google_docs_insert_text"
  | GoogleDocs.Replace_all_text _ _ _ _ => "google_docs_replace_all_text"
  | GoogleDocs.Insert_image _ _ _ _ _ => "google_docs_insert_image"
  | GoogleDocs.Format_text _ _ _ _ _ _ _ _ _ _ => "google_docs_format_text"
  | GoogleDocs.Batch_update _ _ => "google_docs_batch_update"
  | GoogleDocs.Create_list _ _ _ _ => "google_docs_create_list"
  | GoogleDocs.Add_comment _ _ _ => "google_docs_add_comment"
  | GoogleDocs.Export_content _ _ => "google_docs_export_content"
  end.

(** The [insertInlineImage] request: [objectSize] is present when a width or
    a height is given, with the dimensions that are. *)
Definition image_request (image_uri : string) (index : Z)
           (width_pt height_pt : option float) : value :=
  VDict [("insertInlineImage",
          VDict ([("location", VDict [("index", VInt index)]);
                  ("uri", VStr image_uri)]
                 ++ match width_pt, height_pt with
                    | None, None => []
                    | _, _ =>
                        [("objectSize",
                          VDict (style_entry "width" width_pt
                                   GoogleDocs.magnitude_pt
                                 ++ style_entry "height" height_pt
                                      GoogleDocs.magnitude_pt))]
                    end))].

(** The request of [add_comment], to the Drive API. *)
Definition comment_request (h : Host) (client : GoogleDocs.Client)
           (document_id content : string) (quoted_text : option string)
  : Request :=
  {| req_method := POST;
     req_url := GoogleDocs.GOOGLE_DRIVE_API_BASE ++ "/files/" ++ document_id
                ++ "/comments";
     req_headers := GoogleDocs._headers h client;
     req_params := [("fields", VStr "*")];
     req_json :=
       Some (VDict ([("content", VStr content)]
                    ++ match quoted_text with
                       | Some q =>
                           if String.eqb q "" then []
                           else [("quotedFileContent",
                                  VDict [("value", VStr q)])]
                       | None => []
                       end));
     req_timeout := 30 |}.

(** The one Google Docs tool call that fetches before it updates. *)
Definition appends (c : GoogleDocs.call) : bool :=
  match c with
  | GoogleDocs.Insert_text _ _ None => true
  | _ => false
  end.

(** The largest number of requests a tool call sends. *)
Definition twitter_request_bound (c : Twitter.call) : nat :=
  if needs_identity c then 2 else 1.

Definition docs_request_bound (c : GoogleDocs.call) : nat :=
  if appends c then 2 else 1.

End Properties.

(* ===================================================================== *)
(** * Proofs *)
(* ===================================================================== *)

Import Py Http Properties.
Local Open Scope adapter_scope.

(** ** The monad and the request primitive *)

Lemma skipn_app_exact {A} (l k : list A) : skipn (List.length l) (l ++ k) = k.
Proof.
  induction l as [|a l IH]; simpl; auto.
Qed.

(** A method that issues one request and hands the response to a pure
    continuation. *)
Lemma one_request {O} (h : Host) (req : Request) (k : Response -> res value)
      (w : world O) :
  (response <- httpx_request h req ;; lift (k response))%adapter w
  = (match server h (sent w) req with
     | Responds r => k r
     | Fails e => Raise e
     end,
     {| self := self w; sent := sent w ++ [req] |}).
Proof.
  unfold bind, httpx_request, lift.
  destruct (server h (sent w) req); reflexivity.
Qed.

Lemma issued_one {O A} (m : M O A) (w : world O) (req : Request) (r : res A)
      (o : O) :
  m w = (r, {| self := o; sent := sent w ++ [req] |}) ->
  issued m w = [req].
Proof.
  intros E. unfold issued. rewrite E. simpl. apply skipn_app_exact.
Qed.

Lemma bind_get_self {O B} (k : O -> M O B) (w : world O) :
  (self <- get_self ;; k self)%adapter w = k (self w) w.
Proof. reflexivity. Qed.

(** ** Twitter: what the paging methods send *)

(** Run a method that issues a single request. *)
Ltac single_request :=
  rewrite bind_get_self; unfold httpx_get, httpx_post, httpx_delete;
  rewrite one_request.

(** Show that a method is a single exchange handed to [_handle_response]. *)
Ltac as_exchange :=
  cbv zeta; rewrite bind_get_self;
  unfold httpx_get, httpx_post, httpx_delete; reflexivity.

Lemma max_results_with_pagination (pagination_token : option string)
      (n : value) (rest : list (string * value)) :
  lookup "max_results"
    (Twitter.with_pagination pagination_token (("max_results", n) :: rest))
  = Some n.
Proof.
  destruct pagination_token as [t|]; simpl; auto.
  destruct (String.eqb t ""); reflexivity.
Qed.

Section Paging.
Variable h : Host.
Variable w : world Twitter.Client.

Lemma search_tweets_sends query max_results tweet_fields :
  map max_results_sent
      (issued (Twitter.search_tweets h query max_results tweet_fields) w)
  = [Some (VInt (Z.max 10 (Z.min max_results 100)))].
Proof.
  unfold issued, Twitter.search_tweets. single_request.
  simpl. rewrite skipn_app_exact. reflexivity.
Qed.

Lemma get_followers_sends user_id max_results pagination_token :
  map max_results_sent
      (issued (Twitter.get_followers h user_id max_results pagination_token) w)
  = [Some (VInt (Z.min max_results 1000))].
Proof.
  unfold issued, Twitter.get_followers. single_request.
  simpl. rewrite skipn_app_exact. simpl. unfold max_results_sent. simpl req_params.
  rewrite max_results_with_pagination. reflexivity.
Qed.

Lemma get_following_sends user_id max_results pagination_token :
  map max_results_sent
      (issued (Twitter.get_following h user_id max_results pagination_token) w)
  = [Some (VInt (Z.min max_results 1000))].
Proof.
  unfold issued, Twitter.get_following. single_request.
  simpl. rewrite skipn_app_exact. simpl. unfold max_results_sent. simpl req_params.
  rewrite max_results_with_pagination. reflexivity.
Qed.

Lemma get_user_tweets_sends user_id max_results pagination_token tweet_fields :
  map max_results_sent
      (issued (Twitter.get_user_tweets h user_id max_results pagination_token
                 tweet_fields) w)
  = [Some (VInt (Z.max 5 (Z.min max_results 100)))].
Proof.
  unfold issued, Twitter.get_user_tweets. single_request.
  simpl. rewrite skipn_app_exact. simpl. unfold max_results_sent. simpl req_params.
  rewrite max_results_with_pagination. reflexivity.
Qed.

Lemma get_mentions_sends user_id max_results pagination_token tweet_fields :
  map max_results_sent
      (issued (Twitter.get_mentions h user_id max_results pagination_token
                 tweet_fields) w)
  = [Some (VInt (Z.max 5 (Z.min max_results 100)))].
Proof.
  unfold issued, Twitter.get_mentions. single_request.
  simpl. rewrite skipn_app_exact. simpl. unfold max_results_sent. simpl req_params.
  rewrite max_results_with_pagination. reflexivity.
Qed.

End Paging.

(** C7.  [search_tweets] sends [max_results] raised to the floor 10 (5 is sent
    as 10); [get_followers] sends it lowered to the ceiling 1000 (5000 is sent
    as 1000).  In both cases the clamped value is the one in the single
    request the method issues. *)
Theorem search_floor_and_followers_ceiling :
  forall (h : Host) (w : world Twitter.Client)
         (query tweet_fields user_id : string)
         (pagination_token : option string) (max_results : Z),
    (exists n,
        map max_results_sent
            (issued (Twitter.search_tweets h query max_results tweet_fields) w)
        = [Some (VInt n)]
        /\ 10 <= n /\ n = Z.max 10 (Z.min max_results 100))
    /\ map max_results_sent
           (issued (Twitter.search_tweets h query 5 tweet_fields) w)
       = [Some (VInt 10)]
    /\ (exists n,
           map max_results_sent
               (issued (Twitter.get_followers h user_id max_results
                          pagination_token) w)
           = [Some (VInt n)]
           /\ n <= 1000 /\ n = Z.min max_results 1000)
    /\ map max_results_sent
           (issued (Twitter.get_followers h user_id 5000 pagination_token) w)
       = [Some (VInt 1000)].
Proof.
  intros. repeat split.
  - eexists. split; [apply search_tweets_sends|]. split; lia.
  - apply search_tweets_sends.
  - eexists. split; [apply get_followers_sends|]. split; lia.
  - apply get_followers_sends.
Qed.

(** C10.  [get_user_tweets] and [get_mentions] send [max_results] clamped into
    [5, 100]; [search_tweets] has the floor 10 instead; [get_followers] and
    [get_following] apply the ceiling 1000 and no floor, so any value up to
    1000 goes out unchanged. *)
Theorem timeline_clamp_differs_from_search_and_followers :
  forall (h : Host) (w : world Twitter.Client)
         (user_id query tweet_fields : string)
         (pagination_token : option string) (max_results : Z),
    (exists n,
        map max_results_sent
            (issued (Twitter.get_user_tweets h user_id max_results
                       pagination_token tweet_fields) w)
        = [Some (VInt n)]
        /\ 5 <= n <= 100 /\ n = Z.max 5 (Z.min max_results 100))
    /\ (exists n,
           map max_results_sent
               (issued (Twitter.get_mentions h user_id max_results
                          pagination_token tweet_fields) w)
           = [Some (VInt n)]
           /\ 5 <= n <= 100 /\ n = Z.max 5 (Z.min max_results 100))
    /\ (exists n,
           map max_results_sent
               (issued (Twitter.search_tweets h query max_results tweet_fields) w)
           = [Some (VInt n)]
           /\ 10 <= n <= 100)
    /\ (map max_results_sent
            (issued (Twitter.get_followers h user_id max_results
                       pagination_token) w)
        = [Some (VInt (Z.min max_results 1000))]
        /\ map max_results_sent
               (issued (Twitter.get_following h user_id max_results
                          pagination_token) w)
           = [Some (VInt (Z.min max_results 1000))])
    /\ (max_results <= 1000 ->
        map max_results_sent
            (issued (Twitter.get_followers h user_id max_results
                       pagination_token) w)
        = [Some (VInt max_results)]
        /\ map max_results_sent
               (issued (Twitter.get_following h user_id max_results
                          pagination_token) w)
           = [Some (VInt max_results)]).
Proof.
  intros. repeat split.
  - eexists. split; [apply get_user_tweets_sends|]. lia.
  - eexists. split; [apply get_mentions_sends|]. lia.
  - eexists. split; [apply search_tweets_sends|]. lia.
  - apply get_followers_sends.
  - apply get_following_sends.
  - rewrite get_followers_sends. now rewrite Z.min_l by lia.
  - rewrite get_following_sends. now rewrite Z.min_l by lia.
Qed.

(** At [max_results = 0] the two follower listings send 0: there is no floor. *)
Lemma timeline_clamp_differs_witness :
  0 <= 1000
  /\ map max_results_sent
         (issued (Twitter.get_followers (host_answering (answer 200 "" not_json) no_env)
                    "7" 0 None) a_client)
     = [Some (VInt 0)]
  /\ map max_results_sent
         (issued (Twitter.get_following (host_answering (answer 200 "" not_json) no_env)
                    "7" 0 None) a_client)
     = [Some (VInt 0)].
Proof.
  split; [lia|].
  apply (timeline_clamp_differs_from_search_and_followers
           (host_answering (answer 200 "" not_json) no_env) a_client
           "7" "q" "f" None 0).
  lia.
Defined.

(** ** The status tables *)

Section StatusTables.
Variable h : Host.

Lemma twitter_429 r :
  status_code r = 429 ->
  Twitter._handle_response h r
  = Ok (error_result ("Rate limited. Resets at timestamp: "
                      ++ headers_get (resp_headers r) "x-rate-limit-reset" "unknown")).
Proof. intros E. unfold Twitter._handle_response. rewrite E. reflexivity. Qed.

Lemma twitter_401 r :
  status_code r = 401 ->
  Twitter._handle_response h r = Ok (error_result "Invalid or expired Twitter token").
Proof. intros E. unfold Twitter._handle_response. rewrite E. reflexivity. Qed.

Lemma twitter_403 r :
  status_code r = 403 ->
  Twitter._handle_response h r
  = Ok (error_result "Forbidden - check token permissions (need read+write scope)").
Proof. intros E. unfold Twitter._handle_response. rewrite E. reflexivity. Qed.

Lemma twitter_204 r :
  status_code r = 204 -> Twitter._handle_response h r = Ok success_marker.
Proof. intros E. unfold Twitter._handle_response. rewrite E. reflexivity. Qed.

(** Every status outside 200, 201, 204, 401, 403 and 429 gets the generic
    message. *)
Lemma twitter_other r :
  status_code r <> 429 -> status_code r <> 401 -> status_code r <> 403 ->
  status_code r <> 200 -> status_code r <> 201 -> status_code r <> 204 ->
  Twitter._handle_response h r
  = Ok (error_result ("Twitter API error (" ++ str_of_int (status_code r) ++ "): "
                      ++ Twitter.fstr h (Twitter.error_message r))).
Proof.
  intros. unfold Twitter._handle_response.
  repeat match goal with
         | H : status_code r <> ?n |- _ =>
             apply Z.eqb_neq in H; rewrite H; clear H
         end.
  reflexivity.
Qed.

Lemma twitter_success r :
  (status_code r = 200 \/ status_code r = 201) ->
  Twitter._handle_response h r = json_body r.
Proof.
  intros [E|E]; unfold Twitter._handle_response; rewrite E; reflexivity.
Qed.

Lemma google_401 r :
  status_code r = 401 ->
  GoogleDocs._handle_response h r
  = Ok (error_result "Invalid or expired Google access token").
Proof. intros E. unfold GoogleDocs._handle_response. rewrite E. reflexivity. Qed.

Lemma google_403 r :
  status_code r = 403 ->
  GoogleDocs._handle_response h r
  = Ok (error_result
          ("Insufficient permissions. Check your Google API scopes. "
           ++ "Required scopes: https://www.googleapis.com/auth/documents")).
Proof. intros E. unfold GoogleDocs._handle_response. rewrite E. reflexivity. Qed.

Lemma google_404 r :
  status_code r = 404 ->
  GoogleDocs._handle_response h r = Ok (error_result "Document not found").
Proof. intros E. unfold GoogleDocs._handle_response. rewrite E. reflexivity. Qed.

Lemma google_429 r :
  status_code r = 429 ->
  GoogleDocs._handle_response h r
  = Ok (error_result "Google API rate limit exceeded. Try again later.").
Proof. intros E. unfold GoogleDocs._handle_response. rewrite E. reflexivity. Qed.

Lemma google_other r :
  400 <= status_code r ->
  status_code r <> 401 -> status_code r <> 403 ->
  status_code r <> 404 -> status_code r <> 429 ->
  GoogleDocs._handle_response h r
  = Ok (error_result ("Google Docs API error (HTTP " ++ str_of_int (status_code r)
                      ++ "): " ++ GoogleDocs.fstr h (GoogleDocs.error_detail r))).
Proof.
  intros L. intros. unfold GoogleDocs._handle_response.
  repeat match goal with
         | H : status_code r <> ?n |- _ =>
             apply Z.eqb_neq in H; rewrite H; clear H
         end.
  apply Z.leb_le in L. rewrite L. reflexivity.
Qed.

Lemma google_below_400 r :
  status_code r < 400 -> GoogleDocs._handle_response h r = json_body r.
Proof.
  intros L. unfold GoogleDocs._handle_response.
  replace (status_code r =? 401) with false by (symmetry; apply Z.eqb_neq; lia).
  replace (status_code r =? 403) with false by (symmetry; apply Z.eqb_neq; lia).
  replace (status_code r =? 404) with false by (symmetry; apply Z.eqb_neq; lia).
  replace (status_code r =? 429) with false by (symmetry; apply Z.eqb_neq; lia).
  replace (400 <=? status_code r) with false by (symmetry; apply Z.leb_gt; lia).
  reflexivity.
Qed.

(** When the body is not JSON the generic messages carry the body text. *)
Lemma twitter_message_of_plain_body r e :
  json_body r = Raise e -> Twitter.error_message r = VStr (text r).
Proof. intros E. unfold Twitter.error_message. rewrite E. reflexivity. Qed.

Lemma google_detail_of_plain_body r e :
  json_body r = Raise e -> GoogleDocs.error_detail r = VStr (text r).
Proof. intros E. unfold GoogleDocs.error_detail. rewrite E. reflexivity. Qed.

End StatusTables.

Lemma rate_limited_message (reset : string) :
  mentions_rate_limiting ("Rate limited. Resets at timestamp: " ++ reset) = true.
Proof. reflexivity. Qed.

(** The Twitter adapter's answer to a 404 whose body is the plain text
    [gone]: the generic message, which does not speak of anything not found. *)
Lemma twitter_404_is_generic :
  Twitter._handle_response (host_answering (answer 404 "gone" not_json) no_env)
    (answer 404 "gone" not_json)
  = Ok (error_result "Twitter API error (404): gone")
  /\ says_not_found "Twitter API error (404): gone" = false
  /\ ~ translates_404_to_not_found
        (Twitter._handle_response
           (host_answering (answer 404 "gone" not_json) no_env)).
Proof.
  split; [reflexivity|]. split; [reflexivity|].
  intros C. destruct (C (answer 404 "gone" not_json) eq_refl) as [msg [E N]].
  vm_compute in E. inversion E; subst msg. vm_compute in N. discriminate N.
Qed.

(** C3, amended.  The Google Docs adapter translates a 404 to
    "Document not found".  The Twitter adapter has no entry for 404: it gives a
    404 the generic message of every status outside 200, 201, 204, 401, 403
    and 429, which carries the upstream status and message (the body text when
    the body is not JSON).  The entries for 401, 403 and 429 exist in both
    adapters, and the Google Docs adapter gives every other status of 400 or
    more its own generic message. *)
Theorem status_table_per_adapter :
  forall (h : Host) (r : Response),
    translates_404_to_not_found (GoogleDocs._handle_response h)
    /\ (status_code r = 404 ->
        Twitter._handle_response h r
        = Ok (error_result ("Twitter API error (404): "
                            ++ Twitter.fstr h (Twitter.error_message r)))
        /\ (forall e, json_body r = Raise e ->
                      Twitter._handle_response h r
                      = Ok (error_result ("Twitter API error (404): " ++ text r))))
    /\ (status_code r = 401 ->
        Twitter._handle_response h r
        = Ok (error_result "Invalid or expired Twitter token")
        /\ GoogleDocs._handle_response h r
           = Ok (error_result "Invalid or expired Google access token"))
    /\ (status_code r = 403 ->
        Twitter._handle_response h r
        = Ok (error_result
                "Forbidden - check token permissions (need read+write scope)")
        /\ GoogleDocs._handle_response h r
           = Ok (error_result
                   ("Insufficient permissions. Check your Google API scopes. "
                    ++ "Required scopes: https://www.googleapis.com/auth/documents")))
    /\ (status_code r = 429 ->
        Twitter._handle_response h r
        = Ok (error_result
                ("Rate limited. Resets at timestamp: "
                 ++ headers_get (resp_headers r) "x-rate-limit-reset" "unknown"))
        /\ GoogleDocs._handle_response h r
           = Ok (error_result "Google API rate limit exceeded. Try again later."))
    /\ (400 <= status_code r ->
        status_code r <> 401 -> status_code r <> 403 -> status_code r <> 429 ->
        Twitter._handle_response h r
        = Ok (error_result ("Twitter API error (" ++ str_of_int (status_code r)
                            ++ "): " ++ Twitter.fstr h (Twitter.error_message r)))
        /\ (status_code r <> 404 ->
            GoogleDocs._handle_response h r
            = Ok (error_result
                    ("Google Docs API error (HTTP " ++ str_of_int (status_code r)
                     ++ "): " ++ GoogleDocs.fstr h (GoogleDocs.error_detail r))))).
Proof.
  intros h r. split; [|split; [|split; [|split; [|split]]]].
  - intros r' E. exists "Document not found".
    split; [apply google_404; exact E | reflexivity].
  - intros E. split.
    + rewrite twitter_other by lia. rewrite E. reflexivity.
    + intros e J. rewrite twitter_other by lia.
      rewrite (twitter_message_of_plain_body r e J). rewrite E. reflexivity.
  - intros E. split; [apply twitter_401 | apply google_401]; exact E.
  - intros E. split; [apply twitter_403 | apply google_403]; exact E.
  - intros E. split; [apply twitter_429 | apply google_429]; exact E.
  - intros L N1 N3 N9. split.
    + apply twitter_other; lia.
    + intros N4. apply google_other; lia.
Qed.

Lemma status_table_per_adapter_witness :
  (Twitter._handle_response (host_answering (answer 404 "gone" not_json) no_env)
     (answer 404 "gone" not_json)
   = Ok (error_result "Twitter API error (404): gone"))
  /\ (GoogleDocs._handle_response
        (host_answering (answer 500 "down" not_json) no_env)
        (answer 500 "down" not_json)
      = Ok (error_result "Google Docs API error (HTTP 500): down"))
  /\ (GoogleDocs._handle_response
        (host_answering (answer 401 "" not_json) no_env) (answer 401 "" not_json)
      = Ok (error_result "Invalid or expired Google access token"))
  /\ (GoogleDocs._handle_response
        (host_answering (answer 403 "" not_json) no_env) (answer 403 "" not_json)
      = Ok (error_result
              ("Insufficient permissions. Check your Google API scopes. "
               ++ "Required scopes: https://www.googleapis.com/auth/documents")))
  /\ (GoogleDocs._handle_response
        (host_answering (answer 429 "" not_json) no_env) (answer 429 "" not_json)
      = Ok (error_result "Google API rate limit exceeded. Try again later.")).
Proof.
  split; [|split; [|split; [|split]]].
  - destruct (status_table_per_adapter
                (host_answering (answer 404 "gone" not_json) no_env)
                (answer 404 "gone" not_json)) as (_ & T404 & _).
    destruct (T404 eq_refl) as [_ Plain].
    exact (Plain (JSONDecodeError "Expecting value: line 1 column 1 (char 0)")
             eq_refl).
  - destruct (status_table_per_adapter
                (host_answering (answer 500 "down" not_json) no_env)
                (answer 500 "down" not_json)) as (_ & _ & _ & _ & _ & Other).
    refine (proj2 (Other _ _ _ _) _); simpl; try lia; discriminate.
  - destruct (status_table_per_adapter
                (host_answering (answer 401 "" not_json) no_env)
                (answer 401 "" not_json)) as (_ & _ & T401 & _).
    exact (proj2 (T401 eq_refl)).
  - destruct (status_table_per_adapter
                (host_answering (answer 403 "" not_json) no_env)
                (answer 403 "" not_json)) as (_ & _ & _ & T403 & _).
    exact (proj2 (T403 eq_refl)).
  - destruct (status_table_per_adapter
                (host_answering (answer 429 "" not_json) no_env)
                (answer 429 "" not_json)) as (_ & _ & _ & _ & T429 & _).
    exact (proj2 (T429 eq_refl)).
Defined.

(** The Google Docs adapter's answer to a 204 with an empty body: decoding the
    body raises, so there is no success marker. *)
Lemma google_docs_204_raises :
  GoogleDocs._handle_response (host_answering (answer 204 "" not_json) no_env)
    (answer 204 "" not_json)
  = Raise (JSONDecodeError "Expecting value: line 1 column 1 (char 0)")
  /\ ~ maps_204_to_success_marker
        (GoogleDocs._handle_response
           (host_answering (answer 204 "" not_json) no_env)).
Proof.
  split; [reflexivity|].
  intros C. specialize (C (answer 204 "" not_json) eq_refl).
  vm_compute in C. discriminate C.
Qed.

(** C4, amended.  The Twitter adapter maps every 204 to [{"success": True}]
    without reading the body.  The Google Docs adapter has no case for 204: it
    treats it like every status below 400 and returns the decoded body as it
    is. *)
Theorem status_204_per_adapter :
  forall (h : Host) (r : Response),
    maps_204_to_success_marker (Twitter._handle_response h)
    /\ has_error_key success_marker = false
    /\ (status_code r = 204 -> GoogleDocs._handle_response h r = json_body r)
    /\ (status_code r < 400 -> GoogleDocs._handle_response h r = json_body r).
Proof.
  intros h r. split; [|split; [|split]].
  - intros r' E. apply twitter_204. exact E.
  - reflexivity.
  - intros E. apply google_below_400. lia.
  - apply google_below_400.
Qed.

Lemma status_204_per_adapter_witness :
  Twitter._handle_response (host_answering (answer 204 "" not_json) no_env)
    (answer 204 "" not_json) = Ok success_marker
  /\ GoogleDocs._handle_response (host_answering (answer 204 "" not_json) no_env)
       (answer 204 "{}" (Ok (VDict []))) = Ok (VDict [])
  /\ GoogleDocs._handle_response (host_answering (answer 204 "" not_json) no_env)
       (answer 200 "{}" (Ok (VDict []))) = Ok (VDict []).
Proof.
  split; [|split].
  - destruct (status_204_per_adapter
                (host_answering (answer 204 "" not_json) no_env)
                (answer 204 "" not_json)) as (T204 & _).
    exact (T204 (answer 204 "" not_json) eq_refl).
  - destruct (status_204_per_adapter
                (host_answering (answer 204 "" not_json) no_env)
                (answer 204 "{}" (Ok (VDict [])))) as (_ & _ & G204 & _).
    exact (G204 eq_refl).
  - destruct (status_204_per_adapter
                (host_answering (answer 204 "" not_json) no_env)
                (answer 200 "{}" (Ok (VDict [])))) as (_ & _ & _ & Below).
    apply Below. simpl. lia.
Defined.

(** ** Credentials *)

Lemma skipn_all_sent {A} (l : list A) : skipn (List.length l) l = [].
Proof. induction l; simpl; auto. Qed.

(** Without a usable token every Twitter tool stops before its body. *)
Lemma twitter_tool_without_token (h : Host) (credentials : option (string -> value))
      (token : value) (body : M Twitter.Client value) (w : world unit) :
  Twitter._get_token h credentials = Ok token ->
  truthy token = false ->
  Twitter.tool h credentials body w = (Ok Twitter.not_configured, w).
Proof.
  intros T F. unfold Twitter.tool, Twitter._get_client, bind, lift.
  rewrite T. simpl. rewrite F. reflexivity.
Qed.

Lemma twitter_invoke_without_token (h : Host)
      (credentials : option (string -> value)) (token : value)
      (c : Twitter.call) (w : world unit) :
  Twitter._get_token h credentials = Ok token ->
  truthy token = false ->
  Twitter.invoke h credentials c w = (Ok Twitter.not_configured, w).
Proof.
  intros T F. destruct c; simpl;
    apply (twitter_tool_without_token h credentials token); assumption.
Qed.

(** C9.  With no credential store and [TWITTER_BEARER_TOKEN] set to the empty
    string, every registered Twitter tool returns exactly the mapping with the
    error "Twitter credentials not configured" and the help text, and issues no
    HTTP request. *)
Theorem empty_bearer_token_is_not_configured :
  forall (h : Host) (c : Twitter.call) (w : world unit),
    getenv h "TWITTER_BEARER_TOKEN" = Some "" ->
    Twitter.invoke h None c w
    = (Ok (VDict [("error", VStr "Twitter credentials not configured");
                  ("help",
                   VStr "Set TWITTER_BEARER_TOKEN environment variable or connect Twitter via hive.adenhq.com")]),
       w)
    /\ issued (Twitter.invoke h None c) w = [].
Proof.
  intros h c w E.
  assert (R : Twitter.invoke h None c w = (Ok Twitter.not_configured, w)).
  { apply (twitter_invoke_without_token h None (VStr "")); [|reflexivity].
    unfold Twitter._get_token. rewrite E. reflexivity. }
  split.
  - rewrite R. reflexivity.
  - unfold issued. rewrite R. apply skipn_all_sent.
Qed.

Lemma empty_bearer_token_witness :
  Twitter.invoke (host_answering (answer 200 "" not_json) empty_token_env) None
    (Twitter.Post_tweet "hello" "") host
  = (Ok (VDict [("error", VStr "Twitter credentials not configured");
                ("help",
                 VStr "Set TWITTER_BEARER_TOKEN environment variable or connect Twitter via hive.adenhq.com")]),
     host)
  /\ issued (Twitter.invoke (host_answering (answer 200 "" not_json)
                               empty_token_env) None
               (Twitter.Post_tweet "hello" "")) host = [].
Proof.
  apply (empty_bearer_token_is_not_configured
           (host_answering (answer 200 "" not_json) empty_token_env)
           (Twitter.Post_tweet "hello" "") host).
  reflexivity.
Defined.

(** With only [GOOGLE_SERVICE_ACCOUNT_JSON] set, the Google Docs resolution
    returns the token inside it, where the stated order ends with absent. *)
Lemma google_docs_token_from_service_account :
  getenv (host_answering (answer 200 "" not_json) service_account_env)
    (Credentials.env_var (spec_of google_docs)) = None
  /\ resolve_as_specified
       (host_answering (answer 200 "" not_json) service_account_env) None
       google_docs = Ok VNone
  /\ get_token (host_answering (answer 200 "" not_json) service_account_env) None
       google_docs = Ok (VStr "tok")
  /\ get_token (host_answering (answer 200 "" not_json) service_account_env) None
       google_docs
     <> resolve_as_specified
          (host_answering (answer 200 "" not_json) service_account_env) None
          google_docs.
Proof.
  split; [reflexivity|]. split; [reflexivity|]. split; [reflexivity|].
  vm_compute. discriminate.
Qed.

(** C1, amended.  For both integrations: when a credential store is supplied,
    the result is the store's answer for the integration name if that is a
    string or absent, with no look at the environment, and a [TypeError] if it
    is anything else.  Only without a store is the environment read: for
    twitter the declared variable, as it is or absent; for google_docs the
    declared variable if it is set and not empty, otherwise the [access_token]
    member of the JSON object in [GOOGLE_SERVICE_ACCOUNT_JSON] when that
    variable is set and not empty, and absent when it is not set, is empty or
    does not decode. *)
Theorem token_resolution_order :
  forall (h : Host) (credentials : option (string -> value)) (i : integration),
    (forall credentials_get,
        credentials = Some credentials_get ->
        (is_none (credentials_get (name_of i))
         || isinstance_str (credentials_get (name_of i)) = true ->
         get_token h credentials i = Ok (credentials_get (name_of i))
         /\ get_token h credentials i = resolve_as_specified h credentials i)
        /\ (is_none (credentials_get (name_of i))
            || isinstance_str (credentials_get (name_of i)) = false ->
            exists msg, get_token h credentials i = Raise (TypeError msg)))
    /\ (credentials = None -> i = twitter ->
        get_token h credentials i = resolve_as_specified h credentials i)
    /\ (credentials = None -> i = google_docs ->
        (forall s, getenv h (Credentials.env_var (spec_of i)) = Some s ->
                   s <> "" ->
                   get_token h credentials i = Ok (VStr s))
        /\ (getenv h (Credentials.env_var (spec_of i)) = None
            \/ getenv h (Credentials.env_var (spec_of i)) = Some "" ->
            (getenv h "GOOGLE_SERVICE_ACCOUNT_JSON" = None
             \/ getenv h "GOOGLE_SERVICE_ACCOUNT_JSON" = Some "" ->
             get_token h credentials i = Ok VNone)
            /\ (forall sa, getenv h "GOOGLE_SERVICE_ACCOUNT_JSON" = Some sa ->
                           sa <> "" ->
                           (forall d, json_loads h sa = Ok (VDict d) ->
                                      get_token h credentials i
                                      = Ok (match lookup "access_token" d with
                                            | Some t => t
                                            | None => VNone
                                            end))
                           /\ (forall msg,
                                  json_loads h sa = Raise (JSONDecodeError msg) ->
                                  get_token h credentials i = Ok VNone)))).
Proof.
  intros h credentials i. split; [|split].
  - intros g ->. split; intros T.
    + assert (E : get_token h (Some g) i = Ok (g (name_of i))).
      { destruct i; simpl; unfold Twitter._get_token, GoogleDocs._get_token;
          simpl in T |- *;
          destruct (g _) eqn:G; simpl in T |- *; try discriminate T; reflexivity. }
      split; [exact E|]. rewrite E. reflexivity.
    + destruct i; simpl; unfold Twitter._get_token, GoogleDocs._get_token;
        simpl in T |- *;
        destruct (g _) eqn:G; simpl in T |- *; try discriminate T;
        eexists; reflexivity.
  - intros -> ->. unfold get_token, resolve_as_specified, Twitter._get_token.
    simpl. destruct (getenv h "TWITTER_BEARER_TOKEN"); reflexivity.
  - intros -> ->. simpl. unfold GoogleDocs._get_token, GoogleDocs.os_getenv.
    split.
    + intros s E N. rewrite E. simpl.
      apply String.eqb_neq in N. rewrite N. reflexivity.
    + intros E.
      assert (F : truthy (match getenv h "GOOGLE_DOCS_ACCESS_TOKEN" with
                          | Some s => VStr s
                          | None => VNone
                          end) = false)
        by (destruct E as [E|E]; rewrite E; reflexivity).
      rewrite F. split.
      * intros [S|S]; rewrite S; reflexivity.
      * intros sa S N. rewrite S. simpl.
        apply String.eqb_neq in N. rewrite N. simpl.
        split.
        -- intros d J. rewrite J. reflexivity.
        -- intros msg J. rewrite J. reflexivity.
Qed.

Lemma token_resolution_order_witness :
  (get_token (host_answering (answer 200 "" not_json) tokens_env)
     (store_with (VStr "stored")) twitter = Ok (VStr "stored"))
  /\ (exists msg,
         get_token (host_answering (answer 200 "" not_json) tokens_env)
           (store_with (VInt 42)) google_docs = Raise (TypeError msg))
  /\ (get_token (host_answering (answer 200 "" not_json) tokens_env) None twitter
      = Ok (VStr "env-token"))
  /\ (get_token (host_answering (answer 200 "" not_json) tokens_env) None
        google_docs = Ok (VStr "env-token"))
  /\ (get_token (host_answering (answer 200 "" not_json) no_env) None google_docs
      = Ok VNone)
  /\ (get_token (host_answering (answer 200 "" not_json) service_account_env) None
        google_docs = Ok (VStr "tok"))
  /\ (get_token (host_answering (answer 200 "" not_json)
                   malformed_service_account_env) None google_docs = Ok VNone).
Proof.
  split; [|split; [|split; [|split; [|split; [|split]]]]].
  - destruct (token_resolution_order
                (host_answering (answer 200 "" not_json) tokens_env)
                (store_with (VStr "stored")) twitter) as (Store & _).
    destruct (Store (fun _ => VStr "stored") eq_refl) as (Good & _).
    exact (proj1 (Good eq_refl)).
  - destruct (token_resolution_order
                (host_answering (answer 200 "" not_json) tokens_env)
                (store_with (VInt 42)) google_docs) as (Store & _).
    destruct (Store (fun _ => VInt 42) eq_refl) as (_ & Bad).
    exact (Bad eq_refl).
  - destruct (token_resolution_order
                (host_answering (answer 200 "" not_json) tokens_env)
                None twitter) as (_ & Tw & _).
    exact (Tw eq_refl eq_refl).
  - destruct (token_resolution_order
                (host_answering (answer 200 "" not_json) tokens_env)
                None google_docs) as (_ & _ & Gd).
    destruct (Gd eq_refl eq_refl) as (Env & _).
    apply (Env "env-token"); [reflexivity | discriminate].
  - destruct (token_resolution_order
                (host_answering (answer 200 "" not_json) no_env)
                None google_docs) as (_ & _ & Gd).
    destruct (Gd eq_refl eq_refl) as (_ & Fallback).
    destruct (Fallback (or_introl eq_refl)) as (Unset & _).
    exact (Unset (or_introl eq_refl)).
  - destruct (token_resolution_order
                (host_answering (answer 200 "" not_json) service_account_env)
                None google_docs) as (_ & _ & Gd).
    destruct (Gd eq_refl eq_refl) as (_ & Fallback).
    destruct (Fallback (or_introl eq_refl)) as (_ & Blob).
    assert (N : service_account_blob <> "") by discriminate.
    destruct (Blob service_account_blob eq_refl N) as (Object & _).
    exact (Object [("access_token", VStr "tok")] eq_refl).
  - destruct (token_resolution_order
                (host_answering (answer 200 "" not_json)
                   malformed_service_account_env)
                None google_docs) as (_ & _ & Gd).
    destruct (Gd eq_refl eq_refl) as (_ & Fallback).
    destruct (Fallback (or_introl eq_refl)) as (_ & Blob).
    assert (N : "{oops" <> "") by discriminate.
    destruct (Blob "{oops" eq_refl N) as (_ & Malformed).
    exact (Malformed "Expecting value: line 1 column 1 (char 0)" eq_refl).
Defined.

(** ** Google Docs: inserting at the end *)

Lemma nth_error_last {A} (x : A) (l : list A) (d : A) :
  nth_error (x :: l) (List.length l) = Some (last (x :: l) d).
Proof.
  revert x. induction l as [|y l IH]; intros x.
  - reflexivity.
  - change (nth_error (y :: l) (List.length l) = Some (last (y :: l) d)).
    apply IH.
Qed.

Lemma seq_index_last {A} (x : A) (l : list A) (d : A) :
  seq_index (x :: l) (-1) = Some (last (x :: l) d).
Proof.
  unfold seq_index.
  change (-1 <? 0) with true. cbv iota.
  replace (-1 + Z.of_nat (List.length (x :: l))) with (Z.of_nat (List.length l))
    by (simpl List.length; lia).
  replace (0 <=? Z.of_nat (List.length l)) with true
    by (symmetry; apply Z.leb_le; lia).
  replace (Z.of_nat (List.length l) <? Z.of_nat (List.length (x :: l))) with true
    by (symmetry; apply Z.ltb_lt; simpl List.length; lia).
  simpl andb. cbv iota. rewrite Nat2Z.id. apply nth_error_last.
Qed.

(** The code computes the index the specification describes. *)
Lemma end_of_document_as_specified (doc : value) (i : Z) :
  insertion_index_as_specified doc = Some i ->
  GoogleDocs.end_of_document doc = Ok (VInt i).
Proof.
  unfold insertion_index_as_specified, GoogleDocs.end_of_document.
  destruct doc as [| | | | |l|d]; try discriminate.
  simpl get. destruct (lookup "body" d) as [body|].
  - destruct body as [| | | | |l|b]; try discriminate.
    cbn [rbind get]. destruct (lookup "content" b) as [content|].
    + destruct content as [| | | | |l|c]; try discriminate.
      destruct l as [|first more].
      * intros E. inversion E. reflexivity.
      * cbn [truthy]. unfold getitem_int.
        rewrite (seq_index_last first more VNone).
        destruct (last (first :: more) VNone) as [| | | | |l'|e]; try discriminate.
        cbn [rbind get]. destruct (lookup "endIndex" e) as [end_index|]; try discriminate.
        destruct end_index; try discriminate.
        intros E. inversion E. reflexivity.
    + intros E. inversion E. reflexivity.
  - intros E. inversion E. reflexivity.
Qed.

Section InsertAtEnd.
Variable h : Host.
Variable w : world GoogleDocs.Client.
Variable document_id : string.

Lemma get_document_run :
  GoogleDocs.get_document h document_id w
  = (match server h (sent w) (fetch_request h (self w) document_id) with
     | Responds r => GoogleDocs._handle_response h r
     | Fails e => Raise e
     end,
     {| self := self w;
        sent := sent w ++ [fetch_request h (self w) document_id] |}).
Proof.
  unfold GoogleDocs.get_document. single_request. reflexivity.
Qed.

Lemma batch_update_run (requests : list value) :
  GoogleDocs.batch_update h document_id requests w
  = (match server h (sent w) (update_request h (self w) document_id requests) with
     | Responds r => GoogleDocs._handle_response h r
     | Fails e => Raise e
     end,
     {| self := self w;
        sent := sent w ++ [update_request h (self w) document_id requests] |}).
Proof.
  unfold GoogleDocs.batch_update. single_request. reflexivity.
Qed.

End InsertAtEnd.

Lemma insert_text_location (segment_id : option string) (i : Z) (text : string) :
  VDict [("insertText",
          VDict [("location",
                  VDict (dict_set "index" (VInt i)
                           match segment_id with
                           | Some s => if negb (String.eqb s "")
                                       then dict_set "segmentId" (VStr s) []
                                       else []
                           | None => []
                           end));
                 ("text", VStr text)])]
  = insert_text_at segment_id i text.
Proof.
  unfold insert_text_at. destruct segment_id as [s|]; [|reflexivity].
  destruct (String.eqb s ""); reflexivity.
Qed.

(** C5.  [insert_text] without an index first fetches the document
    ([get_document]).  If the fetch returns an error result, or raises, that is
    the outcome and the fetch is the only request.  Otherwise the insertion
    index is the last content element's [endIndex] minus 1, or 1 when the body
    has no content, and the second and last request is the [batchUpdate] that
    inserts the text at that index. *)
Theorem insert_text_at_end_is_fetch_then_update :
  forall (h : Host) (w w1 : world GoogleDocs.Client)
         (document_id text : string) (segment_id : option string),
    issued (GoogleDocs.get_document h document_id) w
    = [fetch_request h (self w) document_id]
    /\ (forall e,
           GoogleDocs.get_document h document_id w = (Raise e, w1) ->
           GoogleDocs.insert_text h document_id text None segment_id w
           = (Raise e, w1)
           /\ issued (GoogleDocs.insert_text h document_id text None segment_id) w
              = [fetch_request h (self w) document_id])
    /\ (forall doc,
           GoogleDocs.get_document h document_id w = (Ok doc, w1) ->
           (contains "error" doc = Ok true ->
            GoogleDocs.insert_text h document_id text None segment_id w
            = (Ok doc, w1)
            /\ issued (GoogleDocs.insert_text h document_id text None segment_id) w
               = [fetch_request h (self w) document_id])
           /\ (contains "error" doc = Ok false ->
               forall i,
                 insertion_index_as_specified doc = Some i ->
                 GoogleDocs.insert_text h document_id text None segment_id w
                 = GoogleDocs.batch_update h document_id
                     [insert_text_at segment_id i text] w1
                 /\ issued (GoogleDocs.insert_text h document_id text None
                              segment_id) w
                    = [fetch_request h (self w) document_id;
                       update_request h (self w) document_id
                         [insert_text_at segment_id i text]])).
Proof.
  intros h w w1 document_id text segment_id.
  pose proof (get_document_run h w document_id) as G.
  split; [|split].
  - eapply issued_one. exact G.
  - intros e E.
    assert (R : GoogleDocs.insert_text h document_id text None segment_id w
                = (Raise e, w1))
      by (unfold GoogleDocs.insert_text, bind; rewrite E; reflexivity).
    split; [exact R|].
    unfold issued. rewrite R. rewrite E in G. inversion G; subst w1.
    simpl. apply skipn_app_exact.
  - intros doc E. split.
    + intros C.
      assert (R : GoogleDocs.insert_text h document_id text None segment_id w
                  = (Ok doc, w1))
        by (unfold GoogleDocs.insert_text, bind, lift; rewrite E, C; reflexivity).
      split; [exact R|].
      unfold issued. rewrite R. rewrite E in G. inversion G; subst w1.
      simpl. apply skipn_app_exact.
    + intros C i I.
      assert (R : GoogleDocs.insert_text h document_id text None segment_id w
                  = GoogleDocs.batch_update h document_id
                      [insert_text_at segment_id i text] w1).
      { unfold GoogleDocs.insert_text, bind at 1 2 3, lift.
        rewrite E, C. rewrite (end_of_document_as_specified doc i I).
        rewrite insert_text_location. reflexivity. }
      split; [exact R|].
      unfold issued. rewrite R, batch_update_run.
      rewrite E in G. inversion G; subst w1. simpl.
      rewrite <- app_assoc. apply skipn_app_exact.
Qed.

Lemma insert_text_at_end_witness :
  issued (GoogleDocs.insert_text (host_serving docs_server no_env) "d" "hi" None
            None) a_docs_client
  = [fetch_request (host_serving docs_server no_env) (self a_docs_client) "d";
     update_request (host_serving docs_server no_env) (self a_docs_client) "d"
       [insert_text_at None 11 "hi"]]
  /\ GoogleDocs.insert_text (host_answering (answer 404 "" not_json) no_env)
       "d" "hi" None None a_docs_client
     = (Ok (error_result "Document not found"),
        {| self := self a_docs_client;
           sent := [fetch_request (host_answering (answer 404 "" not_json) no_env)
                      (self a_docs_client) "d"] |})
  /\ issued (GoogleDocs.insert_text (host_serving timing_out no_env) "d" "hi"
               None None) a_docs_client
     = [fetch_request (host_serving timing_out no_env) (self a_docs_client) "d"].
Proof.
  split; [|split].
  - destruct (insert_text_at_end_is_fetch_then_update
                (host_serving docs_server no_env) a_docs_client
                {| self := self a_docs_client;
                   sent := [fetch_request (host_serving docs_server no_env)
                              (self a_docs_client) "d"] |}
                "d" "hi" None) as (_ & _ & Fetched).
    destruct (Fetched a_document eq_refl) as (_ & Update).
    exact (proj2 (Update eq_refl 11 eq_refl)).
  - destruct (insert_text_at_end_is_fetch_then_update
                (host_answering (answer 404 "" not_json) no_env) a_docs_client
                {| self := self a_docs_client;
                   sent := [fetch_request
                              (host_answering (answer 404 "" not_json) no_env)
                              (self a_docs_client) "d"] |}
                "d" "hi" None) as (_ & _ & Fetched).
    destruct (Fetched (error_result "Document not found") eq_refl) as (Error & _).
    exact (proj1 (Error eq_refl)).
  - destruct (insert_text_at_end_is_fetch_then_update
                (host_serving timing_out no_env) a_docs_client
                {| self := self a_docs_client;
                   sent := [fetch_request (host_serving timing_out no_env)
                              (self a_docs_client) "d"] |}
                "d" "hi" None) as (_ & Raised & _).
    exact (proj2 (Raised (TimeoutException "timed out") eq_refl)).
Defined.

(** ** Twitter: the cached identity *)

Section Identity.
Variable h : Host.

Lemma get_me_id_cached (w : world Twitter.Client) :
  Twitter._me_id (self w) <> VNone ->
  Twitter._get_me_id h w = (Ok (Twitter._me_id (self w)), w).
Proof.
  intros N. unfold Twitter._get_me_id. rewrite bind_get_self.
  destruct (Twitter._me_id (self w)); try reflexivity. contradiction.
Qed.

(** The uncached case, spelled out. *)
Lemma get_me_id_uncached (w : world Twitter.Client) :
  Twitter._me_id (self w) = VNone ->
  Twitter._get_me_id h w
  = let w1 := {| self := self w; sent := sent w ++ [me_request h (self w)] |} in
    match server h (sent w) (me_request h (self w)) with
    | Fails e => (Raise e, w1)
    | Responds r =>
        match Twitter._handle_response h r with
        | Raise e => (Raise e, w1)
        | Ok result =>
            match contains "error" result with
            | Raise e => (Raise e, w1)
            | Ok true => (Ok result, w1)
            | Ok false =>
                match rbind (getitem result "data")
                            (fun data => getitem data "id") with
                | Raise e => (Raise e, w1)
                | Ok id =>
                    (Ok id,
                     {| self := {| Twitter._token := Twitter._token (self w);
                                   Twitter._me_id := id |};
                        sent := sent w ++ [me_request h (self w)] |})
                end
            end
        end
    end.
Proof.
  intros N. unfold Twitter._get_me_id. rewrite bind_get_self. rewrite N.
  cbn [is_none negb]. unfold httpx_get, httpx_request, bind at 1.
  fold (me_request h (self w)).
  destruct (server h (sent w) (me_request h (self w))) as [r|e]; [|reflexivity].
  unfold bind at 1, lift at 1.
  destruct (Twitter._handle_response h r) as [result|e]; [|reflexivity].
  unfold bind at 1, lift at 1.
  destruct (contains "error" result) as [[|]|e]; try reflexivity.
  unfold bind at 1, lift at 1. unfold rbind.
  destruct (getitem result "data") as [data|e]; [|reflexivity].
  unfold bind at 1, lift at 1.
  destruct (getitem data "id") as [id|e]; reflexivity.
Qed.

End Identity.

Section Engagement.
Variable h : Host.

Lemma mutating_is_not_me (req : Request) :
  is_mutating req = true -> is_me_request req = false.
Proof.
  unfold is_mutating, is_me_request. destruct (req_method req); auto; discriminate.
Qed.

Lemma me_request_is_me (c : Twitter.Client) : is_me_request (me_request h c) = true.
Proof. reflexivity. Qed.

(** How an engagement call proceeds once the identity is asked for: it
    raises with it, returns the dict it got, or goes on to one mutating
    exchange. *)
Lemma engage_steps (op : engagement) (w : world Twitter.Client) :
  (exists e w1,
      Twitter._get_me_id h w = (Raise e, w1)
      /\ engage h op w = (Raise e, w1))
  \/ (exists me w1,
         Twitter._get_me_id h w = (Ok me, w1)
         /\ isinstance_dict me = true
         /\ engage h op w = (Ok me, w1))
  \/ (exists me w1 req,
         Twitter._get_me_id h w = (Ok me, w1)
         /\ isinstance_dict me = false
         /\ is_mutating req = true
         /\ engage h op w
            = (response <- httpx_request h req ;;
               lift (Twitter._handle_response h response))%adapter w1).
Proof.
  destruct (Twitter._get_me_id h w) as [[me|e] w1] eqn:G.
  - destruct (isinstance_dict me) eqn:D.
    + right; left. exists me, w1.
      split; [reflexivity|]. split; [exact D|].
      destruct op; unfold engage, Twitter.like_tweet, Twitter.unlike_tweet,
        Twitter.retweet, Twitter.undo_retweet, Twitter.follow_user,
        Twitter.unfollow_user; unfold bind at 1; rewrite G, D; reflexivity.
    + right; right.
      destruct op; unfold engage, Twitter.like_tweet, Twitter.unlike_tweet,
        Twitter.retweet, Twitter.undo_retweet, Twitter.follow_user,
        Twitter.unfollow_user; unfold bind at 1; rewrite G, D;
        rewrite bind_get_self; unfold httpx_post, httpx_delete;
        (exists me, w1; eexists;
         split; [reflexivity|]; split; [exact D|];
         split; [|reflexivity]; reflexivity).
  - left. exists e, w1. split; auto.
    destruct op; unfold engage, Twitter.like_tweet, Twitter.unlike_tweet,
      Twitter.retweet, Twitter.undo_retweet, Twitter.follow_user,
      Twitter.unfollow_user; unfold bind at 1; rewrite G; reflexivity.
Qed.

Lemma engage_cases (op : engagement) (w : world Twitter.Client) :
  (exists e w1,
      Twitter._get_me_id h w = (Raise e, w1)
      /\ engage h op w = (Raise e, w1))
  \/ (exists me w1,
         Twitter._get_me_id h w = (Ok me, w1)
         /\ isinstance_dict me = true
         /\ engage h op w = (Ok me, w1))
  \/ (exists me w1 req r,
         Twitter._get_me_id h w = (Ok me, w1)
         /\ isinstance_dict me = false
         /\ is_mutating req = true
         /\ engage h op w = (r, {| self := self w1; sent := sent w1 ++ [req] |})).
Proof.
  destruct (engage_steps op w)
    as [S | [S | (me & w1 & req & G & D & M & E)]]; auto.
  right; right. rewrite one_request in E.
  exists me, w1, req. eexists. repeat (split; [eassumption|]). exact E.
Qed.

End Engagement.

Section Caching.
Variable h : Host.

Lemma count_me_app (l k : list Request) :
  count_me (l ++ k) = (count_me l + count_me k)%nat.
Proof. unfold count_me. rewrite filter_app, length_app. reflexivity. Qed.

Lemma count_me_mutating (req : Request) :
  is_mutating req = true -> count_me [req] = 0%nat.
Proof.
  intros M. unfold count_me. simpl. rewrite (mutating_is_not_me req M). reflexivity.
Qed.

Lemma none_or_not (v : value) : v = VNone \/ v <> VNone.
Proof. destruct v; auto; right; discriminate. Qed.

(** An engagement call on a client that knows its id leaves the client as it
    is and sends at most the one mutating request. *)
Lemma engage_cached (op : engagement) (w : world Twitter.Client) :
  Twitter._me_id (self w) <> VNone ->
  exists r w',
    engage h op w = (r, w')
    /\ self w' = self w
    /\ (sent w' = sent w
        \/ exists req, is_mutating req = true /\ sent w' = (sent w ++ [req])%list).
Proof.
  intros N. pose proof (get_me_id_cached h w N) as G.
  destruct (engage_cases h op w)
    as [(e & w1 & G1 & E) | [(me & w1 & G1 & D & E) | (me & w1 & req & r & G1 & D & M & E)]];
    rewrite G in G1; inversion G1; subst.
  - exists (Ok (Twitter._me_id (self w1))), w1. auto.
  - exists r. eexists. split; [exact E|]. split; [reflexivity|].
    right. exists req. auto.
Qed.

Lemma run_calls_cached (ops : list engagement) :
  forall (w : world Twitter.Client),
    Twitter._me_id (self w) <> VNone ->
    self (snd (run_calls h ops w)) = self w
    /\ count_me (sent (snd (run_calls h ops w))) = count_me (sent w).
Proof.
  induction ops as [|op rest IH]; intros w N.
  - simpl. auto.
  - simpl. destruct (engage_cached op w N) as (r & w1 & E & S1 & T).
    rewrite E.
    assert (N1 : Twitter._me_id (self w1) <> VNone) by (rewrite S1; exact N).
    destruct (IH w1 N1) as [S2 C2].
    destruct (run_calls h rest w1) as [rs w2]. simpl in *.
    split; [congruence|]. rewrite C2.
    destruct T as [T | (req & M & T)]; rewrite T; [reflexivity|].
    rewrite count_me_app, (count_me_mutating req M). lia.
Qed.

(** What the adapter makes of an answer to [GET /users/me] is an object. *)
Lemma identity_answer_is_object (hist : list Request) (req : Request)
      (r : Response) (result : value) :
  serves_identities h ->
  server h hist req = Responds r ->
  is_me_request req = true ->
  Twitter._handle_response h r = Ok result ->
  exists d, result = VDict d
            /\ forall data, lookup "data" d = Some data ->
                            getitem data "id" <> Ok VNone.
Proof.
  intros Sv A Me. unfold Twitter._handle_response.
  destruct (status_code r =? 429);
    [intros E; inversion E; eexists; split; [reflexivity|]; intros data L; discriminate L|].
  destruct (status_code r =? 401);
    [intros E; inversion E; eexists; split; [reflexivity|]; intros data L; discriminate L|].
  destruct (status_code r =? 403);
    [intros E; inversion E; eexists; split; [reflexivity|]; intros data L; discriminate L|].
  destruct (negb _);
    [intros E; inversion E; eexists; split; [reflexivity|]; intros data L; discriminate L|].
  destruct (status_code r =? 204);
    [intros E; inversion E; eexists; split; [reflexivity|]; intros data L; discriminate L|].
  intros J. exact (Sv hist req r result A Me J).
Qed.

(** Asking for the identity without a cached id either yields an error
    result and caches nothing, or yields the id and caches it. *)
Lemma get_me_id_uncached_ok (w w1 : world Twitter.Client) (me : value) :
  serves_identities h ->
  Twitter._me_id (self w) = VNone ->
  Twitter._get_me_id h w = (Ok me, w1) ->
  sent w1 = (sent w ++ [me_request h (self w)])%list
  /\ ((has_error_key me = true /\ isinstance_dict me = true)
      \/ (me <> VNone /\ Twitter._me_id (self w1) = me)).
Proof.
  intros Sv N. rewrite (get_me_id_uncached h w N). cbv zeta.
  destruct (server h (sent w) (me_request h (self w))) as [r|e] eqn:A;
    [|discriminate].
  destruct (Twitter._handle_response h r) as [result|e] eqn:H; [|discriminate].
  destruct (identity_answer_is_object (sent w) (me_request h (self w)) r result
              Sv A (me_request_is_me h (self w)) H) as (d & -> & Id).
  cbn [contains]. destruct (has_key "error" d) eqn:K.
  - intros E. inversion E; subst. simpl. rewrite K. auto.
  - cbn [getitem rbind]. destruct (lookup "data" d) as [data|] eqn:L; [|discriminate].
    cbn [rbind]. specialize (Id data eq_refl).
    destruct (getitem data "id") as [id|e]; [|discriminate].
    intros E. inversion E; subst. simpl. split; [reflexivity|]. right.
    split; [|reflexivity]. intros ->. apply Id. reflexivity.
Qed.

(** A successful call on a client without a cached id asks once and leaves
    the id cached. *)
Lemma engage_uncached_success (op : engagement) (w w' : world Twitter.Client)
      (r : res value) :
  serves_identities h ->
  Twitter._me_id (self w) = VNone ->
  engage h op w = (r, w') ->
  successful r = true ->
  Twitter._me_id (self w') <> VNone
  /\ count_me (sent w') = S (count_me (sent w)).
Proof.
  intros Sv N E Su.
  destruct (engage_cases h op w)
    as [(e & w1 & G & E1) | [(me & w1 & G & D & E1) | (me & w1 & req & r1 & G & D & M & E1)]];
    rewrite E in E1; inversion E1; subst; clear E1.
  - discriminate Su.
  - destruct (get_me_id_uncached_ok w w1 me Sv N G) as [St [[K _] | [Nn C]]].
    + simpl in Su. rewrite K in Su. discriminate Su.
    + split; [rewrite C; exact Nn|].
      rewrite St, count_me_app. unfold count_me at 2. simpl. lia.
  - destruct (get_me_id_uncached_ok w w1 me Sv N G) as [St [[_ K] | [Nn C]]].
    + rewrite K in D. discriminate D.
    + simpl. split; [rewrite C; exact Nn|].
      rewrite St, !count_me_app, (count_me_mutating req M).
      unfold count_me at 2. simpl. lia.
Qed.

Lemma run_calls_at_most_one (ops : list engagement) :
  forall (w : world Twitter.Client),
    serves_identities h ->
    Twitter._me_id (self w) = VNone ->
    forallb successful (fst (run_calls h ops w)) = true ->
    (count_me (sent (snd (run_calls h ops w))) <= count_me (sent w) + 1)%nat.
Proof.
  destruct ops as [|op rest]; intros w Sv N Su.
  - simpl. lia.
  - simpl in *. destruct (engage h op w) as [r w1] eqn:E.
    pose proof (run_calls_cached rest w1) as Rest.
    destruct (run_calls h rest w1) as [rs w2]. simpl in *.
    apply andb_true_iff in Su. destruct Su as [Su _].
    destruct (engage_uncached_success op w w1 r Sv N E Su) as [N1 C1].
    destruct (Rest N1) as [_ C2]. lia.
Qed.

End Caching.

Section IdentityRequests.
Variable h : Host.

Lemma get_me_id_uncached_sent (w w1 : world Twitter.Client) (r : res value) :
  Twitter._me_id (self w) = VNone ->
  Twitter._get_me_id h w = (r, w1) ->
  sent w1 = (sent w ++ [me_request h (self w)])%list.
Proof.
  intros N. rewrite (get_me_id_uncached h w N). cbv zeta.
  destruct (server h (sent w) (me_request h (self w))) as [rp|e];
    [|intros E; inversion E; reflexivity].
  destruct (Twitter._handle_response h rp) as [result|e];
    [|intros E; inversion E; reflexivity].
  destruct (contains "error" result) as [[|]|e];
    try (intros E; inversion E; reflexivity).
  destruct (rbind (getitem result "data") (fun data => getitem data "id"));
    intros E; inversion E; reflexivity.
Qed.

Lemma get_me_id_sent (w w1 : world Twitter.Client) (r : res value) :
  Twitter._get_me_id h w = (r, w1) ->
  sent w1 = sent w \/ sent w1 = (sent w ++ [me_request h (self w)])%list.
Proof.
  intros G. destruct (none_or_not (Twitter._me_id (self w))) as [N|N].
  - right. exact (get_me_id_uncached_sent w w1 r N G).
  - left. rewrite (get_me_id_cached h w N) in G. inversion G. reflexivity.
Qed.

Lemma no_mutating_in_identity (w w1 : world Twitter.Client) (r : res value) :
  Twitter._get_me_id h w = (r, w1) ->
  filter is_mutating (skipn (List.length (sent w)) (sent w1)) = [].
Proof.
  intros G. destruct (get_me_id_sent w w1 r G) as [E|E]; rewrite E.
  - rewrite skipn_all_sent. reflexivity.
  - rewrite skipn_app_exact. reflexivity.
Qed.

Lemma error_result_is_dict (v : value) :
  has_error_key v = true -> isinstance_dict v = true.
Proof. destruct v; simpl; auto; discriminate. Qed.

(** Without a cached id an engagement call starts with [GET /users/me]; at
    most one request follows, and it is a mutating one. *)
Lemma engage_uncached_issues (op : engagement) (w : world Twitter.Client) :
  Twitter._me_id (self w) = VNone ->
  exists rest,
    issued (engage h op) w = me_request h (self w) :: rest
    /\ count_me rest = 0%nat
    /\ (List.length rest <= 1)%nat.
Proof.
  intros N. unfold issued.
  destruct (engage_cases h op w)
    as [(e & w1 & G & E) | [(me & w1 & G & D & E) | (me & w1 & req & r & G & D & M & E)]];
    rewrite E; simpl; rewrite (get_me_id_uncached_sent w w1 _ N G).
  - exists []. rewrite skipn_app_exact. simpl. auto.
  - exists []. rewrite skipn_app_exact. simpl. auto.
  - exists [req]. rewrite <- app_assoc, skipn_app_exact. simpl.
    split; [reflexivity|]. split; [apply (count_me_mutating req M) | lia].
Qed.

Lemma engage_cached_issues (op : engagement) (w : world Twitter.Client) :
  Twitter._me_id (self w) <> VNone ->
  count_me (issued (engage h op) w) = 0%nat
  /\ self (snd (engage h op w)) = self w.
Proof.
  intros N. destruct (engage_cached h op w N) as (r & w' & E & S & T).
  unfold issued. rewrite E. simpl. split; [|exact S].
  destruct T as [T | (req & M & T)]; rewrite T.
  - rewrite skipn_all_sent. reflexivity.
  - rewrite skipn_app_exact. apply (count_me_mutating req M).
Qed.

End IdentityRequests.

(** C6.  For the six engagement operations of a Twitter client: a new client
    has no id; a call on a client without one begins with [GET /users/me];
    once an id is stored, no call asks again and the stored id stays; so over
    any number of successful calls on one client there is at most one
    [/users/me] request (the remote side being one that answers [/users/me]
    with an object carrying a non-null id).  When resolving the identity
    returns an error result, or raises, that is the outcome of the operation
    and no mutating request is issued. *)
Theorem identity_is_resolved_once_per_client :
  forall (h : Host),
    (forall token, Twitter._me_id (Twitter._TwitterClient token) = VNone)
    /\ (forall op w,
           Twitter._me_id (self w) = VNone ->
           exists rest,
             issued (engage h op) w = me_request h (self w) :: rest
             /\ count_me rest = 0%nat
             /\ (List.length rest <= 1)%nat)
    /\ (forall op w,
           Twitter._me_id (self w) <> VNone ->
           count_me (issued (engage h op) w) = 0%nat
           /\ self (snd (engage h op w)) = self w)
    /\ (serves_identities h ->
        forall token ops,
          forallb successful
                  (fst (run_calls h ops (fresh (Twitter._TwitterClient token))))
          = true ->
          (count_me (sent (snd (run_calls h ops
                                  (fresh (Twitter._TwitterClient token)))))
           <= 1)%nat)
    /\ (forall op w v w1,
           Twitter._get_me_id h w = (Ok v, w1) ->
           has_error_key v = true ->
           engage h op w = (Ok v, w1)
           /\ filter is_mutating (issued (engage h op) w) = [])
    /\ (forall op w e w1,
           Twitter._get_me_id h w = (Raise e, w1) ->
           engage h op w = (Raise e, w1)
           /\ filter is_mutating (issued (engage h op) w) = []).
Proof.
  intros h. split; [|split; [|split; [|split; [|split]]]].
  - reflexivity.
  - apply engage_uncached_issues.
  - apply engage_cached_issues.
  - intros Sv token ops Su.
    apply (run_calls_at_most_one h ops (fresh (Twitter._TwitterClient token)) Sv
             eq_refl Su).
  - intros op w v w1 G K.
    pose proof (error_result_is_dict v K) as D.
    assert (E : engage h op w = (Ok v, w1)).
    { destruct (engage_cases h op w)
        as [(e & w2 & G1 & E) | [(me & w2 & G1 & D1 & E) | (me & w2 & req & r & G1 & D1 & M & E)]];
        rewrite G in G1; inversion G1; subst; auto.
      rewrite D in D1. discriminate D1. }
    split; [exact E|]. unfold issued. rewrite E. simpl.
    apply (no_mutating_in_identity h w w1 _ G).
  - intros op w e w1 G.
    assert (E : engage h op w = (Raise e, w1)).
    { destruct (engage_cases h op w)
        as [(e2 & w2 & G1 & E) | [(me & w2 & G1 & D1 & E) | (me & w2 & req & r & G1 & D1 & M & E)]];
        rewrite G in G1; inversion G1; subst; auto. }
    split; [exact E|]. unfold issued. rewrite E. simpl.
    apply (no_mutating_in_identity h w w1 _ G).
Qed.

Lemma twitter_server_serves_identities :
  serves_identities (host_serving twitter_server no_env).
Proof.
  intros hist req r v A Me J. simpl in A. unfold twitter_server in A.
  rewrite Me in A. inversion A; subst r. simpl in J. inversion J; subst v.
  eexists. split; [reflexivity|].
  intros data L. simpl in L. inversion L; subst data. simpl. discriminate.
Defined.

Lemma identity_is_resolved_once_witness :
  (exists rest,
      issued (engage (host_serving twitter_server no_env) (Like "9")) a_client
      = me_request (host_serving twitter_server no_env) (self a_client) :: rest
      /\ count_me rest = 0%nat
      /\ (List.length rest <= 1)%nat)
  /\ (count_me (issued (engage (host_serving twitter_server no_env) (Like "9"))
                  a_known_client) = 0%nat
      /\ self (snd (engage (host_serving twitter_server no_env) (Like "9")
                      a_known_client))
         = self a_known_client)
  /\ (count_me
        (sent (snd (run_calls (host_serving twitter_server no_env) three_calls
                      (fresh (Twitter._TwitterClient (VStr "token"))))))
      <= 1)%nat
  /\ (engage (host_answering (answer 401 "" not_json) no_env) (Like "9") a_client
      = (Ok (error_result "Invalid or expired Twitter token"),
         {| self := self a_client;
            sent := [me_request (host_answering (answer 401 "" not_json) no_env)
                       (self a_client)] |})
      /\ filter is_mutating
           (issued (engage (host_answering (answer 401 "" not_json) no_env)
                      (Like "9")) a_client) = [])
  /\ (engage (host_serving timing_out no_env) (Like "9") a_client
      = (Raise (TimeoutException "timed out"),
         {| self := self a_client;
            sent := [me_request (host_serving timing_out no_env)
                       (self a_client)] |})
      /\ filter is_mutating
           (issued (engage (host_serving timing_out no_env) (Like "9")) a_client)
         = []).
Proof.
  split; [|split; [|split; [|split]]].
  - destruct (identity_is_resolved_once_per_client
                (host_serving twitter_server no_env)) as (_ & First & _).
    exact (First (Like "9") a_client eq_refl).
  - destruct (identity_is_resolved_once_per_client
                (host_serving twitter_server no_env)) as (_ & _ & Cached & _).
    apply (Cached (Like "9") a_known_client). discriminate.
  - destruct (identity_is_resolved_once_per_client
                (host_serving twitter_server no_env)) as (_ & _ & _ & Once & _).
    exact (Once twitter_server_serves_identities (VStr "token") three_calls
                eq_refl).
  - destruct (identity_is_resolved_once_per_client
                (host_answering (answer 401 "" not_json) no_env))
      as (_ & _ & _ & _ & Short & _).
    exact (Short (Like "9") a_client
                 (error_result "Invalid or expired Twitter token")
                 _ eq_refl eq_refl).
  - destruct (identity_is_resolved_once_per_client
                (host_serving timing_out no_env))
      as (_ & _ & _ & _ & _ & Raised).
    exact (Raised (Like "9") a_client (TimeoutException "timed out") _ eq_refl).
Defined.

(** ** Every tool returns a mapping *)

Lemma except_httpx_returns {O} (m : M O value) (w : world O)
      (P : list (string * value) -> bool) :
  behaves m w P -> returns_mapping (except_httpx m) w.
Proof.
  intros [(e & w' & E & T) | (d & w' & E & _)];
    unfold returns_mapping, except_httpx; rewrite E.
  - destruct e; try discriminate T; eexists _, _; reflexivity.
  - eexists _, _; reflexivity.
Qed.

Lemma on_client_returns {O} (client : O) (m : M O value) (w : world unit) :
  returns_mapping m {| self := client; sent := sent w |} ->
  returns_mapping (on_client client m) w.
Proof.
  intros (d & w' & E). unfold returns_mapping, on_client. rewrite E.
  eexists _, _; reflexivity.
Qed.

Lemma behaves_weaken {O} (m : M O value) (w : world O)
      (P Q : list (string * value) -> bool) :
  (forall d, P d = true -> Q d = true) ->
  behaves m w P -> behaves m w Q.
Proof.
  intros I [B | (d & w' & E & S)]; [left; exact B|].
  right. exists d, w'. split; [exact E|].
  apply orb_true_iff in S. apply orb_true_iff.
  destruct S as [S|S]; [left | right]; auto.
Qed.

Section TwitterTools.
Variable h : Host.
Variable credentials : option (string -> value).
Variable c : Twitter.call.
Hypothesis store_fits : store_yields_str_or_none credentials "twitter".
Hypothesis host_fits : twitter_host_fits h c.

Lemma twitter_handled (hist : list Request) (req : Request) (r : Response) :
  server h hist req = Responds r ->
  exists d, Twitter._handle_response h r = Ok (VDict d)
            /\ has_key "error" d || twitter_shape c req d = true.
Proof.
  intros A. pose proof (host_fits hist req) as F. rewrite A in F.
  destruct F as [F2 F4].
  destruct (Z.eq_dec (status_code r) 429) as [E|N9];
    [rewrite (twitter_429 h r E); eexists; split; reflexivity|].
  destruct (Z.eq_dec (status_code r) 401) as [E|N1];
    [rewrite (twitter_401 h r E); eexists; split; reflexivity|].
  destruct (Z.eq_dec (status_code r) 403) as [E|N3];
    [rewrite (twitter_403 h r E); eexists; split; reflexivity|].
  destruct (Z.eq_dec (status_code r) 200) as [E|N200].
  { rewrite (twitter_success h r (or_introl E)).
    destruct (F2 (or_introl E)) as (v & J & B). rewrite J.
    destruct v; try discriminate B. eexists; split; [reflexivity | exact B]. }
  destruct (Z.eq_dec (status_code r) 201) as [E|N201].
  { rewrite (twitter_success h r (or_intror E)).
    destruct (F2 (or_intror E)) as (v & J & B). rewrite J.
    destruct v; try discriminate B. eexists; split; [reflexivity | exact B]. }
  destruct (Z.eq_dec (status_code r) 204) as [E|N204].
  { rewrite (twitter_204 h r E). eexists; split; [reflexivity|].
    unfold twitter_shape. rewrite (F4 E). destruct (reads_data c); reflexivity. }
  rewrite (twitter_other h r N9 N1 N3 N200 N201 N204).
  eexists; split; reflexivity.
Qed.

Lemma twitter_exchange_behaves (req : Request) (w : world Twitter.Client) :
  behaves (response <- httpx_request h req ;;
           lift (Twitter._handle_response h response))%adapter
          w (twitter_shape c req).
Proof.
  unfold behaves. rewrite one_request.
  destruct (server h (sent w) req) as [r|e] eqn:A.
  - right. destruct (twitter_handled (sent w) req r A) as (d & H & S).
    rewrite H. eexists d, _. split; [reflexivity | exact S].
  - left. pose proof (host_fits (sent w) req) as F. rewrite A in F.
    eexists e, _. split; [reflexivity | exact F].
Qed.

(** An exchange that is not the identity request, for a tool that does not
    read [data]. *)
Lemma twitter_exchange_any (req : Request) (w : world Twitter.Client) :
  behaves (response <- httpx_request h req ;;
           lift (Twitter._handle_response h response))%adapter
          w any_object.
Proof.
  apply (behaves_weaken _ _ (twitter_shape c req)); [reflexivity|].
  apply twitter_exchange_behaves.
Qed.

(** A mutating exchange, for a tool that reads [data]. *)
Lemma twitter_exchange_data (req : Request) (w : world Twitter.Client) :
  reads_data c = true ->
  is_mutating req = true ->
  behaves (response <- httpx_request h req ;;
           lift (Twitter._handle_response h response))%adapter
          w data_absent_or_object.
Proof.
  intros R Mu.
  apply (behaves_weaken _ _ (twitter_shape c req)); [|apply twitter_exchange_behaves].
  intros d. unfold twitter_shape.
  rewrite (mutating_is_not_me req Mu), R. auto.
Qed.

Lemma get_me_id_fits (w : world Twitter.Client) :
  Twitter._me_id (self w) = VNone ->
  (exists e w1, Twitter._get_me_id h w = (Raise e, w1) /\ transport_error e = true)
  \/ (exists d w1, Twitter._get_me_id h w = (Ok (VDict d), w1)
                   /\ has_key "error" d = true)
  \/ (exists s w1, Twitter._get_me_id h w = (Ok (VStr s), w1)).
Proof.
  intros N. rewrite (get_me_id_uncached h w N). cbv zeta.
  destruct (server h (sent w) (me_request h (self w))) as [r|e] eqn:A.
  - destruct (twitter_handled (sent w) (me_request h (self w)) r A)
      as (d & H & S).
    rewrite H. cbn [contains]. destruct (has_key "error" d) eqn:K.
    + right; left. eexists d, _. split; [reflexivity | exact K].
    + right; right. simpl in S. unfold twitter_shape in S.
      rewrite (me_request_is_me h (self w)) in S. unfold carries_str_id in S.
      cbn [getitem rbind].
      destruct (lookup "data" d) as [data|]; [|discriminate S].
      destruct data as [| | | | | |dd]; try discriminate S.
      cbn [getitem rbind].
      destruct (lookup "id" dd) as [id|]; [|discriminate S].
      destruct id; try discriminate S.
      eexists _, _. reflexivity.
  - left. pose proof (host_fits (sent w) (me_request h (self w))) as F.
    rewrite A in F. eexists e, _. split; [reflexivity | exact F].
Qed.

Lemma engage_behaves (op : engagement) (w : world Twitter.Client) :
  reads_data c = true ->
  Twitter._me_id (self w) = VNone ->
  behaves (engage h op) w data_absent_or_object.
Proof.
  intros R N.
  destruct (engage_steps h op w)
    as [(e & w1 & G & E) | [(me & w1 & G & D & E) | (me & w1 & req & G & D & Mu & E)]].
  - destruct (get_me_id_fits w N)
      as [(e' & w' & G' & T) | [(d & w' & G' & K) | (s & w' & G')]];
      rewrite G in G'; inversion G'; subst.
    left. exists e', w'. auto.
  - destruct (get_me_id_fits w N)
      as [(e' & w' & G' & T) | [(d & w' & G' & K) | (s & w' & G')]];
      rewrite G in G'; inversion G'; subst; try discriminate D.
    right. exists d, w'. split; [exact E|]. rewrite K. reflexivity.
  - unfold behaves. rewrite E.
    apply (twitter_exchange_data req w1 R Mu).
Qed.

Lemma pass_through_behaves (m : M Twitter.Client value)
      (w : world Twitter.Client) (P : list (string * value) -> bool) :
  behaves m w P -> behaves (Twitter.pass_through m) w P.
Proof.
  intros [(e & w' & E & T) | (d & w' & E & S)];
    unfold behaves, Twitter.pass_through, bind, lift; rewrite E.
  - left. exists e, w'. auto.
  - right. exists d, w'. split; [|exact S].
    cbn [contains]. destruct (has_key "error" d); reflexivity.
Qed.

Lemma report_flag_behaves (key : string) (default : bool)
      (m : M Twitter.Client value) (w : world Twitter.Client) :
  behaves m w data_absent_or_object ->
  behaves (Twitter.report_flag key default m) w any_object.
Proof.
  intros [(e & w' & E & T) | (d & w' & E & S)];
    unfold behaves, Twitter.report_flag, bind, lift; rewrite E.
  - left. exists e, w'. auto.
  - right. cbn [contains]. destruct (has_key "error" d) eqn:K.
    + exists d, w'. split; [reflexivity|]. rewrite K. reflexivity.
    + simpl in S. unfold data_absent_or_object in S. cbn [get].
      destruct (lookup "data" d) as [data|].
      * destruct data; try discriminate S.
        eexists _, w'. split; [reflexivity|]. apply orb_true_r.
      * eexists _, w'. split; [reflexivity|]. apply orb_true_r.
Qed.

Lemma twitter_token_fits :
  exists token, Twitter._get_token h credentials = Ok token.
Proof.
  unfold Twitter._get_token. destruct credentials as [g|].
  - simpl in store_fits. destruct (g "twitter"); simpl in *;
      try discriminate store_fits; eexists; reflexivity.
  - eexists; reflexivity.
Qed.

Lemma twitter_tool_returns (body : M Twitter.Client value) (w : world unit)
      (P : list (string * value) -> bool) :
  (forall token,
      behaves body {| self := Twitter._TwitterClient token; sent := sent w |} P) ->
  returns_mapping (Twitter.tool h credentials body) w.
Proof.
  intros B. destruct twitter_token_fits as [token T].
  unfold Twitter.tool, Twitter._get_client, bind, lift. rewrite T. simpl rbind.
  destruct (negb (truthy token)).
  - eexists _, w. reflexivity.
  - apply on_client_returns. apply (except_httpx_returns _ _ P). apply B.
Qed.

End TwitterTools.

Section TwitterCalls.
Variable h : Host.
Variable credentials : option (string -> value).

Lemma twitter_any_of_exchange (c : Twitter.call) (req : Request)
      (m : M Twitter.Client value) (w : world Twitter.Client) :
  m w = (response <- httpx_request h req ;;
         lift (Twitter._handle_response h response))%adapter w ->
  twitter_host_fits h c ->
  behaves m w any_object.
Proof.
  intros E F. pose proof (twitter_exchange_any h c F req w) as B.
  unfold behaves in *. rewrite E. exact B.
Qed.

Lemma twitter_data_of_exchange (c : Twitter.call) (req : Request)
      (m : M Twitter.Client value) (w : world Twitter.Client) :
  m w = (response <- httpx_request h req ;;
         lift (Twitter._handle_response h response))%adapter w ->
  is_mutating req = true ->
  reads_data c = true ->
  twitter_host_fits h c ->
  behaves m w data_absent_or_object.
Proof.
  intros E Mu R F. pose proof (twitter_exchange_data h c F req w R Mu) as B.
  unfold behaves in *. rewrite E. exact B.
Qed.

(** The body of [twitter_post_tweet] after the call of [post_tweet]. *)
Lemma post_tweet_body_behaves (m : M Twitter.Client value)
      (w : world Twitter.Client) :
  behaves m w data_absent_or_object ->
  behaves (result <- m ;;
           is_err <- lift (contains "error" result) ;;
           if is_err : bool then ret result else
           data <- lift (get result "data" (VDict [])) ;;
           tweet_id <- lift (get data "id" VNone) ;;
           txt <- lift (get data "text" VNone) ;;
           ret (VDict [("success", VBool true); ("tweet_id", tweet_id);
                       ("text", txt)]))%adapter
          w any_object.
Proof.
  intros [(e & w' & E & T) | (d & w' & E & S)];
    unfold behaves, bind, lift; rewrite E.
  - left. exists e, w'. auto.
  - right. cbn [contains]. destruct (has_key "error" d) eqn:K.
    + exists d, w'. split; [reflexivity|]. rewrite K. reflexivity.
    + simpl in S. unfold data_absent_or_object in S. cbn [get].
      destruct (lookup "data" d) as [data|].
      * destruct data; try discriminate S.
        eexists _, w'. split; [reflexivity|]. apply orb_true_r.
      * eexists _, w'. split; [reflexivity|]. apply orb_true_r.
Qed.

(** With a store that yields strings only and a remote side of the expected
    shape, every registered Twitter tool returns a mapping. *)
Lemma twitter_invoke_returns (c : Twitter.call) (w : world unit) :
  store_yields_str_or_none credentials "twitter" ->
  twitter_host_fits h c ->
  returns_mapping (Twitter.invoke h credentials c) w.
Proof.
  intros St F.
  destruct c; simpl Twitter.invoke;
    unfold Twitter.twitter_post_tweet, Twitter.twitter_delete_tweet,
      Twitter.twitter_get_tweet, Twitter.twitter_search_tweets,
      Twitter.twitter_like_tweet, Twitter.twitter_unlike_tweet,
      Twitter.twitter_retweet, Twitter.twitter_undo_retweet,
      Twitter.twitter_get_user, Twitter.twitter_follow_user,
      Twitter.twitter_unfollow_user, Twitter.twitter_get_followers,
      Twitter.twitter_get_following, Twitter.twitter_get_user_tweets,
      Twitter.twitter_get_mentions;
    apply (twitter_tool_returns h credentials St _ w any_object); intros token.
  - apply post_tweet_body_behaves.
    eapply twitter_data_of_exchange;
      [unfold Twitter.post_tweet; as_exchange | reflexivity |
       | exact F]; reflexivity.
  - apply (report_flag_behaves "deleted" false).
    eapply twitter_data_of_exchange;
      [unfold Twitter.delete_tweet; as_exchange | reflexivity |
       | exact F]; reflexivity.
  - apply pass_through_behaves. eapply twitter_any_of_exchange;
      [unfold Twitter.get_tweet; as_exchange | exact F].
  - apply pass_through_behaves. eapply twitter_any_of_exchange;
      [unfold Twitter.search_tweets; as_exchange | exact F].
  - apply report_flag_behaves.
    apply (engage_behaves h _ F (Like tweet_id)); reflexivity.
  - apply report_flag_behaves.
    apply (engage_behaves h _ F (Unlike tweet_id)); reflexivity.
  - apply report_flag_behaves.
    apply (engage_behaves h _ F (Retweet tweet_id)); reflexivity.
  - apply report_flag_behaves.
    apply (engage_behaves h _ F (Undo_retweet tweet_id)); reflexivity.
  - apply pass_through_behaves. eapply twitter_any_of_exchange;
      [unfold Twitter.get_user; as_exchange | exact F].
  - apply report_flag_behaves.
    apply (engage_behaves h _ F (Follow target_user_id)); reflexivity.
  - apply report_flag_behaves.
    apply (engage_behaves h _ F (Unfollow target_user_id)); reflexivity.
  - apply pass_through_behaves. eapply twitter_any_of_exchange;
      [unfold Twitter.get_followers; as_exchange | exact F].
  - apply pass_through_behaves. eapply twitter_any_of_exchange;
      [unfold Twitter.get_following; as_exchange | exact F].
  - apply pass_through_behaves. eapply twitter_any_of_exchange;
      [unfold Twitter.get_user_tweets; as_exchange | exact F].
  - apply pass_through_behaves. eapply twitter_any_of_exchange;
      [unfold Twitter.get_mentions; as_exchange | exact F].
Qed.

(** A store that yields something that is neither a string nor absent makes
    every Twitter tool raise a [TypeError] before anything is sent. *)
Lemma twitter_invoke_type_error (c : Twitter.call) (w : world unit)
      (credentials_get : string -> value) :
  credentials = Some credentials_get ->
  is_none (credentials_get "twitter")
  || isinstance_str (credentials_get "twitter") = false ->
  Twitter.invoke h credentials c w
  = (Raise (TypeError ("Expected string from credentials.get('twitter'), got "
                       ++ type_name (credentials_get "twitter"))), w).
Proof.
  intros -> T.
  assert (G : Twitter._get_client h (Some credentials_get)
              = Raise (TypeError
                         ("Expected string from credentials.get('twitter'), got "
                          ++ type_name (credentials_get "twitter")))).
  { unfold Twitter._get_client, Twitter._get_token.
    destruct (credentials_get "twitter"); simpl in T; try discriminate T;
      reflexivity. }
  destruct c; simpl Twitter.invoke;
    unfold Twitter.twitter_post_tweet, Twitter.twitter_delete_tweet,
      Twitter.twitter_get_tweet, Twitter.twitter_search_tweets,
      Twitter.twitter_like_tweet, Twitter.twitter_unlike_tweet,
      Twitter.twitter_retweet, Twitter.twitter_undo_retweet,
      Twitter.twitter_get_user, Twitter.twitter_follow_user,
      Twitter.twitter_unfollow_user, Twitter.twitter_get_followers,
      Twitter.twitter_get_following, Twitter.twitter_get_user_tweets,
      Twitter.twitter_get_mentions;
    unfold Twitter.tool, bind, lift; rewrite G; reflexivity.
Qed.

End TwitterCalls.

Section GoogleTools.
Variable h : Host.
Variable credentials : option (string -> value).
Variable c : GoogleDocs.call.
Hypothesis store_fits : store_yields_str_or_none credentials "google_docs".
Hypothesis decoder : decoder_fits h.
Hypothesis host_fits : google_host_fits h c.

Lemma google_handled (hist : list Request) (req : Request) (r : Response) :
  server h hist req = Responds r ->
  is_export c = false \/ status_code r <> 200 ->
  exists d, GoogleDocs._handle_response h r = Ok (VDict d)
            /\ has_key "error" d || google_shape c req d = true.
Proof.
  intros A X. pose proof (host_fits hist req) as F. rewrite A in F.
  destruct (Z.eq_dec (status_code r) 401) as [E|N1];
    [rewrite (google_401 h r E); eexists; split; reflexivity|].
  destruct (Z.eq_dec (status_code r) 403) as [E|N3];
    [rewrite (google_403 h r E); eexists; split; reflexivity|].
  destruct (Z.eq_dec (status_code r) 404) as [E|N4];
    [rewrite (google_404 h r E); eexists; split; reflexivity|].
  destruct (Z.eq_dec (status_code r) 429) as [E|N9];
    [rewrite (google_429 h r E); eexists; split; reflexivity|].
  destruct (Z_lt_le_dec (status_code r) 400) as [L|L].
  - rewrite (google_below_400 h r L).
    destruct (F L) as [[Ex E200] | (v & J & B)].
    + destruct X as [X|X]; [rewrite X in Ex; discriminate Ex | contradiction].
    + rewrite J. destruct v; try discriminate B.
      eexists; split; [reflexivity | exact B].
  - rewrite (google_other h r L N1 N3 N4 N9). eexists; split; reflexivity.
Qed.

Lemma google_exchange_behaves (req : Request) (w : world GoogleDocs.Client) :
  is_export c = false ->
  behaves (response <- httpx_request h req ;;
           lift (GoogleDocs._handle_response h response))%adapter
          w (google_shape c req).
Proof.
  intros X. unfold behaves. rewrite one_request.
  destruct (server h (sent w) req) as [r|e] eqn:A.
  - right. destruct (google_handled (sent w) req r A (or_introl X)) as (d & H & S).
    rewrite H. eexists d, _. split; [reflexivity | exact S].
  - left. pose proof (host_fits (sent w) req) as F. rewrite A in F.
    eexists e, _. split; [reflexivity | exact F].
Qed.

Lemma google_any_of_exchange (req : Request) (m : M GoogleDocs.Client value)
      (w : world GoogleDocs.Client) :
  m w = (response <- httpx_request h req ;;
         lift (GoogleDocs._handle_response h response))%adapter w ->
  is_export c = false ->
  behaves m w any_object.
Proof.
  intros E X.
  pose proof (behaves_weaken _ w (google_shape c req) any_object
                (fun d _ => eq_refl) (google_exchange_behaves req w X)) as B.
  unfold behaves in *. rewrite E. exact B.
Qed.

Lemma export_document_run (document_id mime_type : string)
      (w : world GoogleDocs.Client) :
  exists req,
    GoogleDocs.export_document h document_id mime_type w
    = (match server h (sent w) req with
       | Responds r =>
           if status_code r =? 200
           then Ok (VDict [("document_id", VStr document_id);
                           ("mime_type", VStr mime_type);
                           ("content_base64", VStr (b64encode h (content r)));
                           ("size_bytes",
                            VInt (Z.of_nat (String.length (content r))))])
           else GoogleDocs._handle_response h r
       | Fails e => Raise e
       end,
       {| self := self w; sent := sent w ++ [req] |}).
Proof.
  unfold GoogleDocs.export_document. rewrite bind_get_self.
  unfold httpx_get, httpx_request, bind, ret, lift.
  match goal with
  | |- exists req, ?lhs = _ =>
      match lhs with
      | context [server h (sent w) ?q] => exists q
      end
  end.
  destruct (server h (sent w) _) as [r|e]; [|reflexivity].
  destruct (status_code r =? 200); reflexivity.
Qed.

Lemma export_document_behaves (document_id mime_type : string)
      (w : world GoogleDocs.Client) :
  behaves (GoogleDocs.export_document h document_id mime_type) w any_object.
Proof.
  destruct (export_document_run document_id mime_type w) as [req E].
  unfold behaves. rewrite E.
  destruct (server h (sent w) req) as [r|e] eqn:A.
  - right. destruct (Z.eq_dec (status_code r) 200) as [E2|N].
    + rewrite E2. simpl. eexists _, _. split; reflexivity.
    + pose proof N as N'. apply Z.eqb_neq in N'. rewrite N'.
      destruct (google_handled (sent w) req r A (or_intror N)) as (d & H & S).
      rewrite H. eexists d, _. split; [reflexivity|].
      apply orb_true_r.
  - left. pose proof (host_fits (sent w) req) as F.
    rewrite A in F. eexists e, _. split; [reflexivity | exact F].
Qed.

Lemma google_token_fits :
  exists token, GoogleDocs._get_token h credentials = Ok token.
Proof.
  unfold GoogleDocs._get_token. destruct credentials as [g|].
  - simpl in store_fits. destruct (g "google_docs"); simpl in *;
      try discriminate store_fits; eexists; reflexivity.
  - destruct (truthy (GoogleDocs.os_getenv h "GOOGLE_DOCS_ACCESS_TOKEN"));
      [eexists; reflexivity|].
    destruct (getenv h "GOOGLE_SERVICE_ACCOUNT_JSON") as [sa|] eqn:S;
      [|eexists; reflexivity].
    destruct (truthy (VStr sa)); [|eexists; reflexivity].
    destruct decoder as [Only Obj].
    pose proof (Only sa) as O. pose proof (Obj sa) as B.
    destruct (json_loads h sa) as [v|e].
    + specialize (B v S eq_refl). destruct v; try discriminate B.
      eexists; reflexivity.
    + destruct e; try discriminate O. eexists; reflexivity.
Qed.

Lemma google_tool_returns (body : M GoogleDocs.Client value) (w : world unit) :
  (forall token,
      returns_mapping body
        {| self := GoogleDocs._GoogleDocsClient token; sent := sent w |}) ->
  returns_mapping (GoogleDocs.tool h credentials body) w.
Proof.
  intros B. destruct google_token_fits as [token T].
  unfold GoogleDocs.tool, GoogleDocs._get_client, bind, lift. rewrite T.
  simpl rbind. destruct (negb (truthy token)).
  - eexists _, w. reflexivity.
  - apply on_client_returns. apply B.
Qed.

End GoogleTools.

Lemma document_fits_end (d : list (string * value)) :
  document_fits d = true ->
  exists i, GoogleDocs.end_of_document (VDict d) = Ok i.
Proof.
  unfold document_fits, GoogleDocs.end_of_document. cbn [get rbind].
  destruct (lookup "body" d) as [body|]; [|intros _; eexists; reflexivity].
  destruct body as [| | | | | |b]; try discriminate.
  cbn [get rbind].
  destruct (lookup "content" b) as [content|]; [|intros _; eexists; reflexivity].
  destruct content as [| | | | |l|]; try discriminate.
  destruct l as [|first more]; [intros _; eexists; reflexivity|].
  cbn [truthy]. unfold getitem_int.
  rewrite (seq_index_last first more VNone).
  destruct (last (first :: more) VNone) as [| | | | | |e]; try discriminate.
  cbn [element_fits get rbind].
  destruct (lookup "endIndex" e) as [end_index|]; [|intros _; eexists; reflexivity].
  destruct end_index; try discriminate; intros _; eexists; reflexivity.
Qed.

Lemma count_occurrences_fits (replies : list value) :
  forallb reply_fits replies = true ->
  forall n, exists n',
      GoogleDocs.count_occurrences replies (VInt n) = Ok (VInt n').
Proof.
  induction replies as [|reply rest IH]; intros F n.
  - eexists; reflexivity.
  - simpl in F. apply andb_true_iff in F. destruct F as [R F].
    cbn [GoogleDocs.count_occurrences].
    destruct reply as [| | | | | |r]; try discriminate R.
    cbn [reply_fits] in R. cbn [get rbind].
    destruct (lookup "replaceAllText" r) as [replaced|].
    + destruct replaced as [| | | | | |x]; try discriminate R.
      cbn [get rbind].
      destruct (lookup "occurrencesChanged" x) as [k|].
      * destruct k; try discriminate R; cbn; apply (IH F).
      * cbn. apply (IH F).
    + cbn. apply (IH F).
Qed.

Lemma except_json_returns {O} (h : Host) (credentials : option (string -> value))
      (m : M O value) (w : world O) :
  returns_mapping m w -> returns_mapping (GoogleDocs.except_json m) w.
Proof.
  intros (d & w' & E). unfold returns_mapping, GoogleDocs.except_json.
  rewrite E. eexists _, _; reflexivity.
Qed.

Section GoogleCalls.
Variable h : Host.
Variable credentials : option (string -> value).

(** The body of [google_docs_create_document] after the call. *)
Lemma create_document_body_behaves (m : M GoogleDocs.Client value)
      (w : world GoogleDocs.Client) :
  behaves m w any_object ->
  behaves (result <- m ;;
           is_err <- lift (contains "error" result) ;;
           if negb is_err then
             document_id <- lift (get result "documentId" VNone) ;;
             title' <- lift (get result "title" VNone) ;;
             document_id' <- lift (get result "documentId" VNone) ;;
             ret (VDict [("document_id", document_id);
                         ("title", title');
                         ("document_url",
                          VStr ("https://docs.google.com/document/d/"
                                ++ GoogleDocs.fstr h document_id' ++ "/edit"))])
           else ret result)%adapter
          w any_object.
Proof.
  intros [(e & w' & E & T) | (d & w' & E & S)];
    unfold behaves, bind, lift; rewrite E.
  - left. exists e, w'. auto.
  - right. cbn [contains]. destruct (has_key "error" d) eqn:K; cbn [negb get].
    + exists d, w'. split; [reflexivity|]. rewrite K. reflexivity.
    + eexists _, w'. split; [reflexivity|]. apply orb_true_r.
Qed.

(** The body of [google_docs_replace_all_text] after the call. *)
Lemma replace_all_text_body_behaves (document_id find_text replace_text : string)
      (m : M GoogleDocs.Client value) (w : world GoogleDocs.Client) :
  behaves m w replies_fit ->
  behaves (result <- m ;;
           is_err <- lift (contains "error" result) ;;
           if negb is_err then
             replies <- lift (get result "replies" (VList [])) ;;
             items <- lift (iter replies) ;;
             occurrences <- lift (GoogleDocs.count_occurrences items (VInt 0)) ;;
             ret (VDict [("document_id", VStr document_id);
                         ("find_text", VStr find_text);
                         ("replace_text", VStr replace_text);
                         ("occurrences_replaced", occurrences)])
           else ret result)%adapter
          w any_object.
Proof.
  intros [(e & w' & E & T) | (d & w' & E & S)];
    unfold behaves, bind, lift; rewrite E.
  - left. exists e, w'. auto.
  - right. cbn [contains]. destruct (has_key "error" d) eqn:K; cbn [negb get].
    + exists d, w'. split; [reflexivity|]. rewrite K. reflexivity.
    + simpl in S. unfold replies_fit in S.
      destruct (lookup "replies" d) as [replies|].
      * destruct replies as [| | | | |l|]; try discriminate S.
        cbn [iter]. destruct (count_occurrences_fits l S 0) as [n' C].
        rewrite C. eexists _, w'. split; [reflexivity|]. apply orb_true_r.
      * cbn. eexists _, w'. split; [reflexivity|]. apply orb_true_r.
Qed.

Lemma batch_update_behaves (c : GoogleDocs.call) (document_id : string)
      (requests : list value) (w : world GoogleDocs.Client) :
  google_host_fits h c ->
  is_export c = false ->
  behaves (GoogleDocs.batch_update h document_id requests) w any_object.
Proof.
  intros F X. eapply (google_any_of_exchange h c F);
    [unfold GoogleDocs.batch_update; as_exchange | exact X].
Qed.

(** [insert_text] without an index, for the tool that calls it so. *)
Lemma insert_text_at_end_behaves (document_id text0 : string)
      (w : world GoogleDocs.Client) :
  google_host_fits h (GoogleDocs.Insert_text document_id text0 None) ->
  behaves (GoogleDocs.insert_text h document_id text0 None None) w any_object.
Proof.
  intros F.
  assert (B : behaves (GoogleDocs.get_document h document_id) w document_fits).
  { pose proof (google_exchange_behaves h _ F
                  (fetch_request h (self w) document_id) w eq_refl) as B.
    unfold behaves in *.
    replace (GoogleDocs.get_document h document_id w)
      with ((response <- httpx_request h (fetch_request h (self w) document_id) ;;
             lift (GoogleDocs._handle_response h response))%adapter w)
      by (unfold GoogleDocs.get_document; rewrite bind_get_self; reflexivity).
    exact B. }
  destruct B as [(e & w' & E & T) | (d & w' & E & S)].
  - assert (R : GoogleDocs.insert_text h document_id text0 None None w
                = (Raise e, w'))
      by (unfold GoogleDocs.insert_text, bind; rewrite E; reflexivity).
    left. exists e, w'. auto.
  - destruct (has_key "error" d) eqn:K.
    + assert (R : GoogleDocs.insert_text h document_id text0 None None w
                  = (Ok (VDict d), w')).
      { unfold GoogleDocs.insert_text, bind, lift. rewrite E.
        cbn [contains]. rewrite K. reflexivity. }
      right. exists d, w'. split; [exact R|]. rewrite K. reflexivity.
    + simpl in S. destruct (document_fits_end d S) as [i I].
      assert (R : GoogleDocs.insert_text h document_id text0 None None w
                  = GoogleDocs.batch_update h document_id
                      [VDict [("insertText",
                               VDict [("location", VDict (dict_set "index" i []));
                                      ("text", VStr text0)])]] w').
      { unfold GoogleDocs.insert_text, bind at 1 2 3, lift. rewrite E.
        cbn [contains]. rewrite K, I. reflexivity. }
      pose proof (batch_update_behaves _ document_id
                    [VDict [("insertText",
                             VDict [("location", VDict (dict_set "index" i []));
                                    ("text", VStr text0)])]] w' F eq_refl) as B.
      unfold behaves in *. rewrite R. exact B.
Qed.

End GoogleCalls.

Section GoogleInvoke.
Variable h : Host.
Variable credentials : option (string -> value).

Lemma google_shape_of_exchange (c : GoogleDocs.call) (req : Request)
      (m : M GoogleDocs.Client value) (w : world GoogleDocs.Client) :
  m w = (response <- httpx_request h req ;;
         lift (GoogleDocs._handle_response h response))%adapter w ->
  is_export c = false ->
  google_host_fits h c ->
  behaves m w (google_shape c req).
Proof.
  intros E X F. pose proof (google_exchange_behaves h c F req w X) as B.
  unfold behaves in *. rewrite E. exact B.
Qed.

Lemma format_text_behaves (c : GoogleDocs.call) (document_id : string)
      (start_index end_index : Z) (bold italic underline : option bool)
      (font_size_pt : option float) (foreground_color : option value)
      (w : world GoogleDocs.Client) :
  google_host_fits h c ->
  is_export c = false ->
  behaves (GoogleDocs.format_text h document_id start_index end_index bold
             italic underline font_size_pt foreground_color) w any_object.
Proof.
  intros F X. unfold GoogleDocs.format_text. cbv zeta.
  match goal with
  | |- context [let (_, _) := ?acc in _] => destruct acc as [text_style fields]
  end.
  destruct fields as [|f fields].
  - right. eexists _, w. split; reflexivity.
  - apply (batch_update_behaves h c document_id _ w F X).
Qed.

Lemma batch_update_tool_returns (c : GoogleDocs.call)
      (document_id requests_json : string) (w : world GoogleDocs.Client) :
  decoder_fits h ->
  google_host_fits h c ->
  is_export c = false ->
  returns_mapping
    (GoogleDocs.except_json
       (except_httpx
          (requests <- lift (json_loads h requests_json) ;;
           match requests with
           | VList requests => GoogleDocs.batch_update h document_id requests
           | _ => ret (VDict [("error",
                               VStr "requests_json must be a JSON array of request objects")])
           end)%adapter)) w.
Proof.
  intros [Only _] F X. specialize (Only requests_json).
  destruct (json_loads h requests_json) as [v|e] eqn:J.
  - apply (except_json_returns h credentials).
    apply (except_httpx_returns _ _ any_object).
    unfold behaves, bind, lift.
    destruct v; try (right; eexists _, w; split; reflexivity).
    apply (batch_update_behaves h c document_id l w F X).
  - destruct e; try discriminate Only.
    unfold returns_mapping, GoogleDocs.except_json, except_httpx, bind, lift.
    eexists _, w. reflexivity.
Qed.

(** With a store that yields strings only, a decoder that raises nothing but
    [JSONDecodeError] and a remote side of the expected shape, every
    registered Google Docs tool returns a mapping. *)
Lemma google_invoke_returns (c : GoogleDocs.call) (w : world unit) :
  store_yields_str_or_none credentials "google_docs" ->
  decoder_fits h ->
  google_host_fits h c ->
  returns_mapping (GoogleDocs.invoke h credentials c) w.
Proof.
  intros St D F.
  destruct c; simpl GoogleDocs.invoke;
    unfold GoogleDocs.google_docs_create_document,
      GoogleDocs.google_docs_get_document, GoogleDocs.google_docs_insert_text,
      GoogleDocs.google_docs_replace_all_text,
      GoogleDocs.google_docs_insert_image, GoogleDocs.google_docs_format_text,
      GoogleDocs.google_docs_batch_update, GoogleDocs.google_docs_create_list,
      GoogleDocs.google_docs_add_comment, GoogleDocs.google_docs_export_content;
    apply (google_tool_returns h credentials St D); intros token.
  - apply (except_httpx_returns _ _ any_object).
    apply create_document_body_behaves.
    eapply (google_any_of_exchange h _ F);
      [unfold GoogleDocs.create_document; as_exchange | reflexivity].
  - apply (except_httpx_returns _ _ any_object).
    eapply (google_any_of_exchange h _ F);
      [unfold GoogleDocs.get_document; as_exchange | reflexivity].
  - apply (except_httpx_returns _ _ any_object).
    destruct index as [i|].
    + apply (batch_update_behaves h _ document_id _ _ F eq_refl).
    + apply (insert_text_at_end_behaves h document_id text0 _ F).
  - apply (except_httpx_returns _ _ any_object).
    apply replace_all_text_body_behaves.
    match goal with
    | |- behaves ?m ?w0 _ =>
        assert (E : exists req,
                   m w0 = (response <- httpx_request h req ;;
                           lift (GoogleDocs._handle_response h response))%adapter
                            w0)
          by (eexists;
              unfold GoogleDocs.replace_all_text, GoogleDocs.batch_update;
              as_exchange)
    end.
    destruct E as [req E].
    exact (google_shape_of_exchange
             (GoogleDocs.Replace_all_text document_id find_text replace_text
                match_case) req _ _ E eq_refl F).
  - apply (except_httpx_returns _ _ any_object).
    apply (batch_update_behaves h _ document_id _ _ F eq_refl).
  - cbv zeta. apply (except_httpx_returns _ _ any_object).
    apply (format_text_behaves _ _ _ _ _ _ _ _ _ _ F eq_refl).
  - apply (batch_update_tool_returns _ _ _ _ D F eq_refl).
  - cbv zeta. apply (except_httpx_returns _ _ any_object).
    apply (batch_update_behaves h _ document_id _ _ F eq_refl).
  - apply (except_httpx_returns _ _ any_object).
    eapply (google_any_of_exchange h _ F);
      [unfold GoogleDocs.add_comment; as_exchange | reflexivity].
  - cbv zeta. apply (except_httpx_returns _ _ any_object).
    apply (export_document_behaves h _ F).
Qed.

Lemma google_invoke_type_error (c : GoogleDocs.call) (w : world unit)
      (credentials_get : string -> value) :
  credentials = Some credentials_get ->
  is_none (credentials_get "google_docs")
  || isinstance_str (credentials_get "google_docs") = false ->
  GoogleDocs.invoke h credentials c w
  = (Raise (TypeError ("Expected string from credentials.get('google_docs'), got "
                       ++ type_name (credentials_get "google_docs"))), w).
Proof.
  intros -> T.
  assert (G : GoogleDocs._get_client h (Some credentials_get)
              = Raise (TypeError
                         ("Expected string from credentials.get('google_docs'), got "
                          ++ type_name (credentials_get "google_docs")))).
  { unfold GoogleDocs._get_client, GoogleDocs._get_token.
    destruct (credentials_get "google_docs"); simpl in T; try discriminate T;
      reflexivity. }
  destruct c; simpl GoogleDocs.invoke;
    unfold GoogleDocs.google_docs_create_document,
      GoogleDocs.google_docs_get_document, GoogleDocs.google_docs_insert_text,
      GoogleDocs.google_docs_replace_all_text,
      GoogleDocs.google_docs_insert_image, GoogleDocs.google_docs_format_text,
      GoogleDocs.google_docs_batch_update, GoogleDocs.google_docs_create_list,
      GoogleDocs.google_docs_add_comment, GoogleDocs.google_docs_export_content;
    unfold GoogleDocs.tool, bind, lift; rewrite G; reflexivity.
Qed.

End GoogleInvoke.

(** A credential store that yields the number 42 makes [twitter_post_tweet]
    raise a [TypeError]; a 200 answer whose body is empty makes
    [twitter_get_tweet] raise a [JSONDecodeError].  Neither call returns a
    mapping. *)
Lemma tool_call_raises :
  Twitter.invoke (host_answering (answer 200 "" not_json) no_env)
    (store_with (VInt 42)) a_post host
  = (Raise (TypeError "Expected string from credentials.get('twitter'), got int"),
     host)
  /\ ~ returns_mapping
        (Twitter.invoke (host_answering (answer 200 "" not_json) no_env)
           (store_with (VInt 42)) a_post) host
  /\ outcome_of (Twitter.invoke (host_answering (answer 200 "" not_json) tokens_env)
                   None a_lookup) host
     = Raise (JSONDecodeError "Expecting value: line 1 column 1 (char 0)")
  /\ ~ returns_mapping
        (Twitter.invoke (host_answering (answer 200 "" not_json) tokens_env)
           None a_lookup) host.
Proof.
  split; [reflexivity|]. split; [|split; [reflexivity|]].
  - intros (d & w' & E). vm_compute in E. discriminate E.
  - intros (d & w' & E). vm_compute in E. discriminate E.
Qed.

(** C2, amended.  Every registered tool of both integrations returns a mapping
    and raises nothing, provided that the credential store, if there is one,
    yields a string or nothing; that an HTTP exchange fails only with a timeout
    or request error; and that a success answer carries a JSON object of the
    shape the tool reads (for Google Docs also: that [json.loads] raises
    nothing but [JSONDecodeError] and the service-account text decodes to an
    object).  When the store yields anything else, every tool raises a
    [TypeError] and sends nothing. *)
Theorem tools_return_uniform_results :
  forall (h : Host) (credentials : option (string -> value)),
    (forall c w,
        store_yields_str_or_none credentials "twitter" ->
        twitter_host_fits h c ->
        returns_mapping (Twitter.invoke h credentials c) w)
    /\ (forall c w,
           store_yields_str_or_none credentials "google_docs" ->
           decoder_fits h ->
           google_host_fits h c ->
           returns_mapping (GoogleDocs.invoke h credentials c) w)
    /\ (forall c w credentials_get,
           credentials = Some credentials_get ->
           is_none (credentials_get "twitter")
           || isinstance_str (credentials_get "twitter") = false ->
           exists msg,
             Twitter.invoke h credentials c w = (Raise (TypeError msg), w))
    /\ (forall c w credentials_get,
           credentials = Some credentials_get ->
           is_none (credentials_get "google_docs")
           || isinstance_str (credentials_get "google_docs") = false ->
           exists msg,
             GoogleDocs.invoke h credentials c w = (Raise (TypeError msg), w)).
Proof.
  intros h credentials. split; [|split; [|split]].
  - intros c w St F. apply (twitter_invoke_returns h credentials c w St F).
  - intros c w St D F. apply (google_invoke_returns h credentials c w St D F).
  - intros c w g E T. eexists.
    apply (twitter_invoke_type_error h credentials c w g E T).
  - intros c w g E T. eexists.
    apply (google_invoke_type_error h credentials c w g E T).
Qed.

Lemma twitter_server_fits :
  twitter_host_fits (host_serving twitter_server tokens_env) a_like.
Proof.
  intros hist req. simpl. unfold twitter_server.
  destruct (is_me_request req) eqn:Me; simpl; (split; [|discriminate]);
    intros _; eexists; (split; [reflexivity|]);
    simpl; unfold twitter_shape; rewrite Me; reflexivity.
Defined.

Lemma docs_server_fits :
  google_host_fits (host_serving docs_server tokens_env) an_append.
Proof.
  intros hist req. simpl. unfold docs_server.
  destruct (req_method req) eqn:Me; simpl; intros _; right;
    eexists; (split; [reflexivity|]); simpl; rewrite Me; reflexivity.
Defined.

Lemma loads_blob_fits (srv : list Request -> Request -> outcome)
      (env : string -> option string) :
  decoder_fits (host_serving srv env).
Proof.
  split; simpl; unfold loads_blob.
  - intros s. destruct (String.eqb s service_account_blob); exact I || reflexivity.
  - intros sa v _. destruct (String.eqb sa service_account_blob); intros E;
      inversion E. reflexivity.
Defined.

Lemma tools_return_uniform_results_witness :
  returns_mapping
    (Twitter.invoke (host_serving twitter_server tokens_env) None a_like) host
  /\ returns_mapping
       (GoogleDocs.invoke (host_serving docs_server tokens_env) None an_append)
       host
  /\ (exists msg,
         Twitter.invoke (host_serving twitter_server tokens_env)
           (store_with (VInt 42)) a_like host = (Raise (TypeError msg), host))
  /\ (exists msg,
         GoogleDocs.invoke (host_serving docs_server tokens_env)
           (store_with (VList [])) an_append host
         = (Raise (TypeError msg), host)).
Proof.
  split; [|split; [|split]].
  - destruct (tools_return_uniform_results
                (host_serving twitter_server tokens_env) None) as (Tw & _).
    exact (Tw a_like host I twitter_server_fits).
  - destruct (tools_return_uniform_results
                (host_serving docs_server tokens_env) None) as (_ & Gd & _).
    exact (Gd an_append host I (loads_blob_fits docs_server tokens_env)
              docs_server_fits).
  - destruct (tools_return_uniform_results
                (host_serving twitter_server tokens_env) (store_with (VInt 42)))
      as (_ & _ & Tw & _).
    exact (Tw a_like host (fun _ => VInt 42) eq_refl eq_refl).
  - destruct (tools_return_uniform_results
                (host_serving docs_server tokens_env) (store_with (VList [])))
      as (_ & _ & _ & Gd).
    exact (Gd an_append host (fun _ => VList []) eq_refl eq_refl).
Defined.

(** ** A 401 or a 429, on every adapter call *)

Lemma twitter_translates_401 (h : Host) :
  translates (Twitter._handle_response h) 401 says_invalid_or_expired.
Proof.
  intros r E. eexists. split; [apply twitter_401; exact E | reflexivity].
Qed.

Lemma twitter_translates_429 (h : Host) :
  translates (Twitter._handle_response h) 429 mentions_rate_limiting.
Proof.
  intros r E. eexists. split; [apply twitter_429; exact E|].
  apply rate_limited_message.
Qed.

Lemma google_translates_401 (h : Host) :
  translates (GoogleDocs._handle_response h) 401 says_invalid_or_expired.
Proof.
  intros r E. eexists. split; [apply google_401; exact E | reflexivity].
Qed.

Lemma google_translates_429 (h : Host) :
  translates (GoogleDocs._handle_response h) 429 mentions_rate_limiting.
Proof.
  intros r E. eexists. split; [apply google_429; exact E | reflexivity].
Qed.

Section ErrorStatus.
Variable h : Host.
Variable st : Z.
Variable good : string -> bool.
Hypothesis answers : always_answers h st.

(** A method that is one exchange ends with the translated error. *)
Lemma exchange_error {O} (handle : Response -> res value) (req : Request)
      (m : M O value) (w : world O) :
  translates handle st good ->
  m w = (response <- httpx_request h req ;; lift (handle response))%adapter w ->
  error_where good m w.
Proof.
  intros T E. unfold error_where. rewrite E, one_request.
  destruct (answers (sent w) req) as (r & A & S). rewrite A.
  destruct (T r S) as (msg & H & G). rewrite H.
  eexists msg, _. split; [reflexivity | exact G].
Qed.

Lemma nothing_issued {O A} (m : M O A) (w : world O) (r : res A) :
  m w = (r, w) -> issued m w = [].
Proof. intros E. unfold issued. rewrite E. apply skipn_all_sent. Qed.

Section OnTwitter.
Hypothesis table : translates (Twitter._handle_response h) st good.

Lemma get_me_id_error (w : world Twitter.Client) :
  Twitter._me_id (self w) = VNone ->
  error_where good (Twitter._get_me_id h) w.
Proof.
  intros N. unfold error_where. rewrite (get_me_id_uncached h w N). cbv zeta.
  destruct (answers (sent w) (me_request h (self w))) as (r & A & S). rewrite A.
  destruct (table r S) as (msg & H & G). rewrite H.
  eexists msg, _. split; [reflexivity | exact G].
Qed.

Lemma engage_error (op : engagement) (w : world Twitter.Client) :
  issued (engage h op) w = [] \/ error_where good (engage h op) w.
Proof.
  destruct (none_or_not (Twitter._me_id (self w))) as [N|N].
  - right. destruct (get_me_id_error w N) as (msg & w1 & G & Gd).
    destruct (engage_steps h op w)
      as [(e & w2 & G1 & E) | [(me & w2 & G1 & D & E) | (me & w2 & req & G1 & D & Mu & E)]];
      rewrite G in G1; inversion G1; subst.
    + exists msg, w2. auto.
    + discriminate D.
  - pose proof (get_me_id_cached h w N) as G.
    destruct (engage_steps h op w)
      as [(e & w2 & G1 & E) | [(me & w2 & G1 & D & E) | (me & w2 & req & G1 & D & Mu & E)]];
      rewrite G in G1; inversion G1; subst.
    + left. apply (nothing_issued _ _ _ E).
    + right. apply (exchange_error _ req _ _ table E).
Qed.

Lemma twitter_call_error (c : twitter_call) (w : world Twitter.Client) :
  issued (twitter_adapter_call h c) w = []
  \/ error_where good (twitter_adapter_call h c) w.
Proof.
  destruct c; simpl twitter_adapter_call; try apply engage_error; right;
    eapply (exchange_error _ _ _ _ table);
    unfold Twitter.post_tweet, Twitter.delete_tweet, Twitter.get_tweet,
      Twitter.search_tweets, Twitter.get_user, Twitter.get_followers,
      Twitter.get_following, Twitter.get_user_tweets, Twitter.get_mentions;
    as_exchange.
Qed.

End OnTwitter.

Section OnGoogleDocs.
Hypothesis table : translates (GoogleDocs._handle_response h) st good.
Hypothesis not_200 : st <> 200.

Lemma batch_update_error (document_id : string) (requests : list value)
      (w : world GoogleDocs.Client) :
  error_where good (GoogleDocs.batch_update h document_id requests) w.
Proof.
  eapply (exchange_error _ _ _ _ table).
  unfold GoogleDocs.batch_update. as_exchange.
Qed.

Lemma insert_text_error (document_id text0 : string) (index : option Z)
      (segment_id : option string) (w : world GoogleDocs.Client) :
  error_where good (GoogleDocs.insert_text h document_id text0 index segment_id) w.
Proof.
  destruct index as [i|].
  - apply batch_update_error.
  - assert (G : error_where good (GoogleDocs.get_document h document_id) w).
    { eapply (exchange_error _ _ _ _ table).
      unfold GoogleDocs.get_document. as_exchange. }
    destruct G as (msg & w' & E & Gd). exists msg, w'. split; [|exact Gd].
    unfold GoogleDocs.insert_text, bind, lift. rewrite E. reflexivity.
Qed.

Lemma format_text_error (document_id : string) (start_index end_index : Z)
      (bold italic underline : option bool) (font_size_pt : option float)
      (foreground_color : option value) (w : world GoogleDocs.Client) :
  issued (GoogleDocs.format_text h document_id start_index end_index bold italic
            underline font_size_pt foreground_color) w = []
  \/ error_where good
       (GoogleDocs.format_text h document_id start_index end_index bold italic
          underline font_size_pt foreground_color) w.
Proof.
  unfold GoogleDocs.format_text. cbv zeta.
  match goal with
  | |- context [let (_, _) := ?acc in _] => destruct acc as [text_style fields]
  end.
  destruct fields as [|f fields].
  - left. eapply nothing_issued. reflexivity.
  - right. apply batch_update_error.
Qed.

Lemma export_document_error (document_id mime_type : string)
      (w : world GoogleDocs.Client) :
  error_where good (GoogleDocs.export_document h document_id mime_type) w.
Proof.
  destruct (export_document_run h document_id mime_type w) as [req E].
  unfold error_where. rewrite E.
  destruct (answers (sent w) req) as (r & A & S). rewrite A.
  replace (status_code r =? 200) with false
    by (symmetry; apply Z.eqb_neq; rewrite S; exact not_200).
  destruct (table r S) as (msg & H & G). rewrite H.
  eexists msg, _. split; [reflexivity | exact G].
Qed.

Lemma docs_call_error (c : docs_call) (w : world GoogleDocs.Client) :
  issued (docs_adapter_call h c) w = []
  \/ error_where good (docs_adapter_call h c) w.
Proof.
  destruct c; simpl docs_adapter_call.
  - right. eapply (exchange_error _ _ _ _ table).
    unfold GoogleDocs.create_document. as_exchange.
  - right. eapply (exchange_error _ _ _ _ table).
    unfold GoogleDocs.get_document. as_exchange.
  - right. apply batch_update_error.
  - right. apply insert_text_error.
  - right. apply batch_update_error.
  - right. apply batch_update_error.
  - apply format_text_error.
  - right. apply batch_update_error.
  - right. eapply (exchange_error _ _ _ _ table).
    unfold GoogleDocs.add_comment. as_exchange.
  - right. apply export_document_error.
Qed.

End OnGoogleDocs.

End ErrorStatus.

(** C8.  In both adapters a 401 response becomes an error result whose message
    contains "expired" (or "invalid"), and a 429 response becomes an error
    result that mentions rate limiting, whatever the rest of the response.
    Hence, against a remote side that answers 401 (or 429) throughout, every
    call of a method of either client that issues a request ends with that
    error result. *)
Theorem status_401_and_429_messages :
  forall (h : Host),
    translates (Twitter._handle_response h) 401 says_invalid_or_expired
    /\ translates (GoogleDocs._handle_response h) 401 says_invalid_or_expired
    /\ translates (Twitter._handle_response h) 429 mentions_rate_limiting
    /\ translates (GoogleDocs._handle_response h) 429 mentions_rate_limiting
    /\ (always_answers h 401 ->
        (forall c w,
            issued (twitter_adapter_call h c) w = []
            \/ error_where says_invalid_or_expired (twitter_adapter_call h c) w)
        /\ (forall c w,
               issued (docs_adapter_call h c) w = []
               \/ error_where says_invalid_or_expired (docs_adapter_call h c) w))
    /\ (always_answers h 429 ->
        (forall c w,
            issued (twitter_adapter_call h c) w = []
            \/ error_where mentions_rate_limiting (twitter_adapter_call h c) w)
        /\ (forall c w,
               issued (docs_adapter_call h c) w = []
               \/ error_where mentions_rate_limiting (docs_adapter_call h c) w)).
Proof.
  intros h.
  split; [apply twitter_translates_401|].
  split; [apply google_translates_401|].
  split; [apply twitter_translates_429|].
  split; [apply google_translates_429|].
  split; intros A; split; intros c w.
  - apply (twitter_call_error h 401 _ A (twitter_translates_401 h)).
  - apply (docs_call_error h 401 _ A (google_translates_401 h)). discriminate.
  - apply (twitter_call_error h 429 _ A (twitter_translates_429 h)).
  - apply (docs_call_error h 429 _ A (google_translates_429 h)). discriminate.
Qed.

Lemma status_401_and_429_witness :
  (exists msg,
      Twitter._handle_response (host_answering (answer 401 "" not_json) no_env)
        (answer 401 "" not_json) = Ok (error_result msg)
      /\ says_invalid_or_expired msg = true)
  /\ (exists msg,
         GoogleDocs._handle_response
           (host_answering (answer 429 "" not_json) no_env)
           (answer 429 "" not_json) = Ok (error_result msg)
         /\ mentions_rate_limiting msg = true)
  /\ (issued (twitter_adapter_call (host_answering (answer 401 "" not_json) no_env)
                (Call_engage (Like "9"))) a_client = []
      \/ error_where says_invalid_or_expired
           (twitter_adapter_call (host_answering (answer 401 "" not_json) no_env)
              (Call_engage (Like "9"))) a_client)
  /\ (issued (docs_adapter_call (host_answering (answer 429 "" not_json) no_env)
                (Call_export_document "d" "application/pdf")) a_docs_client = []
      \/ error_where mentions_rate_limiting
           (docs_adapter_call (host_answering (answer 429 "" not_json) no_env)
              (Call_export_document "d" "application/pdf")) a_docs_client).
Proof.
  split; [|split; [|split]].
  - destruct (status_401_and_429_messages
                (host_answering (answer 401 "" not_json) no_env)) as (T & _).
    exact (T (answer 401 "" not_json) eq_refl).
  - destruct (status_401_and_429_messages
                (host_answering (answer 429 "" not_json) no_env))
      as (_ & _ & _ & G & _).
    exact (G (answer 429 "" not_json) eq_refl).
  - destruct (status_401_and_429_messages
                (host_answering (answer 401 "" not_json) no_env))
      as (_ & _ & _ & _ & Always & _).
    apply Always.
    intros hist req. eexists. split; reflexivity.
  - destruct (status_401_and_429_messages
                (host_answering (answer 429 "" not_json) no_env))
      as (_ & _ & _ & _ & _ & Always).
    apply Always.
    intros hist req. eexists. split; reflexivity.
Defined.

(* ===================================================================== *)
(** * Further properties of the two adapters *)
(* ===================================================================== *)

(** ** The response handlers *)

(** X1.  The Twitter handler raises only for a 200 or 201 answer whose body
    does not decode, and the Google Docs handler only for an answer below 400
    whose body does not decode; what is raised is what decoding raised.  No
    error status ever makes a handler raise, whatever the body. *)
Theorem handlers_raise_only_on_undecodable_success :
  forall (h : Host) (r : Response) (e : exn),
    (Twitter._handle_response h r = Raise e ->
     (status_code r = 200 \/ status_code r = 201) /\ json_body r = Raise e)
    /\ (GoogleDocs._handle_response h r = Raise e ->
        status_code r < 400 /\ json_body r = Raise e).
Proof.
  intros h r e. split.
  - destruct (Z.eq_dec (status_code r) 429) as [E|N9];
      [rewrite (twitter_429 h r E); discriminate|].
    destruct (Z.eq_dec (status_code r) 401) as [E|N1];
      [rewrite (twitter_401 h r E); discriminate|].
    destruct (Z.eq_dec (status_code r) 403) as [E|N3];
      [rewrite (twitter_403 h r E); discriminate|].
    destruct (Z.eq_dec (status_code r) 204) as [E|N204];
      [rewrite (twitter_204 h r E); discriminate|].
    destruct (Z.eq_dec (status_code r) 200) as [E|N200];
      [rewrite (twitter_success h r (or_introl E)); auto|].
    destruct (Z.eq_dec (status_code r) 201) as [E|N201];
      [rewrite (twitter_success h r (or_intror E)); auto|].
    rewrite (twitter_other h r N9 N1 N3 N200 N201 N204). discriminate.
  - destruct (Z.eq_dec (status_code r) 401) as [E|N1];
      [rewrite (google_401 h r E); discriminate|].
    destruct (Z.eq_dec (status_code r) 403) as [E|N3];
      [rewrite (google_403 h r E); discriminate|].
    destruct (Z.eq_dec (status_code r) 404) as [E|N4];
      [rewrite (google_404 h r E); discriminate|].
    destruct (Z.eq_dec (status_code r) 429) as [E|N9];
      [rewrite (google_429 h r E); discriminate|].
    destruct (Z_lt_le_dec (status_code r) 400) as [L|L].
    + rewrite (google_below_400 h r L). auto.
    + rewrite (google_other h r L N1 N3 N4 N9). discriminate.
Qed.

Lemma handlers_raise_only_witness :
  ((status_code (answer 200 "" not_json) = 200
    \/ status_code (answer 200 "" not_json) = 201)
   /\ json_body (answer 200 "" not_json)
      = Raise (JSONDecodeError "Expecting value: line 1 column 1 (char 0)"))
  /\ (status_code (answer 204 "" not_json) < 400
      /\ json_body (answer 204 "" not_json)
         = Raise (JSONDecodeError "Expecting value: line 1 column 1 (char 0)")).
Proof.
  split.
  - apply (handlers_raise_only_on_undecodable_success
             (host_answering (answer 200 "" not_json) no_env)
             (answer 200 "" not_json)
             (JSONDecodeError "Expecting value: line 1 column 1 (char 0)")).
    reflexivity.
  - apply (handlers_raise_only_on_undecodable_success
             (host_answering (answer 200 "" not_json) no_env)
             (answer 204 "" not_json)
             (JSONDecodeError "Expecting value: line 1 column 1 (char 0)")).
    reflexivity.
Defined.

(** X2.  The Twitter adapter's generic error, for a status it has no case for
    and a body that is a JSON object, carries: the [message] of the first entry
    of [errors] when that list is not empty and the entry is an object ([None]
    when the entry has no message); [detail], or else the body text, when
    [errors] is missing or empty; the body text when the first entry is not an
    object.  A body that is JSON but not an object gives the body text too. *)
Theorem twitter_error_message_precedence :
  forall (h : Host) (r : Response) (d : list (string * value)),
    outside_twitter_table (status_code r) ->
    (json_body r = Ok (VDict d) ->
     (forall e rest,
         lookup "errors" d = Some (VList (VDict e :: rest)) ->
         Twitter._handle_response h r
         = Ok (twitter_generic_error h (status_code r)
                 (or_else (lookup "message" e) VNone)))
     /\ (lookup "errors" d = None \/ lookup "errors" d = Some (VList []) ->
         Twitter._handle_response h r
         = Ok (twitter_generic_error h (status_code r)
                 (or_else (lookup "detail" d) (VStr (text r)))))
     /\ (forall x rest,
            lookup "errors" d = Some (VList (x :: rest)) ->
            isinstance_dict x = false ->
            Twitter._handle_response h r
            = Ok (twitter_generic_error h (status_code r) (VStr (text r)))))
    /\ (forall v, json_body r = Ok v -> isinstance_dict v = false ->
                  Twitter._handle_response h r
                  = Ok (twitter_generic_error h (status_code r) (VStr (text r)))).
Proof.
  intros h r d (N9 & N1 & N3 & N200 & N201 & N204).
  rewrite (twitter_other h r N9 N1 N3 N200 N201 N204).
  unfold twitter_generic_error, error_result, Twitter.error_message.
  split.
  - intros J. rewrite J. cbn [rbind get].
    split; [|split].
    + intros e rest L. rewrite L. reflexivity.
    + intros [L|L]; rewrite L; reflexivity.
    + intros x rest L D. rewrite L. cbn [truthy]. unfold getitem_int.
      change (seq_index (x :: rest) 0) with (Some x). cbn [rbind].
      destruct x; try reflexivity. discriminate D.
  - intros v J D. rewrite J.
    destruct v; try reflexivity. discriminate D.
Qed.

Lemma twitter_error_message_witness :
  Twitter._handle_response (host_answering (answer 200 "" not_json) no_env)
    (a_failure (VDict [("errors", VList [VDict [("message", VStr "boom")]])]))
  = Ok (error_result "Twitter API error (500): boom")
  /\ Twitter._handle_response (host_answering (answer 200 "" not_json) no_env)
       (a_failure (VDict [("detail", VStr "broken")]))
     = Ok (error_result "Twitter API error (500): broken")
  /\ Twitter._handle_response (host_answering (answer 200 "" not_json) no_env)
       (a_failure (VDict [("errors", VList [VStr "boom"])]))
     = Ok (error_result "Twitter API error (500): raw")
  /\ Twitter._handle_response (host_answering (answer 200 "" not_json) no_env)
       (a_failure (VList []))
     = Ok (error_result "Twitter API error (500): raw").
Proof.
  assert (O : outside_twitter_table 500) by (repeat split; discriminate).
  split; [|split; [|split]].
  - destruct (twitter_error_message_precedence
                (host_answering (answer 200 "" not_json) no_env)
                (a_failure (VDict [("errors",
                                    VList [VDict [("message", VStr "boom")]])]))
                [("errors", VList [VDict [("message", VStr "boom")]])] O)
      as (Object & _).
    destruct (Object eq_refl) as (First & _).
    exact (First [("message", VStr "boom")] [] eq_refl).
  - destruct (twitter_error_message_precedence
                (host_answering (answer 200 "" not_json) no_env)
                (a_failure (VDict [("detail", VStr "broken")]))
                [("detail", VStr "broken")] O) as (Object & _).
    destruct (Object eq_refl) as (_ & Detail & _).
    exact (Detail (or_introl eq_refl)).
  - destruct (twitter_error_message_precedence
                (host_answering (answer 200 "" not_json) no_env)
                (a_failure (VDict [("errors", VList [VStr "boom"])]))
                [("errors", VList [VStr "boom"])] O) as (Object & _).
    destruct (Object eq_refl) as (_ & _ & Odd).
    exact (Odd (VStr "boom") [] eq_refl eq_refl).
  - destruct (twitter_error_message_precedence
                (host_answering (answer 200 "" not_json) no_env)
                (a_failure (VList [])) [] O) as (_ & Other).
    exact (Other (VList []) eq_refl eq_refl).
Defined.

(** X3.  The Google Docs adapter's generic error, for a status of 400 or more
    outside its table, carries [error.message] of the body when the body is an
    object whose [error] member is an object with a message, and the body text
    in every other case: no [error] member, an [error] object without message,
    an [error] member that is not an object, a body that is not an object or
    not JSON. *)
Theorem google_error_detail_precedence :
  forall (h : Host) (r : Response),
    outside_google_table (status_code r) ->
    (forall d e,
        json_body r = Ok (VDict d) ->
        lookup "error" d = Some (VDict e) ->
        GoogleDocs._handle_response h r
        = Ok (google_generic_error h (status_code r)
                (or_else (lookup "message" e) (VStr (text r)))))
    /\ (forall d,
           json_body r = Ok (VDict d) ->
           lookup "error" d = None ->
           GoogleDocs._handle_response h r
           = Ok (google_generic_error h (status_code r) (VStr (text r))))
    /\ (forall d x,
           json_body r = Ok (VDict d) ->
           lookup "error" d = Some x ->
           isinstance_dict x = false ->
           GoogleDocs._handle_response h r
           = Ok (google_generic_error h (status_code r) (VStr (text r))))
    /\ (forall v, json_body r = Ok v -> isinstance_dict v = false ->
                  GoogleDocs._handle_response h r
                  = Ok (google_generic_error h (status_code r) (VStr (text r))))
    /\ (forall e, json_body r = Raise e ->
                  GoogleDocs._handle_response h r
                  = Ok (google_generic_error h (status_code r) (VStr (text r)))).
Proof.
  intros h r (L & N1 & N3 & N4 & N9).
  rewrite (google_other h r L N1 N3 N4 N9).
  unfold google_generic_error, error_result, GoogleDocs.error_detail.
  split; [|split; [|split; [|split]]].
  - intros d e J E. rewrite J. cbn [rbind get]. rewrite E. reflexivity.
  - intros d J E. rewrite J. cbn [rbind get]. rewrite E. reflexivity.
  - intros d x J E D. rewrite J. cbn [rbind get]. rewrite E.
    destruct x; try reflexivity. discriminate D.
  - intros v J D. rewrite J. destruct v; try reflexivity. discriminate D.
  - intros e J. rewrite J. reflexivity.
Qed.

Lemma google_error_detail_witness :
  GoogleDocs._handle_response (host_answering (answer 200 "" not_json) no_env)
    (a_failure (VDict [("error", VDict [("message", VStr "quota")])]))
  = Ok (error_result "Google Docs API error (HTTP 500): quota")
  /\ GoogleDocs._handle_response (host_answering (answer 200 "" not_json) no_env)
       (a_failure (VDict []))
     = Ok (error_result "Google Docs API error (HTTP 500): raw")
  /\ GoogleDocs._handle_response (host_answering (answer 200 "" not_json) no_env)
       (a_failure (VDict [("error", VStr "quota")]))
     = Ok (error_result "Google Docs API error (HTTP 500): raw")
  /\ GoogleDocs._handle_response (host_answering (answer 200 "" not_json) no_env)
       (a_failure (VInt 3))
     = Ok (error_result "Google Docs API error (HTTP 500): raw")
  /\ GoogleDocs._handle_response (host_answering (answer 200 "" not_json) no_env)
       (answer 502 "bad gateway" not_json)
     = Ok (error_result "Google Docs API error (HTTP 502): bad gateway").
Proof.
  assert (O : outside_google_table 500) by (repeat split; try discriminate).
  assert (O2 : outside_google_table 502) by (repeat split; try discriminate).
  split; [|split; [|split; [|split]]].
  - destruct (google_error_detail_precedence
                (host_answering (answer 200 "" not_json) no_env)
                (a_failure (VDict [("error", VDict [("message", VStr "quota")])]))
                O) as (Message & _).
    exact (Message _ [("message", VStr "quota")] eq_refl eq_refl).
  - destruct (google_error_detail_precedence
                (host_answering (answer 200 "" not_json) no_env)
                (a_failure (VDict [])) O) as (_ & Missing & _).
    exact (Missing [] eq_refl eq_refl).
  - destruct (google_error_detail_precedence
                (host_answering (answer 200 "" not_json) no_env)
                (a_failure (VDict [("error", VStr "quota")])) O)
      as (_ & _ & Odd & _).
    exact (Odd _ (VStr "quota") eq_refl eq_refl eq_refl).
  - destruct (google_error_detail_precedence
                (host_answering (answer 200 "" not_json) no_env)
                (a_failure (VInt 3)) O) as (_ & _ & _ & Other & _).
    exact (Other (VInt 3) eq_refl eq_refl).
  - destruct (google_error_detail_precedence
                (host_answering (answer 200 "" not_json) no_env)
                (answer 502 "bad gateway" not_json) O2) as (_ & _ & _ & _ & Plain).
    exact (Plain _ eq_refl).
Defined.

(** ** Headers and timeouts *)

Lemma issued_app {O A} (m : M O A) (w : world O) (k : list Request) :
  sent (snd (m w)) = (sent w ++ k)%list -> issued m w = k.
Proof. intros E. unfold issued. rewrite E. apply skipn_app_exact. Qed.

Section TwitterRequestShape.
Variable h : Host.

Lemma get_me_id_keeps_token (w w1 : world Twitter.Client) (r : res value) :
  Twitter._get_me_id h w = (r, w1) ->
  Twitter._token (self w1) = Twitter._token (self w).
Proof.
  destruct (none_or_not (Twitter._me_id (self w))) as [N|N].
  - rewrite (get_me_id_uncached h w N). cbv zeta.
    destruct (server h (sent w) (me_request h (self w))) as [rp|e];
      [|intros E; inversion E; reflexivity].
    destruct (Twitter._handle_response h rp) as [result|e];
      [|intros E; inversion E; reflexivity].
    destruct (contains "error" result) as [[|]|e];
      try (intros E; inversion E; reflexivity).
    destruct (rbind (getitem result "data") (fun data => getitem data "id"));
      intros E; inversion E; reflexivity.
  - rewrite (get_me_id_cached h w N). intros E. inversion E. reflexivity.
Qed.

(** The mutating request of an engagement call carries the client's headers
    and the 30 second timeout. *)
Lemma engage_steps_request (op : engagement) (w : world Twitter.Client) :
  (exists e w1,
      Twitter._get_me_id h w = (Raise e, w1)
      /\ engage h op w = (Raise e, w1))
  \/ (exists me w1,
         Twitter._get_me_id h w = (Ok me, w1)
         /\ engage h op w = (Ok me, w1))
  \/ (exists me w1 req,
         Twitter._get_me_id h w = (Ok me, w1)
         /\ is_mutating req = true
         /\ req_headers req = Twitter._headers h (self w1)
         /\ req_timeout req = 30
         /\ engage h op w
            = (response <- httpx_request h req ;;
               lift (Twitter._handle_response h response))%adapter w1).
Proof.
  destruct (Twitter._get_me_id h w) as [[me|e] w1] eqn:G.
  - destruct (isinstance_dict me) eqn:D.
    + right; left. exists me, w1. split; [reflexivity|].
      destruct op; unfold engage, Twitter.like_tweet, Twitter.unlike_tweet,
        Twitter.retweet, Twitter.undo_retweet, Twitter.follow_user,
        Twitter.unfollow_user; unfold bind at 1; rewrite G, D; reflexivity.
    + right; right.
      destruct op; unfold engage, Twitter.like_tweet, Twitter.unlike_tweet,
        Twitter.retweet, Twitter.undo_retweet, Twitter.follow_user,
        Twitter.unfollow_user; unfold bind at 1; rewrite G, D;
        rewrite bind_get_self; unfold httpx_post, httpx_delete;
        (exists me, w1; eexists;
         split; [reflexivity|];
         split; [|split; [|split; [|reflexivity]]]; reflexivity).
  - left. exists e, w1. split; auto.
    destruct op; unfold engage, Twitter.like_tweet, Twitter.unlike_tweet,
      Twitter.retweet, Twitter.undo_retweet, Twitter.follow_user,
      Twitter.unfollow_user; unfold bind at 1; rewrite G; reflexivity.
Qed.

Lemma headers_of_token (c1 c2 : Twitter.Client) :
  Twitter._token c1 = Twitter._token c2 ->
  Twitter._headers h c1 = Twitter._headers h c2.
Proof. intros E. unfold Twitter._headers. rewrite E. reflexivity. Qed.

End TwitterRequestShape.

(** X4.  Every request issued by any method of the Twitter client, in any
    state of the client, carries the two headers [Authorization: Bearer
    <token>] (with the token the client was built with) and [Content-Type:
    application/json], and the timeout of 30 seconds. *)
Theorem twitter_requests_carry_token_and_timeout :
  forall (h : Host) (c : twitter_call) (w : world Twitter.Client),
    Forall (fun req =>
              req_headers req
              = [("Authorization",
                  "Bearer " ++ Twitter.fstr h (Twitter._token (self w)));
                 ("Content-Type", "application/json")]
              /\ req_timeout req = 30)
           (issued (twitter_adapter_call h c) w).
Proof.
  intros h c w.
  destruct c; simpl twitter_adapter_call;
    try (unfold issued, Twitter.post_tweet, Twitter.delete_tweet,
           Twitter.get_tweet, Twitter.search_tweets, Twitter.get_user,
           Twitter.get_followers, Twitter.get_following,
           Twitter.get_user_tweets, Twitter.get_mentions;
         cbv zeta; single_request; simpl; rewrite skipn_app_exact;
         constructor; [split; reflexivity | constructor]).
  assert (Me : forall r w1, Twitter._get_me_id h w = (r, w1) ->
               Forall (fun req =>
                         req_headers req = Twitter._headers h (self w)
                         /\ req_timeout req = 30)
                      (skipn (List.length (sent w)) (sent w1))).
  { intros r w1 G. destruct (get_me_id_sent h w w1 r G) as [E|E]; rewrite E.
    - rewrite skipn_all_sent. constructor.
    - rewrite skipn_app_exact. constructor; [split; reflexivity | constructor]. }
  destruct (engage_steps_request h op w)
    as [(e & w1 & G & E) | [(me & w1 & G & E) | (me & w1 & req & G & Mu & Hd & Ti & E)]].
  - unfold issued. rewrite E. apply (Me _ _ G).
  - unfold issued. rewrite E. apply (Me _ _ G).
  - unfold issued. rewrite E, one_request. simpl.
    rewrite (headers_of_token h _ _ (get_me_id_keeps_token h w w1 _ G)) in Hd.
    destruct (get_me_id_sent h w w1 _ G) as [S|S]; rewrite S.
    + rewrite skipn_app_exact. constructor; [split; assumption | constructor].
    + rewrite <- app_assoc, skipn_app_exact.
      constructor; [split; reflexivity|].
      constructor; [split; assumption | constructor].
Qed.

Section DocsRequestShape.
Variable h : Host.
Variable w : world GoogleDocs.Client.

Lemma batch_update_run_at (w1 : world GoogleDocs.Client) (document_id : string)
      (requests : list value) :
  GoogleDocs.batch_update h document_id requests w1
  = (match server h (sent w1) (update_request h (self w1) document_id requests) with
     | Responds r => GoogleDocs._handle_response h r
     | Fails e => Raise e
     end,
     {| self := self w1;
        sent := sent w1 ++ [update_request h (self w1) document_id requests] |}).
Proof. apply batch_update_run. Qed.

Lemma batch_update_issued (document_id : string) (requests : list value) :
  issued (GoogleDocs.batch_update h document_id requests) w
  = [update_request h (self w) document_id requests].
Proof.
  apply issued_app. rewrite batch_update_run. reflexivity.
Qed.

Lemma get_document_issued (document_id : string) :
  issued (GoogleDocs.get_document h document_id) w
  = [fetch_request h (self w) document_id].
Proof.
  apply issued_app. rewrite get_document_run. reflexivity.
Qed.

(** What [insert_text] without an index sends: the fetch, and possibly one
    update after it. *)
Lemma insert_text_at_end_sent (document_id text0 : string)
      (segment_id : option string) :
  exists r w',
    GoogleDocs.insert_text h document_id text0 None segment_id w = (r, w')
    /\ (sent w' = (sent w ++ [fetch_request h (self w) document_id])%list
        \/ exists requests,
            sent w'
            = (sent w ++ [fetch_request h (self w) document_id;
                          update_request h (self w) document_id requests])%list).
Proof.
  unfold GoogleDocs.insert_text. cbv zeta. unfold bind, lift.
  rewrite get_document_run.
  destruct (match server h (sent w) (fetch_request h (self w) document_id) with
            | Responds r => GoogleDocs._handle_response h r
            | Fails e => Raise e
            end) as [doc|e]; [|eexists _, _; split; [reflexivity | left; reflexivity]].
  destruct (contains "error" doc) as [[|]|e];
    try (eexists _, _; split; [reflexivity | left; reflexivity]).
  destruct (GoogleDocs.end_of_document doc) as [i|e];
    [|eexists _, _; split; [reflexivity | left; reflexivity]].
  rewrite batch_update_run_at. eexists _, _. split; [reflexivity|].
  right. eexists. simpl. rewrite <- app_assoc. reflexivity.
Qed.

Lemma insert_text_at_end_issued (document_id text0 : string)
      (segment_id : option string) :
  issued (GoogleDocs.insert_text h document_id text0 None segment_id) w
  = [fetch_request h (self w) document_id]
  \/ exists requests,
      issued (GoogleDocs.insert_text h document_id text0 None segment_id) w
      = [fetch_request h (self w) document_id;
         update_request h (self w) document_id requests].
Proof.
  destruct (insert_text_at_end_sent document_id text0 segment_id)
    as (r & w' & E & [S | (requests & S)]).
  - left. apply issued_app. rewrite E. exact S.
  - right. exists requests. apply issued_app. rewrite E. exact S.
Qed.

End DocsRequestShape.

Lemma export_document_issued (h : Host) (w : world GoogleDocs.Client)
      (document_id mime_type : string) :
  issued (GoogleDocs.export_document h document_id mime_type) w
  = [{| req_method := GET;
        req_url := GoogleDocs.GOOGLE_DRIVE_API_BASE ++ "/files/" ++ document_id
                   ++ "/export";
        req_headers := GoogleDocs._headers h (self w);
        req_params := [("mimeType", VStr mime_type)];
        req_json := None;
        req_timeout := 60 |}].
Proof.
  unfold issued, GoogleDocs.export_document. rewrite bind_get_self.
  unfold httpx_get, httpx_request, bind, ret, lift.
  destruct (server h (sent w) _) as [r|e];
    [destruct (status_code r =? 200)|]; simpl; apply skipn_app_exact.
Qed.

(** X5.  Every request issued by any method of the Google Docs client carries
    the three headers [Authorization: Bearer <token>], [Content-Type:
    application/json] and [Accept: application/json], and a timeout of 30 or
    60 seconds: 60 for [batch_update] and [export_document], 30 for
    [create_document], [get_document] and [add_comment]. *)
Theorem docs_requests_carry_token_and_timeout :
  forall (h : Host) (w : world GoogleDocs.Client),
    (forall c,
        Forall (fun req =>
                  req_headers req
                  = [("Authorization",
                      "Bearer " ++ GoogleDocs.fstr h (GoogleDocs._token (self w)));
                     ("Content-Type", "application/json");
                     ("Accept", "application/json")]
                  /\ (req_timeout req = 30 \/ req_timeout req = 60))
               (issued (docs_adapter_call h c) w))
    /\ (forall document_id requests,
           Forall (fun req => req_timeout req = 60)
                  (issued (GoogleDocs.batch_update h document_id requests) w))
    /\ (forall document_id mime_type,
           Forall (fun req => req_timeout req = 60)
                  (issued (GoogleDocs.export_document h document_id mime_type) w))
    /\ (forall title,
           Forall (fun req => req_timeout req = 30)
                  (issued (GoogleDocs.create_document h title) w))
    /\ (forall document_id,
           Forall (fun req => req_timeout req = 30)
                  (issued (GoogleDocs.get_document h document_id) w))
    /\ (forall document_id content quoted_text,
           Forall (fun req => req_timeout req = 30)
                  (issued (GoogleDocs.add_comment h document_id content
                             quoted_text) w)).
Proof.
  intros h w. split; [|split; [|split; [|split; [|split]]]].
  - intros c. destruct c; simpl docs_adapter_call.
    + unfold issued, GoogleDocs.create_document. single_request. simpl.
      rewrite skipn_app_exact. constructor; [split; auto | constructor].
    + rewrite get_document_issued. constructor; [split; auto | constructor].
    + rewrite batch_update_issued. constructor; [split; auto | constructor].
    + destruct index as [i|].
      * unfold GoogleDocs.insert_text. cbv zeta. rewrite batch_update_issued.
        constructor; [split; auto | constructor].
      * destruct (insert_text_at_end_issued h w document_id text0 segment_id)
          as [E | (requests & E)]; rewrite E.
        -- constructor; [split; auto | constructor].
        -- constructor; [split; auto|]. constructor; [split; auto | constructor].
    + unfold GoogleDocs.replace_all_text. rewrite batch_update_issued.
      constructor; [split; auto | constructor].
    + unfold GoogleDocs.insert_image. cbv zeta. rewrite batch_update_issued.
      constructor; [split; auto | constructor].
    + unfold GoogleDocs.format_text. cbv zeta.
      match goal with
      | |- context [let (_, _) := ?acc in _] => destruct acc as [text_style fields]
      end.
      destruct fields as [|f fields].
      * erewrite nothing_issued; [constructor | reflexivity].
      * rewrite batch_update_issued. constructor; [split; auto | constructor].
    + unfold GoogleDocs.create_list. rewrite batch_update_issued.
      constructor; [split; auto | constructor].
    + unfold issued, GoogleDocs.add_comment. cbv zeta. single_request. simpl.
      rewrite skipn_app_exact. constructor; [split; auto | constructor].
    + rewrite export_document_issued. constructor; [split; auto | constructor].
  - intros. rewrite batch_update_issued. constructor; [reflexivity | constructor].
  - intros. rewrite export_document_issued.
    constructor; [reflexivity | constructor].
  - intros. unfold issued, GoogleDocs.create_document. single_request. simpl.
    rewrite skipn_app_exact. constructor; [reflexivity | constructor].
  - intros. rewrite get_document_issued. constructor; [reflexivity | constructor].
  - intros. unfold issued, GoogleDocs.add_comment. cbv zeta. single_request.
    simpl. rewrite skipn_app_exact. constructor; [reflexivity | constructor].
Qed.

(** ** Tool calls with a token: transport failures *)

Lemma twitter_tool_with_token (h : Host) (credentials : option (string -> value))
      (token : value) (body : M Twitter.Client value) (w : world unit) :
  Twitter._get_token h credentials = Ok token ->
  truthy token = true ->
  Twitter.tool h credentials body w
  = on_client (Twitter._TwitterClient token) (except_httpx body) w.
Proof.
  intros T Tr. unfold Twitter.tool, Twitter._get_client, bind, lift.
  rewrite T. simpl rbind. rewrite Tr. reflexivity.
Qed.

Lemma google_tool_with_token (h : Host) (credentials : option (string -> value))
      (token : value) (body : M GoogleDocs.Client value) (w : world unit) :
  GoogleDocs._get_token h credentials = Ok token ->
  truthy token = true ->
  GoogleDocs.tool h credentials body w
  = on_client (GoogleDocs._GoogleDocsClient token) body w.
Proof.
  intros T Tr. unfold GoogleDocs.tool, GoogleDocs._get_client, bind, lift.
  rewrite T. simpl rbind. rewrite Tr. reflexivity.
Qed.

Lemma bind_starts {O} (h : Host) (m : M O value) (k : value -> M O value)
      (w : world O) :
  starts_with_request h m w ->
  starts_with_request h (x <- m ;; k x)%adapter w.
Proof.
  intros [req S]. exists req. intros e F. unfold bind. rewrite (S e F).
  reflexivity.
Qed.

Lemma exchange_starts {O} (h : Host) (req : Request)
      (handle : Response -> res value) (m : M O value) (w : world O) :
  m w = (response <- httpx_request h req ;; lift (handle response))%adapter w ->
  starts_with_request h m w.
Proof.
  intros E. exists req. intros e F. rewrite E, one_request, F. reflexivity.
Qed.

Lemma engage_starts (h : Host) (op : engagement) (w : world Twitter.Client) :
  Twitter._me_id (self w) = VNone ->
  starts_with_request h (engage h op) w.
Proof.
  intros N. exists (me_request h (self w)). intros e F.
  assert (G : Twitter._get_me_id h w
              = (Raise e, {| self := self w;
                             sent := sent w ++ [me_request h (self w)] |}))
    by (rewrite (get_me_id_uncached h w N); cbv zeta; rewrite F; reflexivity).
  destruct (engage_steps h op w)
    as [(e' & w1 & G1 & E) | [(me & w1 & G1 & D & E) | (me & w1 & req & G1 & D & Mu & E)]];
    rewrite G in G1; inversion G1; subst. exact E.
Qed.

(** The frame of a tool around a body that begins with a request, when the
    exchange fails. *)
Lemma frame_on_failure {O} (h : Host) (client : O) (body : M O value)
      (w : world unit) (e : exn) :
  starts_with_request h body {| self := client; sent := sent w |} ->
  (forall req, server h (sent w) req = Fails e) ->
  exists req,
    on_client client (except_httpx body) w
    = (transport_outcome e, {| self := tt; sent := sent w ++ [req] |}).
Proof.
  intros [req S] F. exists req. unfold on_client, except_httpx.
  rewrite (S e (F req)). destruct e; reflexivity.
Qed.

Lemma twitter_body_starts (h : Host) (c : Twitter.call) (token : value)
      (w : world unit) :
  exists body,
    (forall credentials,
        Twitter.invoke h credentials c = Twitter.tool h credentials body)
    /\ starts_with_request h body
         {| self := Twitter._TwitterClient token; sent := sent w |}.
Proof.
  destruct c; eexists; (split; [intros; reflexivity|]);
    try (unfold Twitter.pass_through, Twitter.report_flag);
    apply bind_starts;
    try match goal with
        | |- starts_with_request _ (Twitter.like_tweet _ ?t) _ =>
            apply (engage_starts h (Like t)); reflexivity
        | |- starts_with_request _ (Twitter.unlike_tweet _ ?t) _ =>
            apply (engage_starts h (Unlike t)); reflexivity
        | |- starts_with_request _ (Twitter.retweet _ ?t) _ =>
            apply (engage_starts h (Retweet t)); reflexivity
        | |- starts_with_request _ (Twitter.undo_retweet _ ?t) _ =>
            apply (engage_starts h (Undo_retweet t)); reflexivity
        | |- starts_with_request _ (Twitter.follow_user _ ?t) _ =>
            apply (engage_starts h (Follow t)); reflexivity
        | |- starts_with_request _ (Twitter.unfollow_user _ ?t) _ =>
            apply (engage_starts h (Unfollow t)); reflexivity
        end;
    (eapply (exchange_starts h _ (Twitter._handle_response h));
     unfold Twitter.post_tweet, Twitter.delete_tweet, Twitter.get_tweet,
       Twitter.search_tweets, Twitter.get_user, Twitter.get_followers,
       Twitter.get_following, Twitter.get_user_tweets, Twitter.get_mentions;
     as_exchange).
Qed.

(** X6.  A Twitter tool call made with a token, whose HTTP exchange fails,
    sends exactly one request and does not try again: a timeout is reported as
    [{"error": "Request timed out"}], any other request error with message [m]
    as [{"error": "Network error: m"}]. *)
Theorem twitter_tool_reports_transport_failure :
  forall (h : Host) (credentials : option (string -> value)) (token : value)
         (c : Twitter.call) (w : world unit) (e : exn),
    Twitter._get_token h credentials = Ok token ->
    truthy token = true ->
    (forall req, server h (sent w) req = Fails e) ->
    outcome_of (Twitter.invoke h credentials c) w = transport_outcome e
    /\ List.length (issued (Twitter.invoke h credentials c) w) = 1%nat
    /\ (forall msg, e = TimeoutException msg ->
                    outcome_of (Twitter.invoke h credentials c) w
                    = Ok (error_result "Request timed out"))
    /\ (forall msg, e = RequestError msg ->
                    outcome_of (Twitter.invoke h credentials c) w
                    = Ok (error_result ("Network error: " ++ msg))).
Proof.
  intros h credentials token c w e T Tr F.
  destruct (twitter_body_starts h c token w) as (body & I & S).
  destruct (frame_on_failure h _ body w e S F) as [req R].
  assert (E : Twitter.invoke h credentials c w
              = (transport_outcome e, {| self := tt; sent := sent w ++ [req] |})).
  { rewrite I, (twitter_tool_with_token h credentials token body w T Tr).
    exact R. }
  assert (O : outcome_of (Twitter.invoke h credentials c) w = transport_outcome e)
    by (unfold outcome_of; rewrite E; reflexivity).
  split; [exact O|]. split; [|split].
  - unfold issued. rewrite E. simpl. rewrite skipn_app_exact. reflexivity.
  - intros msg ->. exact O.
  - intros msg ->. exact O.
Qed.

Lemma twitter_tool_transport_witness :
  outcome_of (Twitter.invoke (host_serving timing_out tokens_env) None a_like) host
  = Ok (error_result "Request timed out")
  /\ List.length (issued (Twitter.invoke (host_serving timing_out tokens_env) None
                            a_like) host) = 1%nat
  /\ outcome_of (Twitter.invoke (host_serving refusing tokens_env) None a_post) host
     = Ok (error_result "Network error: connection refused").
Proof.
  split; [|split].
  - destruct (twitter_tool_reports_transport_failure
                (host_serving timing_out tokens_env) None (VStr "env-token")
                a_like host (TimeoutException "timed out") eq_refl eq_refl
                (fun _ => eq_refl)) as (_ & _ & Timeout & _).
    exact (Timeout "timed out" eq_refl).
  - destruct (twitter_tool_reports_transport_failure
                (host_serving timing_out tokens_env) None (VStr "env-token")
                a_like host (TimeoutException "timed out") eq_refl eq_refl
                (fun _ => eq_refl)) as (_ & Once & _).
    exact Once.
  - destruct (twitter_tool_reports_transport_failure
                (host_serving refusing tokens_env) None (VStr "env-token")
                a_post host (RequestError "connection refused") eq_refl eq_refl
                (fun _ => eq_refl)) as (_ & _ & _ & Refused).
    exact (Refused "connection refused" eq_refl).
Defined.

Section DocsStarts.
Variable h : Host.

Lemma batch_update_starts (document_id : string) (requests : list value)
      (w : world GoogleDocs.Client) :
  starts_with_request h (GoogleDocs.batch_update h document_id requests) w.
Proof.
  eapply (exchange_starts h _ (GoogleDocs._handle_response h)).
  unfold GoogleDocs.batch_update. as_exchange.
Qed.

Lemma get_document_starts (document_id : string) (w : world GoogleDocs.Client) :
  starts_with_request h (GoogleDocs.get_document h document_id) w.
Proof.
  eapply (exchange_starts h _ (GoogleDocs._handle_response h)).
  unfold GoogleDocs.get_document. as_exchange.
Qed.

Lemma insert_text_starts (document_id text0 : string) (index : option Z)
      (segment_id : option string) (w : world GoogleDocs.Client) :
  starts_with_request h
    (GoogleDocs.insert_text h document_id text0 index segment_id) w.
Proof.
  destruct index as [i|].
  - unfold GoogleDocs.insert_text. cbv zeta. apply batch_update_starts.
  - unfold GoogleDocs.insert_text. cbv zeta. apply bind_starts.
    apply get_document_starts.
Qed.

Lemma export_document_starts (document_id mime_type : string)
      (w : world GoogleDocs.Client) :
  starts_with_request h (GoogleDocs.export_document h document_id mime_type) w.
Proof.
  destruct (export_document_run h document_id mime_type w) as [req E].
  exists req. intros e F. rewrite E, F. reflexivity.
Qed.

(** With at least one option given, [format_text] is one [batch_update]. *)
Lemma format_text_starts (document_id : string) (start_index end_index : Z)
      (bold italic underline : option bool) (font_size_pt : option float)
      (foreground_color : option value) (w : world GoogleDocs.Client) :
  match bold, italic, underline, font_size_pt, foreground_color with
  | None, None, None, None, None => False
  | _, _, _, _, _ => True
  end ->
  starts_with_request h
    (GoogleDocs.format_text h document_id start_index end_index bold italic
       underline font_size_pt foreground_color) w.
Proof.
  intros Some_option.
  destruct bold, italic, underline, font_size_pt, foreground_color;
    try contradiction; apply batch_update_starts.
Qed.

End DocsStarts.

(** The body of each Google Docs tool that reaches the network begins with a
    request, inside the handlers for the two [httpx] exceptions and, for
    [google_docs_batch_update], the one for [JSONDecodeError] around them. *)
Lemma google_body_starts (h : Host) (c : GoogleDocs.call) (token : value)
      (w : world unit) :
  reaches_network h c = true ->
  exists inner,
    starts_with_request h inner
      {| self := GoogleDocs._GoogleDocsClient token; sent := sent w |}
    /\ ((forall credentials,
            GoogleDocs.invoke h credentials c
            = GoogleDocs.tool h credentials (except_httpx inner))
        \/ (forall credentials w0,
               GoogleDocs.invoke h credentials c w0
               = GoogleDocs.tool h credentials
                   (GoogleDocs.except_json (except_httpx inner)) w0)).
Proof.
  intros R. destruct c; simpl GoogleDocs.invoke.
  - eexists. split; [|left; intros; reflexivity].
    apply bind_starts.
    eapply (exchange_starts h _ (GoogleDocs._handle_response h)).
    unfold GoogleDocs.create_document. as_exchange.
  - eexists. split; [|left; intros; reflexivity]. apply get_document_starts.
  - eexists. split; [|left; intros; reflexivity]. apply insert_text_starts.
  - eexists. split; [|left; intros; reflexivity].
    apply bind_starts. unfold GoogleDocs.replace_all_text.
    apply batch_update_starts.
  - eexists. split; [|left; intros; reflexivity].
    unfold GoogleDocs.insert_image. cbv zeta. apply batch_update_starts.
  - eexists. split; [|left; intros; reflexivity].
    apply format_text_starts.
    destruct bold, italic, underline, font_size_pt, foreground_color_red,
      foreground_color_green, foreground_color_blue;
      try exact I; discriminate R.
  - simpl in R. destruct (json_loads h requests_json) as [v|e] eqn:J;
      [|discriminate R].
    destruct v as [| | | | |requests|]; try discriminate R.
    exists (GoogleDocs.batch_update h document_id requests).
    split; [apply batch_update_starts|]. right. intros credentials w0.
    unfold GoogleDocs.google_docs_batch_update, GoogleDocs.tool, bind, lift.
    destruct (GoogleDocs._get_client h credentials) as [[err|client]|e];
      try reflexivity.
    unfold on_client, GoogleDocs.except_json, except_httpx. rewrite J.
    reflexivity.
  - eexists. split; [|left; intros; reflexivity].
    unfold GoogleDocs.create_list. apply batch_update_starts.
  - eexists. split; [|left; intros; reflexivity].
    eapply (exchange_starts h _ (GoogleDocs._handle_response h)).
    unfold GoogleDocs.add_comment. as_exchange.
  - eexists. split; [|left; intros; reflexivity]. apply export_document_starts.
Qed.

(** X7.  A Google Docs tool call made with a token, of a tool that reaches
    the network, whose HTTP exchange fails, sends exactly one request and does
    not try again: a timeout is reported as [{"error": "Request timed out"}],
    any other request error with message [m] as [{"error": "Network error: m"}].
    This includes the compound [google_docs_insert_text] without an index,
    which stops after the failed fetch. *)
Theorem docs_tool_reports_transport_failure :
  forall (h : Host) (credentials : option (string -> value)) (token : value)
         (c : GoogleDocs.call) (w : world unit) (e : exn),
    GoogleDocs._get_token h credentials = Ok token ->
    truthy token = true ->
    reaches_network h c = true ->
    (forall req, server h (sent w) req = Fails e) ->
    List.length (issued (GoogleDocs.invoke h credentials c) w) = 1%nat
    /\ (forall msg, e = TimeoutException msg ->
                    outcome_of (GoogleDocs.invoke h credentials c) w
                    = Ok (error_result "Request timed out"))
    /\ (forall msg, e = RequestError msg ->
                    outcome_of (GoogleDocs.invoke h credentials c) w
                    = Ok (error_result ("Network error: " ++ msg))).
Proof.
  intros h credentials token c w e T Tr R F.
  destruct (google_body_starts h c token w R) as (inner & S & I).
  destruct (frame_on_failure h _ inner w e S F) as [req Fr].
  assert (E : exists r,
             GoogleDocs.invoke h credentials c w
             = (r, {| self := tt; sent := sent w ++ [req] |})
             /\ (forall msg, e = TimeoutException msg ->
                             r = Ok (error_result "Request timed out"))
             /\ (forall msg, e = RequestError msg ->
                             r = Ok (error_result ("Network error: " ++ msg)))).
  { destruct I as [I|I].
    - exists (transport_outcome e). split; [|split].
      + rewrite I, (google_tool_with_token h credentials token _ w T Tr).
        exact Fr.
      + intros msg ->. reflexivity.
      + intros msg ->. reflexivity.
    - rewrite I, (google_tool_with_token h credentials token _ w T Tr).
      unfold on_client, GoogleDocs.except_json in *.
      destruct (except_httpx inner
                  {| self := GoogleDocs._GoogleDocsClient token; sent := sent w |})
        as [r1 w1].
      inversion Fr; subst. destruct e; simpl; eexists;
        (split; [reflexivity|]); split; intros m' Q; inversion Q;
        reflexivity. }
  destruct E as (r & E & Ti & Rq).
  split; [|split].
  - unfold issued. rewrite E. simpl. rewrite skipn_app_exact. reflexivity.
  - intros msg Q. unfold outcome_of. rewrite E. exact (Ti msg Q).
  - intros msg Q. unfold outcome_of. rewrite E. exact (Rq msg Q).
Qed.

Lemma docs_tool_transport_witness :
  List.length (issued (GoogleDocs.invoke (host_serving timing_out tokens_env) None
                         an_append) host) = 1%nat
  /\ outcome_of (GoogleDocs.invoke (host_serving timing_out tokens_env) None
                   an_append) host
     = Ok (error_result "Request timed out")
  /\ outcome_of (GoogleDocs.invoke (host_serving refusing tokens_env) None
                   an_append) host
     = Ok (error_result "Network error: connection refused").
Proof.
  split; [|split].
  - destruct (docs_tool_reports_transport_failure
                (host_serving timing_out tokens_env) None (VStr "env-token")
                an_append host (TimeoutException "timed out") eq_refl eq_refl
                eq_refl (fun _ => eq_refl)) as (Once & _).
    exact Once.
  - destruct (docs_tool_reports_transport_failure
                (host_serving timing_out tokens_env) None (VStr "env-token")
                an_append host (TimeoutException "timed out") eq_refl eq_refl
                eq_refl (fun _ => eq_refl)) as (_ & Timeout & _).
    exact (Timeout "timed out" eq_refl).
  - destruct (docs_tool_reports_transport_failure
                (host_serving refusing tokens_env) None (VStr "env-token")
                an_append host (RequestError "connection refused") eq_refl
                eq_refl eq_refl (fun _ => eq_refl)) as (_ & _ & Refused).
    exact (Refused "connection refused" eq_refl).
Defined.

(** ** Tool calls without a token *)

Lemma google_invoke_without_token (h : Host)
      (credentials : option (string -> value)) (token : value)
      (c : GoogleDocs.call) (w : world unit) :
  GoogleDocs._get_token h credentials = Ok token ->
  truthy token = false ->
  GoogleDocs.invoke h credentials c w = (Ok GoogleDocs.not_configured, w).
Proof.
  intros T F.
  assert (G : GoogleDocs._get_client h credentials
              = Ok (inl GoogleDocs.not_configured))
    by (unfold GoogleDocs._get_client; rewrite T; simpl; rewrite F; reflexivity).
  destruct c; simpl GoogleDocs.invoke;
    unfold GoogleDocs.google_docs_create_document,
      GoogleDocs.google_docs_get_document, GoogleDocs.google_docs_insert_text,
      GoogleDocs.google_docs_replace_all_text,
      GoogleDocs.google_docs_insert_image, GoogleDocs.google_docs_format_text,
      GoogleDocs.google_docs_batch_update, GoogleDocs.google_docs_create_list,
      GoogleDocs.google_docs_add_comment, GoogleDocs.google_docs_export_content;
    unfold GoogleDocs.tool, bind, lift; rewrite G; reflexivity.
Qed.

(** X8.  Without a credential store and with [GOOGLE_DOCS_ACCESS_TOKEN] unset
    or empty, every Google Docs tool returns the "Google Docs credentials not
    configured" mapping and sends nothing, when
    [GOOGLE_SERVICE_ACCOUNT_JSON] is unset or empty, when its text is not
    valid JSON, and when it is a JSON object without a usable
    [access_token]. *)
Theorem docs_tools_without_token :
  forall (h : Host) (c : GoogleDocs.call) (w : world unit),
    getenv h "GOOGLE_DOCS_ACCESS_TOKEN" = None
    \/ getenv h "GOOGLE_DOCS_ACCESS_TOKEN" = Some "" ->
    (getenv h "GOOGLE_SERVICE_ACCOUNT_JSON" = None
     \/ getenv h "GOOGLE_SERVICE_ACCOUNT_JSON" = Some "" ->
     GoogleDocs.invoke h None c w
     = (Ok (VDict [("error", VStr "Google Docs credentials not configured");
                   ("help",
                    VStr "Set GOOGLE_DOCS_ACCESS_TOKEN environment variable or configure via credential store. Get credentials at: https://console.cloud.google.com/apis/credentials")]),
        w)
     /\ issued (GoogleDocs.invoke h None c) w = [])
    /\ (forall sa msg,
           getenv h "GOOGLE_SERVICE_ACCOUNT_JSON" = Some sa ->
           json_loads h sa = Raise (JSONDecodeError msg) ->
           GoogleDocs.invoke h None c w = (Ok GoogleDocs.not_configured, w)
           /\ issued (GoogleDocs.invoke h None c) w = [])
    /\ (forall sa d,
           getenv h "GOOGLE_SERVICE_ACCOUNT_JSON" = Some sa ->
           json_loads h sa = Ok (VDict d) ->
           truthy (or_else (lookup "access_token" d) VNone) = false ->
           GoogleDocs.invoke h None c w = (Ok GoogleDocs.not_configured, w)
           /\ issued (GoogleDocs.invoke h None c) w = []).
Proof.
  intros h c w E.
  assert (F : truthy (GoogleDocs.os_getenv h "GOOGLE_DOCS_ACCESS_TOKEN") = false)
    by (unfold GoogleDocs.os_getenv; destruct E as [E|E]; rewrite E; reflexivity).
  assert (Done : forall token,
             GoogleDocs._get_token h None = Ok token -> truthy token = false ->
             GoogleDocs.invoke h None c w = (Ok GoogleDocs.not_configured, w)
             /\ issued (GoogleDocs.invoke h None c) w = []).
  { intros token T Fa.
    pose proof (google_invoke_without_token h None token c w T Fa) as R.
    split; [exact R|]. unfold issued. rewrite R. apply skipn_all_sent. }
  split; [|split].
  - intros S. apply (Done VNone); [|reflexivity].
    unfold GoogleDocs._get_token. rewrite F.
    destruct S as [S|S]; rewrite S; reflexivity.
  - intros sa msg S J. apply (Done VNone); [|reflexivity].
    unfold GoogleDocs._get_token. rewrite F, S.
    destruct (truthy (VStr sa)); [|reflexivity]. rewrite J. reflexivity.
  - intros sa d S J Fa.
    destruct (truthy (VStr sa)) eqn:Tsa.
    + apply (Done (or_else (lookup "access_token" d) VNone)); [|exact Fa].
      unfold GoogleDocs._get_token. rewrite F, S, Tsa, J. reflexivity.
    + apply (Done VNone); [|reflexivity].
      unfold GoogleDocs._get_token. rewrite F, S, Tsa. reflexivity.
Qed.

Lemma docs_tools_without_token_witness :
  (GoogleDocs.invoke (host_serving docs_server no_env) None an_append host
   = (Ok GoogleDocs.not_configured, host)
   /\ issued (GoogleDocs.invoke (host_serving docs_server no_env) None an_append)
        host = [])
  /\ (GoogleDocs.invoke (host_serving docs_server malformed_service_account_env)
        None an_append host
      = (Ok GoogleDocs.not_configured, host)
      /\ issued (GoogleDocs.invoke
                   (host_serving docs_server malformed_service_account_env)
                   None an_append) host = []).
Proof.
  split.
  - destruct (docs_tools_without_token (host_serving docs_server no_env)
                an_append host (or_introl eq_refl)) as (Unset & _).
    exact (Unset (or_introl eq_refl)).
  - destruct (docs_tools_without_token
                (host_serving docs_server malformed_service_account_env)
                an_append host (or_introl eq_refl)) as (_ & Malformed & _).
    exact (Malformed "{oops" "Expecting value: line 1 column 1 (char 0)"
             eq_refl eq_refl).
Defined.

(** X9.  A credential store that has nothing (or the empty string) for the
    integration hides the environment: every tool of that integration reports
    "not configured" and sends nothing, even when the environment variable
    holds a token. *)
Theorem empty_store_hides_environment :
  forall (h : Host) (credentials_get : string -> value) (w : world unit),
    (credentials_get "twitter" = VNone \/ credentials_get "twitter" = VStr "" ->
     forall c,
       Twitter.invoke h (Some credentials_get) c w
       = (Ok Twitter.not_configured, w)
       /\ issued (Twitter.invoke h (Some credentials_get) c) w = [])
    /\ (credentials_get "google_docs" = VNone
        \/ credentials_get "google_docs" = VStr "" ->
        forall c,
          GoogleDocs.invoke h (Some credentials_get) c w
          = (Ok GoogleDocs.not_configured, w)
          /\ issued (GoogleDocs.invoke h (Some credentials_get) c) w = []).
Proof.
  intros h g w. split; intros E c.
  - assert (R : Twitter.invoke h (Some g) c w = (Ok Twitter.not_configured, w)).
    { destruct E as [E|E].
      - apply (twitter_invoke_without_token h (Some g) VNone); [|reflexivity].
        unfold Twitter._get_token. rewrite E. reflexivity.
      - apply (twitter_invoke_without_token h (Some g) (VStr "")); [|reflexivity].
        unfold Twitter._get_token. rewrite E. reflexivity. }
    split; [exact R|]. unfold issued. rewrite R. apply skipn_all_sent.
  - assert (R : GoogleDocs.invoke h (Some g) c w
                = (Ok GoogleDocs.not_configured, w)).
    { destruct E as [E|E].
      - apply (google_invoke_without_token h (Some g) VNone); [|reflexivity].
        unfold GoogleDocs._get_token. rewrite E. reflexivity.
      - apply (google_invoke_without_token h (Some g) (VStr "")); [|reflexivity].
        unfold GoogleDocs._get_token. rewrite E. reflexivity. }
    split; [exact R|]. unfold issued. rewrite R. apply skipn_all_sent.
Qed.

Lemma empty_store_hides_environment_witness :
  getenv (host_serving twitter_server tokens_env) "TWITTER_BEARER_TOKEN"
  = Some "env-token"
  /\ Twitter.invoke (host_serving twitter_server tokens_env) (store_with VNone)
       a_like host
     = (Ok Twitter.not_configured, host)
  /\ GoogleDocs.invoke (host_serving docs_server tokens_env)
       (store_with (VStr "")) an_append host
     = (Ok GoogleDocs.not_configured, host).
Proof.
  split; [reflexivity|]. split.
  - destruct (empty_store_hides_environment
                (host_serving twitter_server tokens_env) (fun _ => VNone) host)
      as (Tw & _).
    exact (proj1 (Tw (or_introl eq_refl) a_like)).
  - destruct (empty_store_hides_environment
                (host_serving docs_server tokens_env) (fun _ => VStr "") host)
      as (_ & Gd).
    exact (proj1 (Gd (or_intror eq_refl) an_append)).
Defined.

(** ** The caller's identity, at the tool and at the client *)

Lemma except_httpx_sent {O} (m : M O value) (w : world O) :
  sent (snd (except_httpx m w)) = sent (snd (m w)).
Proof.
  unfold except_httpx. destruct (m w) as [[v|e] w']; [reflexivity|].
  destruct e; reflexivity.
Qed.

Lemma on_client_sent {O A} (client : O) (m : M O A) (w : world unit) :
  sent (snd (on_client client m w))
  = sent (snd (m {| self := client; sent := sent w |})).
Proof.
  unfold on_client. destruct (m _) as [r w']. reflexivity.
Qed.

Lemma report_flag_sent (key : string) (default : bool)
      (m : M Twitter.Client value) (w : world Twitter.Client) :
  sent (snd (Twitter.report_flag key default m w)) = sent (snd (m w)).
Proof.
  unfold Twitter.report_flag, bind, lift, ret.
  destruct (m w) as [[v|e] w']; [|reflexivity].
  destruct (contains "error" v) as [[|]|e]; try reflexivity.
  destruct (get v "data" (VDict [])) as [data|e]; [|reflexivity].
  destruct (get data key (VBool default)); reflexivity.
Qed.

(** X10.  Each call of a tool builds a client of its own, so the identity
    cache never carries over from one tool call to the next: whatever was sent
    before, a call of one of the six engagement tools begins with
    [GET /users/me], followed by at most one more request. *)
Theorem engagement_tools_ask_identity_each_time :
  forall (h : Host) (credentials : option (string -> value)) (token : value)
         (c : Twitter.call) (w : world unit),
    Twitter._get_token h credentials = Ok token ->
    truthy token = true ->
    needs_identity c = true ->
    exists rest,
      issued (Twitter.invoke h credentials c) w
      = me_request h (Twitter._TwitterClient token) :: rest
      /\ (List.length rest <= 1)%nat.
Proof.
  intros h credentials token c w T Tr N.
  assert (Run : forall key default op,
             exists rest,
               issued (Twitter.tool h credentials
                         (Twitter.report_flag key default (engage h op))) w
               = me_request h (Twitter._TwitterClient token) :: rest
               /\ (List.length rest <= 1)%nat).
  { intros key default op.
    destruct (engage_uncached_issues h op
                {| self := Twitter._TwitterClient token; sent := sent w |}
                eq_refl) as (rest & I & _ & L).
    exists rest. split; [|exact L].
    unfold issued in *.
    rewrite (twitter_tool_with_token h credentials token _ w T Tr).
    rewrite on_client_sent, except_httpx_sent, report_flag_sent. exact I. }
  destruct c; try discriminate N; simpl Twitter.invoke.
  - apply (Run "liked" false (Like tweet_id)).
  - apply (Run "liked" false (Unlike tweet_id)).
  - apply (Run "retweeted" false (Retweet tweet_id)).
  - apply (Run "retweeted" false (Undo_retweet tweet_id)).
  - apply (Run "following" false (Follow target_user_id)).
  - apply (Run "following" true (Unfollow target_user_id)).
Qed.

Lemma engagement_tools_ask_identity_witness :
  exists rest,
    issued (Twitter.invoke (host_serving twitter_server tokens_env) None a_like)
      {| self := tt;
         sent := [me_request (host_serving twitter_server tokens_env)
                    (Twitter._TwitterClient (VStr "env-token"))] |}
    = me_request (host_serving twitter_server tokens_env)
        (Twitter._TwitterClient (VStr "env-token")) :: rest
    /\ (List.length rest <= 1)%nat.
Proof.
  apply (engagement_tools_ask_identity_each_time
           (host_serving twitter_server tokens_env) None (VStr "env-token")
           a_like); reflexivity.
Defined.

Section ResolvedIdentity.
Variable h : Host.
Variable w : world Twitter.Client.
Variable s : string.

Lemma engage_after_id (op : engagement) (w1 : world Twitter.Client) :
  Twitter._get_me_id h w = (Ok (VStr s), w1) ->
  engage h op w
  = (match server h (sent w1) (engagement_request h (self w1) s op) with
     | Responds r => Twitter._handle_response h r
     | Fails e => Raise e
     end,
     {| self := self w1;
        sent := sent w1 ++ [engagement_request h (self w1) s op] |}).
Proof.
  intros G.
  destruct op; unfold engage, Twitter.like_tweet, Twitter.unlike_tweet,
    Twitter.retweet, Twitter.undo_retweet, Twitter.follow_user,
    Twitter.unfollow_user; unfold bind at 1; rewrite G;
    cbn [isinstance_dict]; single_request; reflexivity.
Qed.

Lemma engage_with_cached_id (op : engagement) :
  Twitter._me_id (self w) = VStr s ->
  issued (engage h op) w = [engagement_request h (self w) s op].
Proof.
  intros C.
  assert (G : Twitter._get_me_id h w = (Ok (VStr s), w))
    by (rewrite get_me_id_cached; rewrite C; [reflexivity | discriminate]).
  unfold issued. rewrite (engage_after_id op w G). simpl.
  apply skipn_app_exact.
Qed.

Lemma get_me_id_resolves (r : Response) (d data : list (string * value)) :
  Twitter._me_id (self w) = VNone ->
  server h (sent w) (me_request h (self w)) = Responds r ->
  Twitter._handle_response h r = Ok (VDict d) ->
  has_key "error" d = false ->
  lookup "data" d = Some (VDict data) ->
  lookup "id" data = Some (VStr s) ->
  Twitter._get_me_id h w
  = (Ok (VStr s),
     {| self := {| Twitter._token := Twitter._token (self w);
                   Twitter._me_id := VStr s |};
        sent := sent w ++ [me_request h (self w)] |}).
Proof.
  intros N A H K D I. rewrite (get_me_id_uncached h w N). cbv zeta.
  rewrite A, H. cbn [contains]. rewrite K. cbn [getitem rbind]. rewrite D.
  cbn [getitem rbind]. rewrite I. reflexivity.
Qed.

End ResolvedIdentity.

(** X11.  The id that [/users/me] returns is the one the engagement requests
    are addressed to: a call on a client without an id sends [GET /users/me]
    and then the operation's request under [/users/<id>/...], and leaves the
    id stored; a call on a client that has the id sends the operation's
    request alone. *)
Theorem engagement_requests_use_resolved_id :
  forall (h : Host) (w : world Twitter.Client) (s : string) (op : engagement),
    (Twitter._me_id (self w) = VStr s ->
     issued (engage h op) w = [engagement_request h (self w) s op])
    /\ (forall r d data,
           Twitter._me_id (self w) = VNone ->
           server h (sent w) (me_request h (self w)) = Responds r ->
           Twitter._handle_response h r = Ok (VDict d) ->
           has_key "error" d = false ->
           lookup "data" d = Some (VDict data) ->
           lookup "id" data = Some (VStr s) ->
           issued (engage h op) w
           = [me_request h (self w); engagement_request h (self w) s op]
           /\ Twitter._me_id (self (snd (engage h op w))) = VStr s).
Proof.
  intros h w s op. split; [apply engage_with_cached_id|].
  intros r d data N A H K D I.
  pose proof (get_me_id_resolves h w s r d data N A H K D I) as G.
  unfold issued. rewrite (engage_after_id h w s op _ G). simpl.
  rewrite <- app_assoc, skipn_app_exact. split; reflexivity.
Qed.

Lemma engagement_requests_witness :
  issued (engage (host_serving twitter_server no_env) (Unlike "9")) a_known_client
  = [engagement_request (host_serving twitter_server no_env)
       (self a_known_client) "42" (Unlike "9")]
  /\ issued (engage (host_serving twitter_server no_env) (Follow "7")) a_client
     = [me_request (host_serving twitter_server no_env) (self a_client);
        engagement_request (host_serving twitter_server no_env) (self a_client)
          "42" (Follow "7")].
Proof.
  split.
  - destruct (engagement_requests_use_resolved_id
                (host_serving twitter_server no_env) a_known_client "42"
                (Unlike "9")) as (Cached & _).
    exact (Cached eq_refl).
  - destruct (engagement_requests_use_resolved_id
                (host_serving twitter_server no_env) a_client "42"
                (Follow "7")) as (_ & Fresh).
    exact (proj1 (Fresh identity_42
                    [("data", VDict [("id", VStr "42")])] [("id", VStr "42")]
                    eq_refl eq_refl eq_refl eq_refl eq_refl eq_refl)).
Defined.

(** ** What the Twitter tools make of an answer *)

Lemma engagement_request_is_mutating (h : Host) (client : Twitter.Client)
      (s : string) (op : engagement) :
  is_mutating (engagement_request h client s op) = true.
Proof. destruct op; reflexivity. Qed.

Lemma flag_tool_run (h : Host) (credentials : option (string -> value))
      (token : value) (key : string) (default : bool)
      (m : M Twitter.Client value) (w : world unit)
      (d : list (string * value)) (w' : world Twitter.Client) :
  Twitter._get_token h credentials = Ok token ->
  truthy token = true ->
  m {| self := Twitter._TwitterClient token; sent := sent w |} = (Ok (VDict d), w') ->
  has_key "error" d = false ->
  (lookup "data" d = None ->
   outcome_of (Twitter.tool h credentials (Twitter.report_flag key default m)) w
   = Ok (VDict [("success", VBool true); (key, VBool default)]))
  /\ (forall data,
         lookup "data" d = Some (VDict data) ->
         outcome_of (Twitter.tool h credentials (Twitter.report_flag key default m)) w
         = Ok (VDict [("success", VBool true);
                      (key, or_else (lookup key data) (VBool default))])).
Proof.
  intros T Tr R K.
  unfold outcome_of.
  rewrite (twitter_tool_with_token h credentials token _ w T Tr).
  unfold on_client, except_httpx, Twitter.report_flag, bind, lift, ret.
  rewrite R. cbn [contains]. rewrite K. cbn [get].
  split; [intros D | intros data D]; rewrite D; reflexivity.
Qed.

(** X12.  The seven tools that report a flag read it from [data] of the
    answer to their request and fall back to a fixed value when the answer
    has no [data] or [data] has no such key: [False] for [deleted], [liked],
    [retweeted] and for [following] after a follow, but [True] for [following]
    after an unfollow. *)
Theorem flag_tools_fall_back_to_default :
  forall (h : Host) (credentials : option (string -> value)) (token : value)
         (c : Twitter.call) (w : world unit) (key : string) (default : bool)
         (r_me r_op : Response) (d_me id_data d : list (string * value))
         (s : string),
    Twitter._get_token h credentials = Ok token ->
    truthy token = true ->
    reported_flag c = Some (key, default) ->
    (forall hist req, is_me_request req = true ->
                      server h hist req = Responds r_me) ->
    Twitter._handle_response h r_me = Ok (VDict d_me) ->
    has_key "error" d_me = false ->
    lookup "data" d_me = Some (VDict id_data) ->
    lookup "id" id_data = Some (VStr s) ->
    (forall hist req, is_mutating req = true ->
                      server h hist req = Responds r_op) ->
    Twitter._handle_response h r_op = Ok (VDict d) ->
    has_key "error" d = false ->
    (lookup "data" d = None ->
     outcome_of (Twitter.invoke h credentials c) w
     = Ok (VDict [("success", VBool true); (key, VBool default)]))
    /\ (forall data,
           lookup "data" d = Some (VDict data) ->
           outcome_of (Twitter.invoke h credentials c) w
           = Ok (VDict [("success", VBool true);
                        (key, or_else (lookup key data) (VBool default))])).
Proof.
  intros h credentials token c w key default r_me r_op d_me id_data d s
         T Tr F Me Hme Kme Dme Ime Op Hop Kop.
  set (w0 := {| self := Twitter._TwitterClient token; sent := sent w |}).
  assert (E : forall op, exists w', engage h op w0 = (Ok (VDict d), w')).
  { intros op.
    pose proof (get_me_id_resolves h w0 s r_me d_me id_data eq_refl
                  (Me _ _ (me_request_is_me h (self w0))) Hme Kme Dme Ime) as G.
    rewrite (engage_after_id h w0 s op _ G).
    rewrite (Op _ _ (engagement_request_is_mutating h _ s op)), Hop.
    eexists. reflexivity. }
  destruct c; inversion F; subst key default; simpl Twitter.invoke.
  - assert (R : exists w', Twitter.delete_tweet h tweet_id w0 = (Ok (VDict d), w')).
    { unfold Twitter.delete_tweet. single_request.
      match goal with
      | |- context [server h ?hist ?req] => rewrite (Op hist req eq_refl)
      end.
      rewrite Hop. eexists. reflexivity. }
    destruct R as [w' R].
    exact (flag_tool_run h credentials token "deleted" false _ w d w' T Tr R Kop).
  - destruct (E (Like tweet_id)) as [w' R].
    exact (flag_tool_run h credentials token "liked" false _ w d w' T Tr R Kop).
  - destruct (E (Unlike tweet_id)) as [w' R].
    exact (flag_tool_run h credentials token "liked" false _ w d w' T Tr R Kop).
  - destruct (E (Retweet tweet_id)) as [w' R].
    exact (flag_tool_run h credentials token "retweeted" false _ w d w' T Tr R Kop).
  - destruct (E (Undo_retweet tweet_id)) as [w' R].
    exact (flag_tool_run h credentials token "retweeted" false _ w d w' T Tr R Kop).
  - destruct (E (Follow target_user_id)) as [w' R].
    exact (flag_tool_run h credentials token "following" false _ w d w' T Tr R Kop).
  - destruct (E (Unfollow target_user_id)) as [w' R].
    exact (flag_tool_run h credentials token "following" true _ w d w' T Tr R Kop).
Qed.

Lemma flag_tools_default_witness :
  outcome_of (Twitter.invoke (host_serving quiet_server tokens_env) None
                (Twitter.Unfollow_user "7")) host
  = Ok (VDict [("success", VBool true); ("following", VBool true)]).
Proof.
  assert (Me : forall hist req,
             is_me_request req = true ->
             server (host_serving quiet_server tokens_env) hist req
             = Responds identity_42)
    by (intros hist req I; simpl; unfold quiet_server; rewrite I; reflexivity).
  assert (Op : forall hist req,
             is_mutating req = true ->
             server (host_serving quiet_server tokens_env) hist req
             = Responds no_content).
  { intros hist req I. simpl. unfold quiet_server, is_me_request.
    unfold is_mutating in I. destruct (req_method req);
      [discriminate I | reflexivity | reflexivity]. }
  destruct (flag_tools_fall_back_to_default
              (host_serving quiet_server tokens_env) None (VStr "env-token")
              (Twitter.Unfollow_user "7") host "following" true
              identity_42 no_content
              [("data", VDict [("id", VStr "42")])] [("id", VStr "42")]
              [("success", VBool true)] "42"
              eq_refl eq_refl eq_refl Me eq_refl eq_refl eq_refl eq_refl
              Op eq_refl eq_refl) as (Default & _).
  exact (Default eq_refl).
Defined.

Lemma pass_through_sent (m : M Twitter.Client value) (w : world Twitter.Client) :
  sent (snd (Twitter.pass_through m w)) = sent (snd (m w)).
Proof.
  unfold Twitter.pass_through, bind, lift, ret.
  destruct (m w) as [[v|e] w']; [|reflexivity].
  destruct (contains "error" v) as [[|]|e]; reflexivity.
Qed.

Lemma twitter_tool_issued (h : Host) (credentials : option (string -> value))
      (token : value) (body : M Twitter.Client value) (w : world unit) :
  Twitter._get_token h credentials = Ok token ->
  truthy token = true ->
  issued (Twitter.tool h credentials body) w
  = issued body {| self := Twitter._TwitterClient token; sent := sent w |}.
Proof.
  intros T Tr. unfold issued.
  rewrite (twitter_tool_with_token h credentials token body w T Tr).
  rewrite on_client_sent, except_httpx_sent. reflexivity.
Qed.

Lemma post_tweet_run (h : Host) (text reply_to : string)
      (w : world Twitter.Client) :
  Twitter.post_tweet h text (str_or_none reply_to) w
  = (match server h (sent w) (post_tweet_request h (self w) text reply_to) with
     | Responds r => Twitter._handle_response h r
     | Fails e => Raise e
     end,
     {| self := self w;
        sent := sent w ++ [post_tweet_request h (self w) text reply_to] |}).
Proof.
  unfold Twitter.post_tweet, str_or_none, post_tweet_request.
  destruct (String.eqb reply_to "") eqn:R; cbv zeta; [|rewrite R];
    single_request; reflexivity.
Qed.

(** X13.  [twitter_post_tweet] sends one [POST /tweets] whose body is
    [{"text": text}], with a [reply] member only when [reply_to] is not empty.
    From an answer that is not an error it returns [success], [tweet_id] and
    [text], the last two read from [data] of the answer and [None] where the
    answer does not have them. *)
Theorem post_tweet_tool_request_and_result :
  forall (h : Host) (credentials : option (string -> value)) (token : value)
         (text reply_to : string) (w : world unit) (r : Response)
         (d : list (string * value)),
    Twitter._get_token h credentials = Ok token ->
    truthy token = true ->
    server h (sent w)
      (post_tweet_request h (Twitter._TwitterClient token) text reply_to)
    = Responds r ->
    Twitter._handle_response h r = Ok (VDict d) ->
    has_key "error" d = false ->
    issued (Twitter.invoke h credentials (Twitter.Post_tweet text reply_to)) w
    = [post_tweet_request h (Twitter._TwitterClient token) text reply_to]
    /\ (lookup "data" d = None ->
        outcome_of (Twitter.invoke h credentials (Twitter.Post_tweet text reply_to)) w
        = Ok (VDict [("success", VBool true); ("tweet_id", VNone);
                     ("text", VNone)]))
    /\ (forall data,
           lookup "data" d = Some (VDict data) ->
           outcome_of (Twitter.invoke h credentials (Twitter.Post_tweet text reply_to)) w
           = Ok (VDict [("success", VBool true);
                        ("tweet_id", or_else (lookup "id" data) VNone);
                        ("text", or_else (lookup "text" data) VNone)])).
Proof.
  intros h credentials token text reply_to w r d T Tr A H K.
  simpl Twitter.invoke. unfold Twitter.twitter_post_tweet.
  unfold outcome_of, issued.
  rewrite (twitter_tool_with_token h credentials token _ w T Tr).
  unfold on_client, except_httpx, bind, lift, ret.
  rewrite post_tweet_run. cbn [self sent]. rewrite A, H.
  cbn [contains]. rewrite K. cbn [get].
  split; [|split].
  - destruct (lookup "data" d) as [[]|]; simpl; apply skipn_app_exact.
  - intros D. rewrite D. reflexivity.
  - intros data D. rewrite D. reflexivity.
Qed.

Lemma post_tweet_tool_witness :
  issued (Twitter.invoke (host_answering a_posted tokens_env) None
            (Twitter.Post_tweet "hello" "77")) host
  = [post_tweet_request (host_answering a_posted tokens_env)
       (Twitter._TwitterClient (VStr "env-token")) "hello" "77"]
  /\ outcome_of (Twitter.invoke (host_answering a_posted tokens_env) None
                   (Twitter.Post_tweet "hello" "77")) host
     = Ok (VDict [("success", VBool true); ("tweet_id", VStr "1");
                  ("text", VStr "hello")]).
Proof.
  destruct (post_tweet_tool_request_and_result
              (host_answering a_posted tokens_env) None (VStr "env-token")
              "hello" "77" host a_posted
              [("data", VDict [("id", VStr "1"); ("text", VStr "hello")])]
              eq_refl eq_refl eq_refl eq_refl eq_refl) as (I & _ & R).
  split; [exact I|].
  exact (R [("id", VStr "1"); ("text", VStr "hello")] eq_refl).
Defined.

Lemma read_tool_is_exchange (h : Host) (c : Twitter.call)
      (w : world Twitter.Client) :
  passes_through c = true ->
  exists m req,
    (forall credentials,
        Twitter.invoke h credentials c
        = Twitter.tool h credentials (Twitter.pass_through m))
    /\ req_method req = GET
    /\ m w = (match server h (sent w) req with
              | Responds r => Twitter._handle_response h r
              | Fails e => Raise e
              end,
              {| self := self w; sent := sent w ++ [req] |}).
Proof.
  intros P. destruct c; try discriminate P; eexists; eexists;
    (split; [intros; reflexivity|]);
    unfold Twitter.get_tweet, Twitter.search_tweets, Twitter.get_user,
      Twitter.get_followers, Twitter.get_following, Twitter.get_user_tweets,
      Twitter.get_mentions; cbv zeta; rewrite bind_get_self;
    unfold httpx_get; rewrite one_request; (split; [|reflexivity]);
    reflexivity.
Qed.

(** X14.  The seven reading tools (tweet, search, user, followers, following,
    user tweets, mentions) send one [GET] and return what the response handler
    made of the answer, unchanged, whether it is an error result or the
    decoded body: no field is added, renamed or dropped. *)
Theorem reading_tools_return_handled_answer :
  forall (h : Host) (credentials : option (string -> value)) (token : value)
         (c : Twitter.call) (w : world unit) (r : Response)
         (d : list (string * value)),
    Twitter._get_token h credentials = Ok token ->
    truthy token = true ->
    passes_through c = true ->
    (forall req, server h (sent w) req = Responds r) ->
    Twitter._handle_response h r = Ok (VDict d) ->
    outcome_of (Twitter.invoke h credentials c) w = Ok (VDict d)
    /\ exists req,
         issued (Twitter.invoke h credentials c) w = [req]
         /\ req_method req = GET.
Proof.
  intros h credentials token c w r d T Tr P A H.
  destruct (read_tool_is_exchange h c
              {| self := Twitter._TwitterClient token; sent := sent w |} P)
    as (m & req & I & G & R).
  cbn [self sent] in R. rewrite (A req), H in R.
  rewrite I. split.
  - unfold outcome_of.
    rewrite (twitter_tool_with_token h credentials token _ w T Tr).
    unfold on_client, except_httpx, Twitter.pass_through, bind, lift, ret.
    rewrite R. cbn [contains]. destruct (has_key "error" d); reflexivity.
  - exists req. split; [|exact G].
    rewrite (twitter_tool_issued h credentials token _ w T Tr).
    unfold issued. rewrite pass_through_sent, R. simpl. apply skipn_app_exact.
Qed.

Lemma reading_tools_witness :
  outcome_of (Twitter.invoke (host_answering a_page tokens_env) None
                (Twitter.Get_followers "7" 100 "")) host
  = Ok (VDict [("data", VList [VDict [("id", VStr "1")]]);
               ("meta", VDict [("next_token", VStr "n1")])]).
Proof.
  exact (proj1 (reading_tools_return_handled_answer
                  (host_answering a_page tokens_env) None (VStr "env-token")
                  (Twitter.Get_followers "7" 100 "") host a_page _
                  eq_refl eq_refl eq_refl (fun _ => eq_refl) eq_refl)).
Defined.

Lemma lookup_dict_set (k : string) (v : value) (d : list (string * value)) :
  lookup k (dict_set k v d) = Some v.
Proof.
  induction d as [|[k' v'] d IH]; simpl.
  - rewrite String.eqb_refl. reflexivity.
  - destruct (String.eqb k k') eqn:E; simpl; rewrite ?String.eqb_refl, ?E; auto.
Qed.

Lemma page_token_in_params (p : string) (params : list (string * value)) :
  lookup "pagination_token" params = None ->
  lookup "pagination_token" (Twitter.with_pagination (str_or_none p) params)
  = if String.eqb p "" then None else Some (VStr p).
Proof.
  intros N. unfold Twitter.with_pagination, str_or_none.
  destruct (String.eqb p "") eqn:E; [exact N|].
  rewrite E. simpl negb. cbv iota. apply lookup_dict_set.
Qed.

(** X15.  The four paging tools (followers, following, user tweets, mentions)
    send one request, and it carries the [pagination_token] parameter exactly
    when the token given is not the empty string; the empty default asks for
    the first page with no such parameter at all. *)
Theorem page_token_sent_only_when_given :
  forall (h : Host) (credentials : option (string -> value)) (token : value)
         (c : Twitter.call) (p : string) (w : world unit),
    Twitter._get_token h credentials = Ok token ->
    truthy token = true ->
    page_token_given c = Some p ->
    exists req,
      issued (Twitter.invoke h credentials c) w = [req]
      /\ lookup "pagination_token" (req_params req)
         = if String.eqb p "" then None else Some (VStr p).
Proof.
  intros h credentials token c p w T Tr P.
  destruct c; inversion P; subst; simpl Twitter.invoke;
    unfold Twitter.twitter_get_followers, Twitter.twitter_get_following,
      Twitter.twitter_get_user_tweets, Twitter.twitter_get_mentions;
    rewrite (twitter_tool_issued h credentials token _ w T Tr);
    unfold issued; rewrite pass_through_sent;
    unfold Twitter.get_followers, Twitter.get_following,
      Twitter.get_user_tweets, Twitter.get_mentions; cbv zeta;
    rewrite bind_get_self; unfold httpx_get; rewrite one_request;
    eexists; (split; [simpl; apply skipn_app_exact|]);
    cbn [req_params]; apply page_token_in_params; reflexivity.
Qed.

Lemma page_token_witness :
  exists req,
    issued (Twitter.invoke (host_answering a_page tokens_env) None
              (Twitter.Get_mentions "7" 10 "n1" "created_at")) host = [req]
    /\ lookup "pagination_token" (req_params req) = Some (VStr "n1").
Proof.
  exact (page_token_sent_only_when_given
           (host_answering a_page tokens_env) None (VStr "env-token")
           (Twitter.Get_mentions "7" 10 "n1" "created_at") "n1" host
           eq_refl eq_refl eq_refl).
Defined.

(** ** Google Docs: what the tools send *)

Lemma except_json_sent {O} (m : M O value) (w : world O) :
  sent (snd (GoogleDocs.except_json m w)) = sent (snd (m w)).
Proof.
  unfold GoogleDocs.except_json. destruct (m w) as [[v|e] w']; [reflexivity|].
  destruct e; reflexivity.
Qed.

Lemma google_tool_issued (h : Host) (credentials : option (string -> value))
      (token : value) (body : M GoogleDocs.Client value) (w : world unit) :
  GoogleDocs._get_token h credentials = Ok token ->
  truthy token = true ->
  issued (GoogleDocs.tool h credentials body) w
  = issued body {| self := GoogleDocs._GoogleDocsClient token; sent := sent w |}.
Proof.
  intros T Tr. unfold issued.
  rewrite (google_tool_with_token h credentials token body w T Tr).
  rewrite on_client_sent. reflexivity.
Qed.

Lemma issued_except_httpx {O} (m : M O value) (w : world O) :
  issued (except_httpx m) w = issued m w.
Proof. unfold issued. rewrite except_httpx_sent. reflexivity. Qed.

Lemma insert_text_at_index_run (h : Host) (document_id text0 : string) (i : Z)
      (segment_id : option string) (w : world GoogleDocs.Client) :
  GoogleDocs.insert_text h document_id text0 (Some i) segment_id w
  = GoogleDocs.batch_update h document_id [insert_text_at segment_id i text0] w.
Proof.
  unfold GoogleDocs.insert_text. cbv beta iota zeta.
  rewrite insert_text_location. reflexivity.
Qed.

(** X16.  When an index is given, [insert_text] does not fetch the document:
    the only request is the [batchUpdate] that inserts the text at that index,
    whatever the index is (0 and negative numbers are passed on as given).
    [google_docs_insert_text] never names a segment. *)
Theorem insert_text_with_index_sends_one_update :
  forall (h : Host) (credentials : option (string -> value)) (token : value)
         (document_id text : string) (i : Z) (w : world unit),
    GoogleDocs._get_token h credentials = Ok token ->
    truthy token = true ->
    issued (GoogleDocs.invoke h credentials
              (GoogleDocs.Insert_text document_id text (Some i))) w
    = [update_request h (GoogleDocs._GoogleDocsClient token) document_id
         [insert_text_at None i text]]
    /\ forall (segment_id : option string) (wc : world GoogleDocs.Client),
         issued (GoogleDocs.insert_text h document_id text (Some i) segment_id) wc
         = [update_request h (self wc) document_id
              [insert_text_at segment_id i text]].
Proof.
  intros h credentials token document_id text i w T Tr.
  assert (C : forall segment_id (wc : world GoogleDocs.Client),
             issued (GoogleDocs.insert_text h document_id text (Some i)
                       segment_id) wc
             = [update_request h (self wc) document_id
                  [insert_text_at segment_id i text]]).
  { intros segment_id wc. unfold issued. rewrite insert_text_at_index_run.
    apply batch_update_issued. }
  split; [|exact C].
  simpl GoogleDocs.invoke. unfold GoogleDocs.google_docs_insert_text.
  rewrite (google_tool_issued h credentials token _ w T Tr).
  rewrite issued_except_httpx. apply C.
Qed.

Lemma insert_text_with_index_witness :
  issued (GoogleDocs.invoke (host_serving docs_server tokens_env) None
            (GoogleDocs.Insert_text "d" "hi" (Some 0))) host
  = [update_request (host_serving docs_server tokens_env)
       (GoogleDocs._GoogleDocsClient (VStr "env-token")) "d"
       [insert_text_at None 0 "hi"]].
Proof.
  exact (proj1 (insert_text_with_index_sends_one_update
                  (host_serving docs_server tokens_env) None (VStr "env-token")
                  "d" "hi" 0 host eq_refl eq_refl)).
Defined.

(** X17.  Appending to a document whose last content element is an object
    without [endIndex] inserts at index 0 (the default 1, minus 1).  When the
    last element is not an object, [insert_text] raises after the fetch and
    sends no update. *)
Theorem insert_text_at_end_without_end_index :
  forall (h : Host) (w w1 : world GoogleDocs.Client)
         (document_id text : string) (segment_id : option string)
         (doc body : list (string * value)) (first : value) (more : list value),
    GoogleDocs.get_document h document_id w = (Ok (VDict doc), w1) ->
    has_key "error" doc = false ->
    lookup "body" doc = Some (VDict body) ->
    lookup "content" body = Some (VList (first :: more)) ->
    (forall element,
        last (first :: more) VNone = VDict element ->
        lookup "endIndex" element = None ->
        GoogleDocs.insert_text h document_id text None segment_id w
        = GoogleDocs.batch_update h document_id
            [insert_text_at segment_id 0 text] w1)
    /\ (isinstance_dict (last (first :: more) VNone) = false ->
        exists e,
          GoogleDocs.insert_text h document_id text None segment_id w
          = (Raise e, w1)
          /\ issued (GoogleDocs.insert_text h document_id text None segment_id) w
             = [fetch_request h (self w) document_id]).
Proof.
  intros h w w1 document_id text segment_id doc body first more G K B C.
  assert (S : sent w1 = (sent w ++ [fetch_request h (self w) document_id])%list)
    by (rewrite get_document_run in G; inversion G; reflexivity).
  assert (E : forall v, last (first :: more) VNone = v ->
                        GoogleDocs.end_of_document (VDict doc)
                        = rbind (get v "endIndex" (VInt 1))
                            (fun end_index => sub end_index (VInt 1))).
  { intros v L. unfold GoogleDocs.end_of_document. cbn [get rbind].
    rewrite B. cbn [get rbind]. rewrite C. cbn [truthy]. unfold getitem_int.
    rewrite (seq_index_last first more VNone), L. reflexivity. }
  split.
  - intros element L N.
    unfold GoogleDocs.insert_text. cbv zeta. unfold bind at 1. rewrite G.
    unfold bind at 1, lift at 1. cbn [contains]. rewrite K.
    unfold bind at 1, lift at 1. rewrite (E _ L). cbn [get rbind].
    rewrite N. change (sub (VInt 1) (VInt 1)) with (Ok (VInt 0)).
    cbv beta iota. rewrite insert_text_location. reflexivity.
  - intros D.
    destruct (last (first :: more) VNone) as [| | | | | |element] eqn:L;
      try discriminate D;
      (eexists; split;
       [unfold GoogleDocs.insert_text; cbv zeta; unfold bind at 1; rewrite G;
        unfold bind at 1, lift at 1; cbn [contains]; rewrite K;
        unfold bind at 1, lift at 1; rewrite (E _ eq_refl); reflexivity
       |unfold issued, GoogleDocs.insert_text; cbv zeta; unfold bind at 1;
        rewrite G; unfold bind at 1, lift at 1; cbn [contains]; rewrite K;
        unfold bind at 1, lift at 1; rewrite (E _ eq_refl); simpl;
        rewrite S; apply skipn_app_exact]).
Qed.

Lemma insert_text_at_end_edge_witness :
  GoogleDocs.insert_text (host_answering (answer 200 "" (Ok an_open_document)) no_env)
    "d" "hi" None None a_docs_client
  = GoogleDocs.batch_update
      (host_answering (answer 200 "" (Ok an_open_document)) no_env) "d"
      [insert_text_at None 0 "hi"]
      {| self := self a_docs_client;
         sent := [fetch_request
                    (host_answering (answer 200 "" (Ok an_open_document)) no_env)
                    (self a_docs_client) "d"] |}.
Proof.
  destruct (insert_text_at_end_without_end_index
              (host_answering (answer 200 "" (Ok an_open_document)) no_env)
              a_docs_client
              {| self := self a_docs_client;
                 sent := [fetch_request
                            (host_answering (answer 200 "" (Ok an_open_document))
                               no_env)
                            (self a_docs_client) "d"] |}
              "d" "hi" None
              [("documentId", VStr "d");
               ("body", VDict [("content", VList [VDict [("startIndex", VInt 1)]])])]
              [("content", VList [VDict [("startIndex", VInt 1)]])]
              (VDict [("startIndex", VInt 1)]) []
              eq_refl eq_refl eq_refl eq_refl) as (Open & _).
  exact (Open [("startIndex", VInt 1)] eq_refl eq_refl).
Defined.

Lemma format_text_run (h : Host) (document_id : string)
      (start_index end_index : Z) (bold italic underline : option bool)
      (font_size_pt : option float) (foreground_color : option value)
      (w : world GoogleDocs.Client) :
  GoogleDocs.format_text h document_id start_index end_index bold italic
    underline font_size_pt foreground_color w
  = match text_style_given bold italic underline font_size_pt foreground_color with
    | [] => (Ok (error_result "No formatting options specified"), w)
    | text_style =>
        GoogleDocs.batch_update h document_id
          [style_request start_index end_index text_style] w
    end.
Proof.
  destruct bold, italic, underline, font_size_pt, foreground_color; reflexivity.
Qed.

(** X18.  [google_docs_format_text] sets in [textStyle] the options that are
    given, in the order bold, italic, underline, fontSize, foregroundColor, and
    the [fields] mask of the request names exactly the keys of that style; the
    colour is set as soon as one of its three components is given, with 0.0
    for the others.  With no option at all the tool returns
    [{"error": "No formatting options specified"}] and sends nothing. *)
Theorem format_text_mask_names_the_style :
  forall (h : Host) (credentials : option (string -> value)) (token : value)
         (document_id : string) (start_index end_index : Z)
         (bold italic underline : option bool) (font_size_pt : option float)
         (red green blue : option float) (w : world unit),
    GoogleDocs._get_token h credentials = Ok token ->
    truthy token = true ->
    let c := GoogleDocs.Format_text document_id start_index end_index bold
               italic underline font_size_pt red green blue in
    let text_style := text_style_given bold italic underline font_size_pt
                        (rgb_given red green blue) in
    (text_style = [] ->
     outcome_of (GoogleDocs.invoke h credentials c) w
     = Ok (error_result "No formatting options specified")
     /\ issued (GoogleDocs.invoke h credentials c) w = [])
    /\ (text_style <> [] ->
        issued (GoogleDocs.invoke h credentials c) w
        = [update_request h (GoogleDocs._GoogleDocsClient token) document_id
             [style_request start_index end_index text_style]]).
Proof.
  intros h credentials token document_id start_index end_index bold italic
         underline font_size_pt red green blue w T Tr c text_style.
  subst c. simpl GoogleDocs.invoke. unfold GoogleDocs.google_docs_format_text.
  cbv zeta. fold (rgb_given red green blue).
  set (w0 := {| self := GoogleDocs._GoogleDocsClient token; sent := sent w |}).
  pose proof (format_text_run h document_id start_index end_index bold italic
                underline font_size_pt (rgb_given red green blue) w0) as R.
  fold text_style in R.
  split.
  - intros E. rewrite E in R. split.
    + unfold outcome_of.
      rewrite (google_tool_with_token h credentials token _ w T Tr).
      unfold on_client, except_httpx. fold w0. rewrite R. reflexivity.
    + rewrite (google_tool_issued h credentials token _ w T Tr).
      rewrite issued_except_httpx. fold w0.
      apply (nothing_issued _ w0 _ R).
  - intros N.
    rewrite (google_tool_issued h credentials token _ w T Tr).
    rewrite issued_except_httpx. fold w0. unfold issued. rewrite R.
    destruct text_style as [|entry rest]; [contradiction|].
    apply batch_update_issued.
Qed.

Lemma format_text_mask_witness :
  issued (GoogleDocs.invoke (host_serving docs_server tokens_env) None
            (GoogleDocs.Format_text "d" 1 5 (Some true) None (Some false) None
               None (Some 1%float) None)) host
  = [update_request (host_serving docs_server tokens_env)
       (GoogleDocs._GoogleDocsClient (VStr "env-token")) "d"
       [VDict [("updateTextStyle",
                VDict [("range", VDict [("startIndex", VInt 1);
                                        ("endIndex", VInt 5)]);
                       ("textStyle",
                        VDict [("bold", VBool true);
                               ("underline", VBool false);
                               ("foregroundColor",
                                VDict [("color",
                                        VDict [("rgbColor",
                                                VDict [("red", VFloat 0%float);
                                                       ("green", VFloat 1%float);
                                                       ("blue", VFloat 0%float)])])])]);
                       ("fields", VStr "bold,underline,foregroundColor")])]]].
Proof.
  destruct (format_text_mask_names_the_style
              (host_serving docs_server tokens_env) None (VStr "env-token")
              "d" 1 5 (Some true) None (Some false) None None (Some 1%float) None
              host eq_refl eq_refl) as (_ & Styled).
  apply Styled. discriminate.
Defined.

Lemma preset_of_list_type (list_type : string) :
  GoogleDocs.bullet_presets (lower list_type)
  = if String.eqb (lower list_type) "numbered"
    then "NUMBERED_DECIMAL_ALPHA_ROMAN" else "BULLET_DISC_CIRCLE_SQUARE".
Proof.
  unfold GoogleDocs.bullet_presets.
  destruct (String.eqb (lower list_type) "bullet") eqn:B; [|reflexivity].
  apply String.eqb_eq in B. rewrite B. reflexivity.
Qed.

(** X19.  [google_docs_create_list] never rejects a list type: it sends one
    [createParagraphBullets] request whose preset is the numbered one when the
    type, in any letter case, is [numbered], and the bullet one for every other
    text. *)
Theorem create_list_preset_is_total :
  forall (h : Host) (credentials : option (string -> value)) (token : value)
         (document_id : string) (start_index end_index : Z)
         (list_type : string) (w : world unit),
    GoogleDocs._get_token h credentials = Ok token ->
    truthy token = true ->
    issued (GoogleDocs.invoke h credentials
              (GoogleDocs.Create_list document_id start_index end_index
                 list_type)) w
    = [update_request h (GoogleDocs._GoogleDocsClient token) document_id
         [bullets_request start_index end_index
            (if String.eqb (lower list_type) "numbered"
             then "NUMBERED_DECIMAL_ALPHA_ROMAN"
             else "BULLET_DISC_CIRCLE_SQUARE")]].
Proof.
  intros h credentials token document_id start_index end_index list_type w T Tr.
  simpl GoogleDocs.invoke. unfold GoogleDocs.google_docs_create_list.
  cbv zeta. rewrite (google_tool_issued h credentials token _ w T Tr).
  rewrite issued_except_httpx, preset_of_list_type.
  unfold GoogleDocs.create_list. cbv zeta. apply batch_update_issued.
Qed.

Lemma create_list_preset_witness :
  issued (GoogleDocs.invoke (host_serving docs_server tokens_env) None
            (GoogleDocs.Create_list "d" 1 9 "Numbered")) host
  = [update_request (host_serving docs_server tokens_env)
       (GoogleDocs._GoogleDocsClient (VStr "env-token")) "d"
       [bullets_request 1 9 "NUMBERED_DECIMAL_ALPHA_ROMAN"]]
  /\ issued (GoogleDocs.invoke (host_serving docs_server tokens_env) None
               (GoogleDocs.Create_list "d" 1 9 "checklist")) host
     = [update_request (host_serving docs_server tokens_env)
          (GoogleDocs._GoogleDocsClient (VStr "env-token")) "d"
          [bullets_request 1 9 "BULLET_DISC_CIRCLE_SQUARE"]].
Proof.
  split.
  - exact (create_list_preset_is_total
             (host_serving docs_server tokens_env) None (VStr "env-token")
             "d" 1 9 "Numbered" host eq_refl eq_refl).
  - exact (create_list_preset_is_total
             (host_serving docs_server tokens_env) None (VStr "env-token")
             "d" 1 9 "checklist" host eq_refl eq_refl).
Defined.

Lemma export_document_run_at (h : Host) (document_id mime_type : string)
      (w : world GoogleDocs.Client) :
  GoogleDocs.export_document h document_id mime_type w
  = (match server h (sent w) (export_request h (self w) document_id mime_type) with
     | Responds r =>
         if status_code r =? 200
         then Ok (VDict [("document_id", VStr document_id);
                         ("mime_type", VStr mime_type);
                         ("content_base64", VStr (b64encode h (content r)));
                         ("size_bytes",
                          VInt (Z.of_nat (String.length (content r))))])
         else GoogleDocs._handle_response h r
     | Fails e => Raise e
     end,
     {| self := self w;
        sent := sent w ++ [export_request h (self w) document_id mime_type] |}).
Proof.
  unfold GoogleDocs.export_document. rewrite bind_get_self.
  unfold httpx_get, bind, httpx_request, lift, ret, export_request.
  destruct (server h (sent w) _) as [r|e]; [|reflexivity].
  destruct (status_code r =? 200); reflexivity.
Qed.

Lemma unknown_format_is_pdf (format : string) :
  known_format format = false ->
  GoogleDocs.mime_types format = "application/pdf".
Proof.
  unfold known_format, GoogleDocs.mime_types. cbn [existsb].
  destruct (String.eqb format "pdf"); [reflexivity|].
  destruct (String.eqb format "docx"); [discriminate|].
  destruct (String.eqb format "txt"); [discriminate|].
  destruct (String.eqb format "html"); [discriminate|].
  destruct (String.eqb format "odt"); [discriminate|].
  destruct (String.eqb format "rtf"); [discriminate|].
  destruct (String.eqb format "epub"); [discriminate|reflexivity].
Qed.

(** X20.  [google_docs_export_content] sends one [GET .../export] with the
    MIME type of the format (a format it does not know is exported as PDF) and
    a timeout of 60.  An answer with status 200 is never decoded as JSON: the
    result holds the document id, the MIME type, the content in base 64 and
    its length as [size_bytes]. *)
Theorem export_content_of_200 :
  forall (h : Host) (credentials : option (string -> value)) (token : value)
         (document_id format : string) (w : world unit) (r : Response),
    GoogleDocs._get_token h credentials = Ok token ->
    truthy token = true ->
    server h (sent w)
      (export_request h (GoogleDocs._GoogleDocsClient token) document_id
         (GoogleDocs.mime_types (lower format)))
    = Responds r ->
    status_code r = 200 ->
    outcome_of (GoogleDocs.invoke h credentials
                  (GoogleDocs.Export_content document_id format)) w
    = Ok (VDict [("document_id", VStr document_id);
                 ("mime_type", VStr (GoogleDocs.mime_types (lower format)));
                 ("content_base64", VStr (b64encode h (content r)));
                 ("size_bytes", VInt (Z.of_nat (String.length (content r))))])
    /\ issued (GoogleDocs.invoke h credentials
                 (GoogleDocs.Export_content document_id format)) w
       = [export_request h (GoogleDocs._GoogleDocsClient token) document_id
            (GoogleDocs.mime_types (lower format))]
    /\ (known_format (lower format) = false ->
        GoogleDocs.mime_types (lower format) = "application/pdf").
Proof.
  intros h credentials token document_id format w r T Tr A S.
  simpl GoogleDocs.invoke. unfold GoogleDocs.google_docs_export_content.
  cbv zeta. split; [|split].
  - unfold outcome_of.
    rewrite (google_tool_with_token h credentials token _ w T Tr).
    unfold on_client, except_httpx. rewrite export_document_run_at.
    cbn [self sent]. rewrite A, S. reflexivity.
  - rewrite (google_tool_issued h credentials token _ w T Tr).
    rewrite issued_except_httpx. unfold issued.
    rewrite export_document_run_at. simpl. apply skipn_app_exact.
  - apply unknown_format_is_pdf.
Qed.

Lemma export_content_witness :
  outcome_of (GoogleDocs.invoke (host_answering a_file tokens_env) None
                (GoogleDocs.Export_content "d" "markdown")) host
  = Ok (VDict [("document_id", VStr "d");
               ("mime_type", VStr "application/pdf");
               ("content_base64", VStr "%PDF-1.7");
               ("size_bytes", VInt 8)]).
Proof.
  exact (proj1 (export_content_of_200
                  (host_answering a_file tokens_env) None (VStr "env-token")
                  "d" "markdown" host a_file eq_refl eq_refl eq_refl eq_refl)).
Defined.

(** ** Google Docs: what the tools make of an answer *)

Lemma count_occurrences_total (replies : list value) :
  forall n k,
    total_changed replies = Some n ->
    GoogleDocs.count_occurrences replies (VInt k) = Ok (VInt (k + n)).
Proof.
  induction replies as [|reply rest IH]; intros n k E.
  - inversion E. simpl. rewrite Z.add_0_r. reflexivity.
  - cbn [total_changed] in E.
    destruct (occurrences_changed reply) as [c|] eqn:C; [|discriminate E].
    destruct (total_changed rest) as [t|]; [|discriminate E].
    inversion E; subst n. cbn [GoogleDocs.count_occurrences].
    assert (Step : rbind (get reply "replaceAllText" (VDict []))
                     (fun replace_reply =>
                        get replace_reply "occurrencesChanged" (VInt 0))
                   = Ok (VInt c)).
    { unfold occurrences_changed in C.
      destruct reply as [| | | | | |r]; try discriminate C. cbn [get rbind].
      destruct (lookup "replaceAllText" r) as [replaced|].
      - destruct replaced as [| | | | | |x]; try discriminate C.
        cbn [get]. destruct (lookup "occurrencesChanged" x) as [v|].
        + destruct v; try discriminate C. inversion C. reflexivity.
        + inversion C. reflexivity.
      - inversion C. reflexivity. }
    destruct (get reply "replaceAllText" (VDict [])) as [replace_reply|e];
      [|discriminate Step].
    cbn [rbind] in *. rewrite Step. cbn [rbind].
    change (add (VInt k) (VInt c)) with (Ok (VInt (k + c))). cbn [rbind].
    rewrite (IH t (k + c) eq_refl). rewrite Z.add_assoc. reflexivity.
Qed.

(** X21.  [google_docs_replace_all_text] sends one [replaceAllText] request
    and reports as [occurrences_replaced] the sum of the [occurrencesChanged]
    counts of the replies, counting 0 for a reply without one; an answer with
    no [replies] gives 0. *)
Theorem replace_all_text_counts_occurrences :
  forall (h : Host) (credentials : option (string -> value)) (token : value)
         (document_id find_text replace_text : string) (match_case : bool)
         (w : world unit) (r : Response) (d : list (string * value)),
    GoogleDocs._get_token h credentials = Ok token ->
    truthy token = true ->
    server h (sent w)
      (update_request h (GoogleDocs._GoogleDocsClient token) document_id
         [replace_request find_text replace_text match_case])
    = Responds r ->
    GoogleDocs._handle_response h r = Ok (VDict d) ->
    has_key "error" d = false ->
    let c := GoogleDocs.Replace_all_text document_id find_text replace_text
               match_case in
    let result (n : Z) :=
      Ok (VDict [("document_id", VStr document_id);
                 ("find_text", VStr find_text);
                 ("replace_text", VStr replace_text);
                 ("occurrences_replaced", VInt n)]) in
    issued (GoogleDocs.invoke h credentials c) w
    = [update_request h (GoogleDocs._GoogleDocsClient token) document_id
         [replace_request find_text replace_text match_case]]
    /\ (lookup "replies" d = None ->
        outcome_of (GoogleDocs.invoke h credentials c) w = result 0)
    /\ (forall replies n,
           lookup "replies" d = Some (VList replies) ->
           total_changed replies = Some n ->
           outcome_of (GoogleDocs.invoke h credentials c) w = result n).
Proof.
  intros h credentials token document_id find_text replace_text match_case w r d
         T Tr A H K c result.
  subst c result. simpl GoogleDocs.invoke.
  unfold GoogleDocs.google_docs_replace_all_text.
  set (w0 := {| self := GoogleDocs._GoogleDocsClient token; sent := sent w |}).
  assert (R : GoogleDocs.replace_all_text h document_id find_text replace_text
                match_case w0
              = (Ok (VDict d),
                 {| self := self w0;
                    sent := sent w0
                            ++ [update_request h (self w0) document_id
                                  [replace_request find_text replace_text
                                     match_case]] |})).
  { unfold GoogleDocs.replace_all_text. cbv zeta.
    fold (replace_request find_text replace_text match_case).
    rewrite batch_update_run. cbn [self sent w0]. rewrite A, H. reflexivity. }
  split; [|split].
  - rewrite (google_tool_issued h credentials token _ w T Tr).
    rewrite issued_except_httpx. fold w0. unfold issued, bind, lift, ret.
    rewrite R. cbn [contains]. rewrite K. cbn [negb get].
    destruct (iter _) as [items|e]; [|simpl; apply skipn_app_exact].
    destruct (GoogleDocs.count_occurrences items (VInt 0));
      simpl; apply skipn_app_exact.
  - intros N. unfold outcome_of.
    rewrite (google_tool_with_token h credentials token _ w T Tr).
    unfold on_client, except_httpx, bind, lift, ret. fold w0.
    rewrite R. cbn [contains]. rewrite K. cbn [negb get]. rewrite N.
    reflexivity.
  - intros replies n L E. unfold outcome_of.
    rewrite (google_tool_with_token h credentials token _ w T Tr).
    unfold on_client, except_httpx, bind, lift, ret. fold w0.
    rewrite R. cbn [contains]. rewrite K. cbn [negb get]. rewrite L.
    cbn [iter]. rewrite (count_occurrences_total replies n 0 E). reflexivity.
Qed.

Lemma replace_all_text_witness :
  outcome_of (GoogleDocs.invoke (host_answering two_replaced tokens_env) None
                (GoogleDocs.Replace_all_text "d" "{{Name}}" "Ada" true)) host
  = Ok (VDict [("document_id", VStr "d");
               ("find_text", VStr "{{Name}}");
               ("replace_text", VStr "Ada");
               ("occurrences_replaced", VInt 2)]).
Proof.
  destruct (replace_all_text_counts_occurrences
              (host_answering two_replaced tokens_env) None (VStr "env-token")
              "d" "{{Name}}" "Ada" true host two_replaced
              [("documentId", VStr "d");
               ("replies",
                VList [VDict [("replaceAllText",
                               VDict [("occurrencesChanged", VInt 2)])]])]
              eq_refl eq_refl eq_refl eq_refl eq_refl) as (_ & _ & Counted).
  exact (Counted _ 2 eq_refl eq_refl).
Defined.

(** X22.  [google_docs_create_document] sends one [POST /documents] with the
    title and, from an answer that is not an error, returns the document's id
    and title and a [document_url] built from the id; when the answer has no
    [documentId] the id is [None] and the URL reads [/d/None/edit]. *)
Theorem create_document_result_and_url :
  forall (h : Host) (credentials : option (string -> value)) (token : value)
         (title : string) (w : world unit) (r : Response)
         (d : list (string * value)),
    GoogleDocs._get_token h credentials = Ok token ->
    truthy token = true ->
    server h (sent w)
      (create_request h (GoogleDocs._GoogleDocsClient token) title)
    = Responds r ->
    GoogleDocs._handle_response h r = Ok (VDict d) ->
    has_key "error" d = false ->
    let c := GoogleDocs.Create_document title in
    issued (GoogleDocs.invoke h credentials c) w
    = [create_request h (GoogleDocs._GoogleDocsClient token) title]
    /\ outcome_of (GoogleDocs.invoke h credentials c) w
       = Ok (VDict [("document_id", or_else (lookup "documentId" d) VNone);
                    ("title", or_else (lookup "title" d) VNone);
                    ("document_url",
                     VStr ("https://docs.google.com/document/d/"
                           ++ GoogleDocs.fstr h
                                (or_else (lookup "documentId" d) VNone)
                           ++ "/edit"))])
    /\ (lookup "documentId" d = None ->
        outcome_of (GoogleDocs.invoke h credentials c) w
        = Ok (VDict [("document_id", VNone);
                     ("title", or_else (lookup "title" d) VNone);
                     ("document_url",
                      VStr "https://docs.google.com/document/d/None/edit")])).
Proof.
  intros h credentials token title w r d T Tr A H K c. subst c.
  simpl GoogleDocs.invoke. unfold GoogleDocs.google_docs_create_document.
  set (w0 := {| self := GoogleDocs._GoogleDocsClient token; sent := sent w |}).
  assert (R : GoogleDocs.create_document h title w0
              = (Ok (VDict d),
                 {| self := self w0;
                    sent := sent w0 ++ [create_request h (self w0) title] |})).
  { unfold GoogleDocs.create_document. single_request.
    fold (create_request h (self w0) title). cbn [self sent w0].
    rewrite A, H. reflexivity. }
  assert (O : outcome_of
                (GoogleDocs.tool h credentials
                   (except_httpx
                      (result <- GoogleDocs.create_document h title ;;
                       is_err <- lift (contains "error" result) ;;
                       if negb is_err then
                         document_id <- lift (get result "documentId" VNone) ;;
                         title' <- lift (get result "title" VNone) ;;
                         document_id' <- lift (get result "documentId" VNone) ;;
                         ret (VDict [("document_id", document_id);
                                     ("title", title');
                                     ("document_url",
                                      VStr ("https://docs.google.com/document/d/"
                                            ++ GoogleDocs.fstr h document_id'
                                            ++ "/edit"))])
                       else ret result))) w
              = Ok (VDict [("document_id", or_else (lookup "documentId" d) VNone);
                           ("title", or_else (lookup "title" d) VNone);
                           ("document_url",
                            VStr ("https://docs.google.com/document/d/"
                                  ++ GoogleDocs.fstr h
                                       (or_else (lookup "documentId" d) VNone)
                                  ++ "/edit"))])).
  { unfold outcome_of.
    rewrite (google_tool_with_token h credentials token _ w T Tr).
    unfold on_client, except_httpx, bind, lift, ret. fold w0.
    rewrite R. cbn [contains]. rewrite K. reflexivity. }
  split; [|split].
  - rewrite (google_tool_issued h credentials token _ w T Tr).
    rewrite issued_except_httpx. fold w0. unfold issued, bind, lift, ret.
    rewrite R. cbn [contains]. rewrite K. simpl. apply skipn_app_exact.
  - exact O.
  - intros N. rewrite O, N. reflexivity.
Qed.

Lemma create_document_witness :
  outcome_of (GoogleDocs.invoke (host_answering a_created tokens_env) None
                (GoogleDocs.Create_document "T")) host
  = Ok (VDict [("document_id", VStr "d1");
               ("title", VStr "T");
               ("document_url",
                VStr "https://docs.google.com/document/d/d1/edit")])
  /\ outcome_of (GoogleDocs.invoke (host_answering an_unnamed tokens_env) None
                   (GoogleDocs.Create_document "T")) host
     = Ok (VDict [("document_id", VNone);
                  ("title", VNone);
                  ("document_url",
                   VStr "https://docs.google.com/document/d/None/edit")]).
Proof.
  split.
  - destruct (create_document_result_and_url
                (host_answering a_created tokens_env) None (VStr "env-token")
                "T" host a_created
                [("documentId", VStr "d1"); ("title", VStr "T")]
                eq_refl eq_refl eq_refl eq_refl eq_refl) as (_ & Made & _).
    exact Made.
  - destruct (create_document_result_and_url
                (host_answering an_unnamed tokens_env) None (VStr "env-token")
                "T" host an_unnamed [] eq_refl eq_refl eq_refl eq_refl eq_refl)
      as (_ & _ & Unnamed).
    exact (Unnamed eq_refl).
Defined.

Lemma batch_update_tool_run (h : Host) (credentials : option (string -> value))
      (token : value) (document_id requests_json : string) (w : world unit) :
  GoogleDocs._get_token h credentials = Ok token ->
  truthy token = true ->
  GoogleDocs.invoke h credentials
    (GoogleDocs.Batch_update document_id requests_json) w
  = on_client (GoogleDocs._GoogleDocsClient token)
      (GoogleDocs.except_json
         (except_httpx
            (requests <- lift (json_loads h requests_json) ;;
             match requests with
             | VList requests => GoogleDocs.batch_update h document_id requests
             | _ =>
                 ret (VDict [("error",
                              VStr "requests_json must be a JSON array of request objects")])
             end))) w.
Proof.
  intros T Tr. simpl GoogleDocs.invoke. unfold GoogleDocs.google_docs_batch_update.
  apply (google_tool_with_token h credentials token _ w T Tr).
Qed.

(** X23.  [google_docs_batch_update] checks its text before it sends anything:
    text that is not JSON gives [{"error": "Invalid JSON: ..."}] and JSON that
    is not an array gives the "must be a JSON array" error, both without a
    request.  An array is sent as it is, as the [requests] of one
    [batchUpdate].  A success answer whose body is not JSON is reported as
    "Invalid JSON" too. *)
Theorem batch_update_tool_checks_input :
  forall (h : Host) (credentials : option (string -> value)) (token : value)
         (document_id requests_json : string) (w : world unit),
    GoogleDocs._get_token h credentials = Ok token ->
    truthy token = true ->
    let c := GoogleDocs.Batch_update document_id requests_json in
    let client := GoogleDocs._GoogleDocsClient token in
    (forall msg,
        json_loads h requests_json = Raise (JSONDecodeError msg) ->
        outcome_of (GoogleDocs.invoke h credentials c) w
        = Ok (error_result ("Invalid JSON: " ++ msg))
        /\ issued (GoogleDocs.invoke h credentials c) w = [])
    /\ (forall v,
           json_loads h requests_json = Ok v ->
           (forall requests, v <> VList requests) ->
           outcome_of (GoogleDocs.invoke h credentials c) w
           = Ok (error_result
                   "requests_json must be a JSON array of request objects")
           /\ issued (GoogleDocs.invoke h credentials c) w = [])
    /\ (forall requests,
           json_loads h requests_json = Ok (VList requests) ->
           issued (GoogleDocs.invoke h credentials c) w
           = [update_request h client document_id requests]
           /\ (forall r,
                  server h (sent w)
                    (update_request h client document_id requests)
                  = Responds r ->
                  (forall v, GoogleDocs._handle_response h r = Ok v ->
                             outcome_of (GoogleDocs.invoke h credentials c) w
                             = Ok v)
                  /\ (forall msg,
                         GoogleDocs._handle_response h r
                         = Raise (JSONDecodeError msg) ->
                         outcome_of (GoogleDocs.invoke h credentials c) w
                         = Ok (error_result ("Invalid JSON: " ++ msg))))).
Proof.
  intros h credentials token document_id requests_json w T Tr c client.
  subst c client. unfold outcome_of, issued.
  rewrite (batch_update_tool_run h credentials token document_id requests_json
             w T Tr).
  unfold on_client, GoogleDocs.except_json, except_httpx, bind, lift, ret.
  cbn [self sent].
  split; [|split].
  - intros msg E. rewrite E. simpl. split; [reflexivity | apply skipn_all_sent].
  - intros v E N. rewrite E.
    destruct v; try (simpl; split; [reflexivity | apply skipn_all_sent]).
    exfalso. eapply N. reflexivity.
  - intros requests E. rewrite E. rewrite batch_update_run. cbn [self sent].
    split.
    + destruct (server h (sent w) _) as [r|e].
      * destruct (GoogleDocs._handle_response h r) as [v|e];
          [|destruct e]; simpl; apply skipn_app_exact.
      * destruct e; simpl; apply skipn_app_exact.
    + intros r A. rewrite A. split.
      * intros v H. rewrite H. reflexivity.
      * intros msg H. rewrite H. reflexivity.
Qed.

Lemma batch_update_tool_witness :
  (outcome_of (GoogleDocs.invoke (host_decoding_arrays a_file)
                 (store_with (VStr "t")) (GoogleDocs.Batch_update "d" "[oops")) host
   = Ok (error_result "Invalid JSON: Expecting value: line 1 column 1 (char 0)")
   /\ issued (GoogleDocs.invoke (host_decoding_arrays a_file)
                (store_with (VStr "t")) (GoogleDocs.Batch_update "d" "[oops")) host
      = [])
  /\ (outcome_of (GoogleDocs.invoke (host_decoding_arrays a_file)
                    (store_with (VStr "t")) (GoogleDocs.Batch_update "d" "7")) host
      = Ok (error_result "requests_json must be a JSON array of request objects")
      /\ issued (GoogleDocs.invoke (host_decoding_arrays a_file)
                   (store_with (VStr "t")) (GoogleDocs.Batch_update "d" "7")) host
         = [])
  /\ outcome_of (GoogleDocs.invoke (host_decoding_arrays a_file)
                   (store_with (VStr "t")) (GoogleDocs.Batch_update "d" "[]")) host
     = Ok (error_result "Invalid JSON: Expecting value: line 1 column 1 (char 0)").
Proof.
  split; [|split].
  - destruct (batch_update_tool_checks_input
                (host_decoding_arrays a_file) (store_with (VStr "t")) (VStr "t")
                "d" "[oops" host eq_refl eq_refl) as (Bad & _).
    exact (Bad _ eq_refl).
  - destruct (batch_update_tool_checks_input
                (host_decoding_arrays a_file) (store_with (VStr "t")) (VStr "t")
                "d" "7" host eq_refl eq_refl) as (_ & Scalar & _).
    apply (Scalar (VInt 7) eq_refl). intros requests. discriminate.
  - destruct (batch_update_tool_checks_input
                (host_decoding_arrays a_file) (store_with (VStr "t")) (VStr "t")
                "d" "[]" host eq_refl eq_refl) as (_ & _ & Sent).
    destruct (Sent [] eq_refl) as (_ & Answered).
    destruct (Answered a_file eq_refl) as (_ & Undecodable).
    exact (Undecodable _ eq_refl).
Defined.

(** X24.  The service-account text is only expected to be a JSON object: when
    it decodes to anything else (an array, a string, a number), reading its
    [access_token] fails and the tool call raises an [AttributeError] instead
    of returning a result; nothing is sent. *)
Theorem service_account_must_be_an_object :
  forall (h : Host) (c : GoogleDocs.call) (w : world unit) (sa : string)
         (v : value),
    getenv h "GOOGLE_DOCS_ACCESS_TOKEN" = None
    \/ getenv h "GOOGLE_DOCS_ACCESS_TOKEN" = Some "" ->
    getenv h "GOOGLE_SERVICE_ACCOUNT_JSON" = Some sa ->
    sa <> "" ->
    json_loads h sa = Ok v ->
    isinstance_dict v = false ->
    exists msg,
      GoogleDocs.invoke h None c w = (Raise (AttributeError msg), w).
Proof.
  intros h c w sa v E S N L D.
  assert (T : exists msg,
             GoogleDocs._get_token h None = Raise (AttributeError msg)).
  { unfold GoogleDocs._get_token, GoogleDocs.os_getenv.
    apply String.eqb_neq in N.
    destruct E as [E|E]; rewrite E; cbn [truthy String.eqb negb]; rewrite S;
      cbn [truthy]; rewrite N; cbn [negb]; rewrite L; cbn [rbind];
      destruct v; try discriminate D; eexists; reflexivity. }
  destruct T as [msg T]. exists msg.
  destruct c; simpl GoogleDocs.invoke;
    unfold GoogleDocs.google_docs_create_document,
      GoogleDocs.google_docs_get_document, GoogleDocs.google_docs_insert_text,
      GoogleDocs.google_docs_replace_all_text,
      GoogleDocs.google_docs_insert_image, GoogleDocs.google_docs_format_text,
      GoogleDocs.google_docs_batch_update, GoogleDocs.google_docs_create_list,
      GoogleDocs.google_docs_add_comment, GoogleDocs.google_docs_export_content,
      GoogleDocs.tool, GoogleDocs._get_client, bind, lift;
    rewrite T; reflexivity.
Qed.

Lemma service_account_object_witness :
  exists msg,
    GoogleDocs.invoke (host_decoding_arrays a_file) None
      (GoogleDocs.Get_document "d") host
    = (Raise (AttributeError msg), host).
Proof.
  apply (service_account_must_be_an_object
           (host_decoding_arrays a_file) (GoogleDocs.Get_document "d") host
           "[]" (VList [])); try reflexivity.
  - left. reflexivity.
  - discriminate.
Defined.

(** X25.  The two tables of credentials list exactly the tools that
    [register_tools] registers: every Twitter and Google Docs tool is named in
    its [CredentialSpec], and every name in a spec's [tools] is the name of a
    registered tool. *)
Theorem credential_specs_list_the_registered_tools :
  (forall c : Twitter.call,
      In (twitter_tool_name c) (Credentials.tools Credentials.twitter))
  /\ (forall c : GoogleDocs.call,
         In (docs_tool_name c) (Credentials.tools Credentials.google_docs))
  /\ (forall name,
         In name (Credentials.tools Credentials.twitter) ->
         exists c, twitter_tool_name c = name)
  /\ (forall name,
         In name (Credentials.tools Credentials.google_docs) ->
         exists c, docs_tool_name c = name).
Proof.
  split; [|split; [|split]].
  - intros c. destruct c; simpl; tauto.
  - intros c. destruct c; simpl; tauto.
  - intros name I. simpl in I.
    repeat (destruct I as [<- | I];
            [first
               [ exists (Twitter.Post_tweet "" ""); reflexivity
               | exists (Twitter.Delete_tweet ""); reflexivity
               | exists (Twitter.Get_tweet "" ""); reflexivity
               | exists (Twitter.Search_tweets "" 0 ""); reflexivity
               | exists (Twitter.Like_tweet ""); reflexivity
               | exists (Twitter.Unlike_tweet ""); reflexivity
               | exists (Twitter.Retweet ""); reflexivity
               | exists (Twitter.Undo_retweet ""); reflexivity
               | exists (Twitter.Get_user ""); reflexivity
               | exists (Twitter.Follow_user ""); reflexivity
               | exists (Twitter.Unfollow_user ""); reflexivity
               | exists (Twitter.Get_followers "" 0 ""); reflexivity
               | exists (Twitter.Get_following "" 0 ""); reflexivity
               | exists (Twitter.Get_user_tweets "" 0 "" ""); reflexivity
               | exists (Twitter.Get_mentions "" 0 "" ""); reflexivity ]
            |]).
    contradiction.
  - intros name I. simpl in I.
    repeat (destruct I as [<- | I];
            [first
               [ exists (GoogleDocs.Create_document ""); reflexivity
               | exists (GoogleDocs.Get_document ""); reflexivity
               | exists (GoogleDocs.Insert_text "" "" None); reflexivity
               | exists (GoogleDocs.Replace_all_text "" "" "" true); reflexivity
               | exists (GoogleDocs.Insert_image "" "" 0 None None); reflexivity
               | exists (GoogleDocs.Format_text "" 0 0 None None None None None
                           None None); reflexivity
               | exists (GoogleDocs.Batch_update "" ""); reflexivity
               | exists (GoogleDocs.Create_list "" 0 0 ""); reflexivity
               | exists (GoogleDocs.Add_comment "" "" None); reflexivity
               | exists (GoogleDocs.Export_content "" ""); reflexivity ]
            |]).
    contradiction.
Qed.

Lemma credential_specs_witness :
  exists c, twitter_tool_name c = "twitter_undo_retweet".
Proof.
  destruct credential_specs_list_the_registered_tools as (_ & _ & Listed & _).
  apply Listed. simpl. do 7 right. left. reflexivity.
Defined.

(** X26.  [google_docs_insert_image] sends one [insertInlineImage] request;
    its [objectSize] is there only when a width or a height is given, and
    holds only the dimensions that are given. *)
Theorem insert_image_object_size :
  forall (h : Host) (credentials : option (string -> value)) (token : value)
         (document_id image_uri : string) (index : Z)
         (width_pt height_pt : option float) (w : world unit),
    GoogleDocs._get_token h credentials = Ok token ->
    truthy token = true ->
    issued (GoogleDocs.invoke h credentials
              (GoogleDocs.Insert_image document_id image_uri index width_pt
                 height_pt)) w
    = [update_request h (GoogleDocs._GoogleDocsClient token) document_id
         [image_request image_uri index width_pt height_pt]].
Proof.
  intros h credentials token document_id image_uri index width_pt height_pt w
         T Tr.
  simpl GoogleDocs.invoke. unfold GoogleDocs.google_docs_insert_image.
  rewrite (google_tool_issued h credentials token _ w T Tr).
  rewrite issued_except_httpx.
  replace (GoogleDocs.insert_image h document_id image_uri index width_pt
             height_pt)
    with (GoogleDocs.batch_update h document_id
            [image_request image_uri index width_pt height_pt])
    by (destruct width_pt, height_pt; reflexivity).
  apply batch_update_issued.
Qed.

Lemma insert_image_object_size_witness :
  issued (GoogleDocs.invoke (host_serving docs_server tokens_env) None
            (GoogleDocs.Insert_image "d" "https://x/i.png" 1 None
               (Some 40%float))) host
  = [update_request (host_serving docs_server tokens_env)
       (GoogleDocs._GoogleDocsClient (VStr "env-token")) "d"
       [VDict [("insertInlineImage",
                VDict [("location", VDict [("index", VInt 1)]);
                       ("uri", VStr "https://x/i.png");
                       ("objectSize",
                        VDict [("height",
                                VDict [("magnitude", VFloat 40%float);
                                       ("unit", VStr "PT")])])])]]].
Proof.
  exact (insert_image_object_size
           (host_serving docs_server tokens_env) None (VStr "env-token")
           "d" "https://x/i.png" 1 None (Some 40%float) host eq_refl eq_refl).
Defined.

Lemma add_comment_run (h : Host) (document_id content : string)
      (quoted_text : option string) (w : world GoogleDocs.Client) :
  GoogleDocs.add_comment h document_id content quoted_text w
  = (match server h (sent w)
             (comment_request h (self w) document_id content quoted_text) with
     | Responds r => GoogleDocs._handle_response h r
     | Fails e => Raise e
     end,
     {| self := self w;
        sent := sent w
                ++ [comment_request h (self w) document_id content quoted_text] |}).
Proof.
  unfold GoogleDocs.add_comment, comment_request. cbv zeta.
  destruct quoted_text as [q|]; [destruct (String.eqb q "")|];
    cbn [negb]; single_request; reflexivity.
Qed.

(** X27.  [google_docs_add_comment] sends one [POST] to the Drive API
    ([/files/<id>/comments], asking for all fields); the body holds the comment's
    content, and the quoted text only when one is given and is not empty.  The
    tool returns what the response handler made of the answer. *)
Theorem add_comment_request_and_result :
  forall (h : Host) (credentials : option (string -> value)) (token : value)
         (document_id content : string) (quoted_text : option string)
         (w : world unit) (r : Response) (v : value),
    GoogleDocs._get_token h credentials = Ok token ->
    truthy token = true ->
    server h (sent w)
      (comment_request h (GoogleDocs._GoogleDocsClient token) document_id
         content quoted_text)
    = Responds r ->
    GoogleDocs._handle_response h r = Ok v ->
    issued (GoogleDocs.invoke h credentials
              (GoogleDocs.Add_comment document_id content quoted_text)) w
    = [comment_request h (GoogleDocs._GoogleDocsClient token) document_id
         content quoted_text]
    /\ outcome_of (GoogleDocs.invoke h credentials
                     (GoogleDocs.Add_comment document_id content quoted_text)) w
       = Ok v.
Proof.
  intros h credentials token document_id content quoted_text w r v T Tr A H.
  simpl GoogleDocs.invoke. unfold GoogleDocs.google_docs_add_comment. split.
  - rewrite (google_tool_issued h credentials token _ w T Tr).
    rewrite issued_except_httpx. unfold issued. rewrite add_comment_run.
    simpl. apply skipn_app_exact.
  - unfold outcome_of.
    rewrite (google_tool_with_token h credentials token _ w T Tr).
    unfold on_client, except_httpx. rewrite add_comment_run. cbn [self sent].
    rewrite A, H. reflexivity.
Qed.

Lemma add_comment_witness :
  issued (GoogleDocs.invoke (host_answering a_created tokens_env) None
            (GoogleDocs.Add_comment "d" "nice" (Some ""))) host
  = [{| req_method := POST;
        req_url := "https://www.googleapis.com/drive/v3/files/d/comments";
        req_headers := [("Authorization", "Bearer env-token");
                        ("Content-Type", "application/json");
                        ("Accept", "application/json")];
        req_params := [("fields", VStr "*")];
        req_json := Some (VDict [("content", VStr "nice")]);
        req_timeout := 30 |}].
Proof.
  exact (proj1 (add_comment_request_and_result
                  (host_answering a_created tokens_env) None (VStr "env-token")
                  "d" "nice" (Some "") host a_created _
                  eq_refl eq_refl eq_refl eq_refl)).
Defined.

(** ** No tool call repeats a request *)

Lemma bind_sent {O A B} (m : M O A) (k : A -> M O B) (w : world O) :
  (forall a w', sent (snd (k a w')) = sent w') ->
  sent (snd ((x <- m ;; k x)%adapter w)) = sent (snd (m w)).
Proof.
  intros P. unfold bind. destruct (m w) as [[a|e] w']; [apply P | reflexivity].
Qed.

(** A continuation that only computes: every step is a [lift] or a [ret]. *)
Ltac only_computes :=
  intros; unfold bind, lift, ret; cbv beta iota;
  repeat (match goal with
          | |- context [match ?x with _ => _ end] => destruct x
          end; cbv beta iota);
  reflexivity.

Lemma issued_length_one {O A} (m : M O A) (w : world O) (req : Request) :
  sent (snd (m w)) = (sent w ++ [req])%list ->
  (List.length (issued m w) <= 1)%nat.
Proof.
  intros S. unfold issued. rewrite S, skipn_app_exact. simpl. lia.
Qed.

Lemma twitter_tool_without_client (h : Host)
      (credentials : option (string -> value))
      (body : M Twitter.Client value) (w : world unit) :
  (forall token, Twitter._get_token h credentials = Ok token ->
                 truthy token = false) ->
  issued (Twitter.tool h credentials body) w = [].
Proof.
  intros F. unfold issued, Twitter.tool, Twitter._get_client, bind, lift, ret.
  destruct (Twitter._get_token h credentials) as [token|e]; cbn [rbind].
  - rewrite (F token eq_refl). simpl. apply skipn_all_sent.
  - simpl. apply skipn_all_sent.
Qed.

Lemma google_tool_without_client (h : Host)
      (credentials : option (string -> value))
      (body : M GoogleDocs.Client value) (w : world unit) :
  (forall token, GoogleDocs._get_token h credentials = Ok token ->
                 truthy token = false) ->
  issued (GoogleDocs.tool h credentials body) w = [].
Proof.
  intros F.
  unfold issued, GoogleDocs.tool, GoogleDocs._get_client, bind, lift, ret.
  destruct (GoogleDocs._get_token h credentials) as [token|e]; cbn [rbind].
  - rewrite (F token eq_refl). simpl. apply skipn_all_sent.
  - simpl. apply skipn_all_sent.
Qed.

Lemma twitter_exchange_sent (h : Host) (c : Twitter.call)
      (w : world Twitter.Client) :
  needs_identity c = false ->
  exists body req,
    (forall credentials,
        Twitter.invoke h credentials c = Twitter.tool h credentials body)
    /\ sent (snd (body w)) = (sent w ++ [req])%list.
Proof.
  intros N. destruct c; try discriminate N; eexists; eexists;
    (split; [intros; reflexivity|]);
    try unfold Twitter.pass_through;
    (rewrite bind_sent; [|only_computes]);
    unfold Twitter.post_tweet, Twitter.delete_tweet, Twitter.get_tweet,
      Twitter.search_tweets, Twitter.get_user, Twitter.get_followers,
      Twitter.get_following, Twitter.get_user_tweets, Twitter.get_mentions;
    cbv zeta; rewrite bind_get_self; unfold httpx_get, httpx_post, httpx_delete;
    rewrite one_request; reflexivity.
Qed.

Lemma twitter_engagement_body (h : Host) (c : Twitter.call) :
  needs_identity c = true ->
  exists key default op,
    forall credentials,
      Twitter.invoke h credentials c
      = Twitter.tool h credentials (Twitter.report_flag key default (engage h op)).
Proof.
  intros N. destruct c; try discriminate N.
  - exists "liked", false, (Like tweet_id). reflexivity.
  - exists "liked", false, (Unlike tweet_id). reflexivity.
  - exists "retweeted", false, (Retweet tweet_id). reflexivity.
  - exists "retweeted", false, (Undo_retweet tweet_id). reflexivity.
  - exists "following", false, (Follow target_user_id). reflexivity.
  - exists "following", true, (Unfollow target_user_id). reflexivity.
Qed.

Lemma twitter_requests_bounded (h : Host)
      (credentials : option (string -> value)) (c : Twitter.call)
      (w : world unit) :
  (List.length (issued (Twitter.invoke h credentials c) w)
   <= twitter_request_bound c)%nat.
Proof.
  destruct (Twitter._get_token h credentials) as [token|e] eqn:T.
  2: { assert (E : forall body, issued (Twitter.tool h credentials body) w = [])
         by (intros body; apply twitter_tool_without_client;
             intros token T'; rewrite T in T'; discriminate T').
       unfold twitter_request_bound.
       destruct (needs_identity c) eqn:N.
       - destruct (twitter_engagement_body h c N) as (k & d & op & I).
         rewrite I, E. simpl. lia.
       - destruct (twitter_exchange_sent h c (fresh (Twitter._TwitterClient VNone)) N)
           as (body & req & I & _).
         rewrite I, E. simpl. lia. }
  destruct (truthy token) eqn:Tr.
  2: { assert (E : forall body, issued (Twitter.tool h credentials body) w = [])
         by (intros body; apply twitter_tool_without_client;
             intros token' T'; rewrite T in T'; inversion T'; subst; exact Tr).
       unfold twitter_request_bound.
       destruct (needs_identity c) eqn:N.
       - destruct (twitter_engagement_body h c N) as (k & d & op & I).
         rewrite I, E. simpl. lia.
       - destruct (twitter_exchange_sent h c (fresh (Twitter._TwitterClient VNone)) N)
           as (body & req & I & _).
         rewrite I, E. simpl. lia. }
  unfold twitter_request_bound. destruct (needs_identity c) eqn:N.
  - destruct (twitter_engagement_body h c N) as (k & d & op & I).
    rewrite I, (twitter_tool_issued h credentials token _ w T Tr).
    destruct (engage_uncached_issues h op
                {| self := Twitter._TwitterClient token; sent := sent w |}
                eq_refl) as (rest & E & _ & L).
    unfold issued in *. rewrite report_flag_sent, E. simpl. lia.
  - destruct (twitter_exchange_sent h c
                {| self := Twitter._TwitterClient token; sent := sent w |} N)
      as (body & req & I & S).
    rewrite I, (twitter_tool_issued h credentials token _ w T Tr).
    apply (issued_length_one _ _ req S).
Qed.

Lemma format_text_bounded (h : Host) (document_id : string)
      (start_index end_index : Z) (bold italic underline : option bool)
      (font_size_pt : option float) (foreground_color : option value)
      (w : world GoogleDocs.Client) :
  (List.length
     (issued (GoogleDocs.format_text h document_id start_index end_index bold
                italic underline font_size_pt foreground_color) w) <= 1)%nat.
Proof.
  unfold issued. rewrite format_text_run.
  destruct (text_style_given _ _ _ _ _) as [|entry rest].
  - simpl. rewrite skipn_all_sent. simpl. lia.
  - rewrite batch_update_run. simpl. rewrite skipn_app_exact. simpl. lia.
Qed.

Lemma docs_body_bounded (h : Host) (c : GoogleDocs.call)
      (w : world GoogleDocs.Client) :
  exists body,
    (forall credentials,
        GoogleDocs.invoke h credentials c = GoogleDocs.tool h credentials body)
    /\ (List.length (issued body w) <= docs_request_bound c)%nat.
Proof.
  destruct c; eexists; (split; [intros; reflexivity|]);
    unfold docs_request_bound; cbn [appends]; cbv zeta.
  - (* create_document *)
    rewrite issued_except_httpx. unfold issued.
    rewrite bind_sent; [|only_computes].
    unfold GoogleDocs.create_document. single_request. simpl.
    rewrite skipn_app_exact. simpl. lia.
  - rewrite issued_except_httpx, get_document_issued. simpl. lia.
  - rewrite issued_except_httpx. destruct index as [i|].
    + unfold issued. rewrite insert_text_at_index_run, batch_update_run.
      simpl. rewrite skipn_app_exact. simpl. lia.
    + match goal with
      | |- context [GoogleDocs.insert_text h ?d ?t None None] =>
          destruct (insert_text_at_end_issued h w d t None)
            as [E | (requests & E)]; rewrite E; simpl; lia
      end.
  - (* replace_all_text *)
    rewrite issued_except_httpx. unfold issued.
    rewrite bind_sent; [|only_computes].
    unfold GoogleDocs.replace_all_text. cbv zeta. rewrite batch_update_run.
    simpl. rewrite skipn_app_exact. simpl. lia.
  - rewrite issued_except_httpx.
    replace (GoogleDocs.insert_image h document_id image_uri index width_pt
               height_pt)
      with (GoogleDocs.batch_update h document_id
              [image_request image_uri index width_pt height_pt])
      by (destruct width_pt, height_pt; reflexivity).
    rewrite batch_update_issued. simpl. lia.
  - rewrite issued_except_httpx. apply format_text_bounded.
  - (* batch_update *)
    unfold issued. rewrite except_json_sent, except_httpx_sent.
    unfold bind, lift, ret.
    destruct (json_loads h requests_json) as [v|e];
      [|simpl; rewrite skipn_all_sent; simpl; lia].
    destruct v; try (simpl; rewrite skipn_all_sent; simpl; lia).
    rewrite batch_update_run. simpl. rewrite skipn_app_exact. simpl. lia.
  - rewrite issued_except_httpx. unfold GoogleDocs.create_list. cbv zeta.
    rewrite batch_update_issued. simpl. lia.
  - rewrite issued_except_httpx. unfold issued. rewrite add_comment_run.
    simpl. rewrite skipn_app_exact. simpl. lia.
  - rewrite issued_except_httpx. unfold issued.
    rewrite export_document_run_at. simpl. rewrite skipn_app_exact. simpl. lia.
Qed.

Lemma docs_requests_bounded (h : Host)
      (credentials : option (string -> value)) (c : GoogleDocs.call)
      (w : world unit) :
  (List.length (issued (GoogleDocs.invoke h credentials c) w)
   <= docs_request_bound c)%nat.
Proof.
  destruct (docs_body_bounded h c
              {| self := GoogleDocs._GoogleDocsClient
                           (match GoogleDocs._get_token h credentials with
                            | Ok token => token
                            | Raise _ => VNone
                            end);
                 sent := sent w |}) as (body & I & B).
  rewrite I.
  destruct (GoogleDocs._get_token h credentials) as [token|e] eqn:T.
  - destruct (truthy token) eqn:Tr.
    + rewrite (google_tool_issued h credentials token _ w T Tr). exact B.
    + rewrite google_tool_without_client.
      * simpl. lia.
      * intros token' T'. rewrite T in T'. inversion T'; subst. exact Tr.
  - rewrite google_tool_without_client.
    + simpl. lia.
    + intros token' T'. rewrite T in T'. discriminate T'.
Qed.

(** X28.  No tool call repeats a request or sends more than two, whatever the
    credentials are and however the server answers: a Twitter tool sends at
    most one request, or two when it needs the caller's id; a Google Docs tool
    sends at most one, or two when it appends text without an index. *)
Theorem tool_calls_send_at_most_two_requests :
  forall (h : Host) (credentials : option (string -> value)) (w : world unit),
    (forall c : Twitter.call,
        (List.length (issued (Twitter.invoke h credentials c) w)
         <= twitter_request_bound c)%nat)
    /\ (forall c : GoogleDocs.call,
           (List.length (issued (GoogleDocs.invoke h credentials c) w)
            <= docs_request_bound c)%nat).
Proof.
  intros h credentials w. split; intros c.
  - apply twitter_requests_bounded.
  - apply docs_requests_bounded.
Qed.
